(** * Plugin playground: the registry, the two registered plugins and the
      [/api/execute] endpoint

    Shallow embedding of
    - [src/lib/server/plugin-loader.ts]  (registry: [getPlugins], [getPlugin],
      [executeTool], [getToolInputSchema], mock logger and storage),
    - [plugins/weather] and [plugins/pixabay] (plugin exports and tools),
    - [plugins/fetch] (plugin export; it is defined but never registered),
    - [src/routes/api/execute/+server.ts] (the [POST] handler).

    Conventions of the embedding.
    - A JavaScript value is a [JsVal].  Numbers are the integers of
      absolute value up to 2^53, which JavaScript holds exactly (every
      number the modelled code computes with is one), plus [NaN]; strings
      are sequences of code units below 256.  [toLowerCase] is the
      ECMAScript mapping on these code units; the upper-casing of a first
      letter is the ECMAScript mapping on the code units whose upper-case
      form is again made of code units below 256 ([upper_known]).
    - [to_string] is the text of a value whose conversion to a string
      does not throw ([printable]) and whose numbers are in the range
      above ([textual]).  Where the source converts a value that reaches
      it untyped, from a request, the model converts with [ToString],
      which throws as the source does; the statements that depend on
      the text of such a value ask for a [textual] one.
    - A computation that may throw and that writes to the console is a
      value of [M A]: the list of events it emitted, in order, and its
      completion ([Return] or [Throw]).  Apart from the console, the
      events record the points of [executeTool] the specification talks
      about (context built, tool created, tool executed), the outbound
      request of the pixabay tool and the handler's call of [executeTool].
    - What the code reads from outside the process is a parameter: the
      clock ([Date.now()]), the three [manifest.json] files, the network
      behind the pixabay and fetch tools, the host's reading of a string
      as a number. *)

From Stdlib Require Import ZArith String Ascii List Bool.
From stdpp Require Import base option gmap strings list fin_maps pretty.

Local Open Scope Z_scope.
Local Open Scope string_scope.

(** ** JavaScript values *)

Set Warnings "-register-all".

Module Js.

Inductive JsVal : Type :=
| JUndefined
| JNull
| JBool (b : bool)
| JNum (z : Z)
| JNaN
| JStr (s : string)
| JArr (l : list JsVal)
| JObj (m : gmap string JsVal)
(** an object of the host that is not data: a built-in function or
    prototype, named by where it was found *)
| JHost (name : string).

(** [!!v]: ToBoolean. *)
Definition truthy (v : JsVal) : bool :=
  match v with
  | JUndefined | JNull | JNaN => false
  | JBool b => b
  | JNum z => negb (z =? 0)%Z
  | JStr s => negb (String.eqb s "")
  | JArr _ | JObj _ | JHost _ => true
  end.

(** [a || b] *)
Definition or_else (a b : JsVal) : JsVal := if truthy a then a else b.

(** [v === 'lit'] for a string literal. *)
Definition is_str (v : JsVal) (lit : string) : bool :=
  match v with
  | JStr s => String.eqb s lit
  | _ => false
  end.

(** [String(z)] for an integer number of absolute value up to 2^53. *)
Definition num_to_string (z : Z) : string := pretty z.

(** [String(v)], also what a template literal does with [v], for a
    [textual] value [v] (see below). *)
Fixpoint to_string (v : JsVal) : string :=
  match v with
  | JUndefined => "undefined"
  | JNull => "null"
  | JBool true => "true"
  | JBool false => "false"
  | JNum z => num_to_string z
  | JNaN => "NaN"
  | JStr s => s
  | JArr l =>
      (* Array.prototype.join(','): null and undefined give the empty string *)
      let elt (x : JsVal) : string :=
        match x with JUndefined | JNull => "" | _ => to_string x end in
      (fix join (xs : list JsVal) : string :=
         match xs with
         | [] => ""
         | [x] => elt x
         | x :: rest => elt x ++ "," ++ join rest
         end) l
  | JObj _ => "[object Object]"
  | JHost name => name
  end.

(** The conversion of [v] to a string does not throw.  An object that
    has a property [toString] of its own has, as data, one that is not a
    function, and its conversion throws a [TypeError]; an array converts
    its elements other than [null] and [undefined]. *)
Fixpoint printable (v : JsVal) : bool :=
  match v with
  | JArr l =>
      (fix all (xs : list JsVal) : bool :=
         match xs with
         | [] => true
         | x :: rest => printable x && all rest
         end) l
  | JObj m => match m !! "toString" with Some _ => false | None => true end
  | _ => true
  end.

(** The numbers that [v] prints are held exactly. *)
Fixpoint exact_numbers (v : JsVal) : bool :=
  match v with
  | JNum z => (Z.abs z <=? 2 ^ 53)%Z
  | JArr l =>
      (fix all (xs : list JsVal) : bool :=
         match xs with
         | [] => true
         | x :: rest => exact_numbers x && all rest
         end) l
  | _ => true
  end.

(** [to_string v] is the text of [v]: the conversion does not throw and
    the numbers it prints are held exactly. *)
Definition textual (v : JsVal) : bool := printable v && exact_numbers v.

(** Exceptions: every thrown value in the modelled code is an [Error]
    (or a subclass) carrying a message. *)
Inductive Exn : Type :=
| Error (message : string)
| TypeError (message : string).

Definition exn_message (e : Exn) : string :=
  match e with Error m | TypeError m => m end.

(** [String(e)]: the name of the class, then the message. *)
Definition exn_to_string (e : Exn) : string :=
  match e with
  | Error m => "Error: " ++ m
  | TypeError m => "TypeError: " ++ m
  end.

Inductive Completion (A : Type) : Type :=
| Return (a : A)
| Throw (e : Exn).
Arguments Return {A} a.
Arguments Throw {A} e.

End Js.
Export Js.

(** ** Computations: console and execution events, exceptions *)

Inductive Event : Type :=
(** [console.log], [console.warn], [console.error] and their arguments *)
| Console (method : string) (args : list JsVal)
(** [executeTool] built its execution context *)
| ContextBuilt (conversationId : JsVal) (pluginConfig env : JsVal)
(** [toolDef.createTool(context)] returned *)
| ToolCreated (toolId : JsVal)
(** [tool.execute(params)] was entered *)
| ToolExecuted (params : JsVal)
(** the pixabay tool entered its [try] block with this query string *)
| OutboundRequest (query : list (string * string))
(** the [POST] handler called [executeTool] *)
| ExecuteToolCalled (pluginId toolId params env config : JsVal).

Definition M (A : Type) : Type := (list Event * Completion A)%type.

Definition ret {A} (a : A) : M A := ([], Return a).
Definition throw {A} (e : Exn) : M A := ([], Throw e).
Definition emit (e : Event) : M unit := ([e], Return tt).

Definition bind {A B} (m : M A) (f : A -> M B) : M B :=
  match m with
  | (t, Return a) => let '(t', r) := f a in ((t ++ t')%list, r)
  | (t, Throw e) => (t, Throw e)
  end.

(** [try { m } catch (error) { h error }] *)
Definition try_catch {A} (m : M A) (h : Exn -> M A) : M A :=
  match m with
  | (t, Return a) => (t, Return a)
  | (t, Throw e) => let '(t', r) := h e in ((t ++ t')%list, r)
  end.

Declare Scope js_scope.
Delimit Scope js_scope with js.
Notation "'let*' x ':=' m 'in' k" := (bind m (fun x => k))
  (at level 10, x name, m at level 100, k at level 200) : js_scope.
Notation "'run' m 'in' k" := (bind m (fun _ => k))
  (at level 10, m at level 100, k at level 200) : js_scope.
Local Open Scope js_scope.

(** [`${v}`] where the source converts a value that reaches it untyped:
    the conversion throws on a value that is not [printable]. *)
Definition ToString (v : JsVal) : M string :=
  if printable v then ret (to_string v)
  else throw (TypeError "Cannot convert object to primitive value").

Definition trace {A} (m : M A) : list Event := fst m.
Definition outcome {A} (m : M A) : Completion A := snd m.

Definition throws {A} (m : M A) : bool :=
  match outcome m with Throw _ => true | Return _ => false end.

(** ** Property access and strings *)

(** [v.k] for a key [k] that no built-in prototype defines (all the keys
    the modelled code reads from requests, configurations and
    environments are such).  Reading a property of [undefined] or [null]
    throws. *)
Definition get (v : JsVal) (k : string) : M JsVal :=
  match v with
  | JUndefined =>
      throw (TypeError ("Cannot read properties of undefined (reading '" ++ k ++ "')"))
  | JNull =>
      throw (TypeError ("Cannot read properties of null (reading '" ++ k ++ "')"))
  | JObj m => ret (default JUndefined (m !! k))
  | _ => ret JUndefined
  end.

(** The field [k] of a result, [undefined] when there is none. *)
Definition field (v : JsVal) (k : string) : JsVal :=
  match v with
  | JObj m => default JUndefined (m !! k)
  | _ => JUndefined
  end.

(** An object literal. *)
Definition obj (fields : list (string * JsVal)) : JsVal :=
  JObj (list_to_map fields).

(** What [Object.prototype] gives for a key an object literal does not
    define itself. *)
Definition Object_prototype (k : string) : JsVal :=
  if String.eqb k "constructor" then JHost "function Object() { [native code] }"
  else if String.eqb k "__proto__" then JHost "[object Object]"
  else if existsb (String.eqb k)
            ["toString"; "toLocaleString"; "valueOf"; "hasOwnProperty";
             "isPrototypeOf"; "propertyIsEnumerable"; "__defineGetter__";
             "__defineSetter__"; "__lookupGetter__"; "__lookupSetter__"]
       then JHost ("function " ++ k ++ "() { [native code] }")
  else JUndefined.

(** [table[k]] for an object literal [table] and a computed key. *)
Definition index (table : gmap string JsVal) (k : string) : JsVal :=
  match table !! k with
  | Some v => v
  | None => Object_prototype k
  end.

(** [c.toLowerCase()] for one code unit: the letters A-Z and the letters
    from 192 to 222 other than the multiplication sign 215 move up by 32,
    the rest stays. *)
Definition lower_ascii (c : ascii) : ascii :=
  let n := N_of_ascii c in
  if ((65 <=? n) && (n <=? 90) || (192 <=? n) && (n <=? 222) && negb (n =? 215))%N
  then ascii_of_N (n + 32) else c.

(** [c.toUpperCase()] for one code unit: the letters a-z and the letters
    from 224 to 254 other than the division sign 247 move down by 32, the
    sharp s (223) becomes [SS], the rest stays.  The upper-case forms of
    the micro sign (181) and of y with diaeresis (255) are not code units
    below 256; [upper_known] excludes them. *)
Definition upper_unit (c : ascii) : string :=
  let n := N_of_ascii c in
  if ((97 <=? n) && (n <=? 122) || (224 <=? n) && (n <=? 254) && negb (n =? 247))%N
  then String (ascii_of_N (n - 32)) EmptyString
  else if (n =? 223)%N then "SS"
  else String c EmptyString.

(** The first code unit of [s], if any, has its upper-case form among
    the strings of the model. *)
Definition upper_known (s : string) : bool :=
  match s with
  | EmptyString => true
  | String c _ =>
      let n := N_of_ascii c in negb ((n =? 181) || (n =? 255))%N
  end.

Fixpoint toLowerCase (s : string) : string :=
  match s with
  | EmptyString => EmptyString
  | String c r => String (lower_ascii c) (toLowerCase r)
  end.

(** [s.charAt(0).toUpperCase() + s.slice(1)] *)
Definition capitalize (s : string) : string :=
  match s with
  | EmptyString => EmptyString
  | String c r => upper_unit c ++ r
  end.

(** [Math.round(n / d)] for integers [n] and [d > 0]: the nearest integer,
    a tie going up. *)
Definition Math_round (n d : Z) : Z := (2 * n + d) `div` (2 * d).

(** ** [src/types.ts] *)

Record PluginToolDeclaration : Type := {
  decl_id : string;
  decl_name : string;
  decl_description : string;
  decl_category : option string;
  decl_icon : option string;
  decl_requiresDatasource : option bool;
  decl_requiresMicrosoftAuth : option bool;
  decl_requiresGmailAuth : option bool;
  decl_systemPromptInstructions : JsVal
}.

Record PluginManifest : Type := {
  manifest_id : string;
  manifest_name : string;
  manifest_version : string;
  manifest_description : string;
  manifest_author : string;
  manifest_license : string;
  manifest_icon : option string;
  manifest_category : option string;
  manifest_homepage : option string;
  manifest_repository : option string;
  manifest_minCoreVersion : option string;
  manifest_requiredEnvVars : option (list string);
  manifest_optionalEnvVars : option (list string);
  manifest_configSchema : option JsVal;
  manifest_tools : list PluginToolDeclaration;
  manifest_i18n : option JsVal
}.

Record PluginLogger : Type := {
  logger_debug : string -> JsVal -> M unit;
  logger_info : string -> JsVal -> M unit;
  logger_warn : string -> JsVal -> M unit;
  logger_error : string -> JsVal -> M unit
}.

Record PluginStorageAPI : Type := {
  (** [uploadFile(fileName, buffer, contentType)]; the buffer is its bytes *)
  uploadFile : string -> string -> string -> M string;
  getFileUrl : string -> string
}.

(** [PluginContext extends ToolContext]; an optional field that is not
    given is [JUndefined]. *)
Record PluginContext : Type := {
  datasourceId : JsVal;
  conversationId : JsVal;
  userId : JsVal;
  userEmail : JsVal;
  toolOptions : JsVal;
  locale : JsVal;
  pluginConfig : JsVal;
  env : JsVal;
  logger : PluginLogger;
  storage : PluginStorageAPI
}.

(** The object [tool({ description, inputSchema, execute })] of the AI SDK:
    [tool] returns its argument, which has no [parameters] field. *)
Record AnyTool : Type := {
  description : string;
  inputSchema : JsVal;
  parameters : JsVal;
  execute : JsVal -> M JsVal
}.

(** [jsonSchema(schema)] of the AI SDK wraps the schema in an object whose
    [jsonSchema] property is the schema. *)
Definition jsonSchema (schema : JsVal) : JsVal := obj [("jsonSchema", schema)].

Definition tool (description : string) (inputSchema : JsVal)
    (execute : JsVal -> M JsVal) : AnyTool :=
  {| description := description; inputSchema := inputSchema;
     parameters := JUndefined; execute := execute |}.

Record PluginToolDefinition : Type := {
  tool_id : string;
  createTool : PluginContext -> M AnyTool;
  isAvailable : option (JsVal -> M bool)
}.

Record PluginExport : Type := {
  export_manifest : PluginManifest;
  export_tools : list PluginToolDefinition;
  export_onLoad : option (M unit);
  export_onUnload : option (M unit);
  (** returns [true] or the reason, a string *)
  export_validateConfig : option (JsVal -> M JsVal)
}.

(** The double-quote character. *)
Definition dquote : string := String (ascii_of_nat 34) EmptyString.

(** ** [plugins/weather/tools/get-weather.ts] *)

Module Weather.

Definition entry (condition : string) (tempCelsius humidity windSpeed : Z) : JsVal :=
  obj [("condition", JStr condition); ("tempCelsius", JNum tempCelsius);
       ("humidity", JNum humidity); ("windSpeed", JNum windSpeed)].

Definition DEMO_WEATHER : gmap string JsVal :=
  list_to_map
    [("paris", entry "Partiellement nuageux" 18 65 12);
     ("london", entry "Pluvieux" 14 80 20);
     ("new york", entry "Ensoleille" 22 55 8);
     ("tokyo", entry "Nuageux" 20 70 10);
     ("sydney", entry "Ensoleille" 25 50 15);
     ("default", entry "Variable" 20 60 10)].

Definition COUNTRY_MAP : gmap string JsVal :=
  list_to_map
    [("paris", JStr "France");
     ("london", JStr "Royaume-Uni");
     ("new york", JStr "Etats-Unis");
     ("tokyo", JStr "Japon");
     ("sydney", JStr "Australie")].

(** [city.toLowerCase()] needs [city] to be a string; [city] is truthy
    here, so it is not [undefined] or [null]. *)
Definition string_receiver (city : JsVal) : M string :=
  match city with
  | JStr s => ret s
  | JUndefined | JNull =>
      throw (TypeError "Cannot read properties of undefined (reading 'toLowerCase')")
  | _ => throw (TypeError "city.toLowerCase is not a function")
  end.

(** [Math.round((tempCelsius * 9) / 5 + 32)].  [tempCelsius] is a number
    of the table, or [undefined] when the entry is not one of the table's
    own, and [undefined * 9] is [NaN].  [Math_round] rounds the exact
    quotient; the floating-point operations of the source give the same
    number for the temperatures of the table and for every integer [c]
    of absolute value up to 2^32, where [9c], [9c/5] (correctly rounded,
    at a distance of at least 0.1 from a half) and [9c/5 + 32] stay far
    below 2^52.  For larger [c] the product is no longer exact. *)
Definition fahrenheit (tempCelsius : JsVal) : JsVal :=
  match tempCelsius with
  | JNum c => JNum (Math_round (c * 9 + 32 * 5) 5)
  | _ => JNaN
  end.

Definition schema (defaultCity : JsVal) : JsVal :=
  obj [("type", JStr "object");
       ("properties",
         obj [("city",
                obj [("type", JStr "string");
                     ("description",
                       JStr ("Nom de la ville (ex: Paris, London, Tokyo). Par defaut: "
                             ++ to_string defaultCity))])]);
       ("required", JArr [])].

Definition execute_get_weather (context : PluginContext)
    (defaultCity units : JsVal) (params : JsVal) : M JsVal :=
  let* given := get params "city" in
  let city := or_else given defaultCity in
  let* cityStr := string_receiver city in
  let cityLower := toLowerCase cityStr in
  run logger_info (logger context) "Getting weather"
        (obj [("city", city); ("units", units)]) in
  let data := or_else (index DEMO_WEATHER cityLower) (index DEMO_WEATHER "default") in
  let country := or_else (index COUNTRY_MAP cityLower) (JStr "Inconnu") in
  let* tempCelsius := get data "tempCelsius" in
  let* condition := get data "condition" in
  let* humidity := get data "humidity" in
  let* windSpeed := get data "windSpeed" in
  let '(temperature, unit) :=
    if is_str units "fahrenheit" then (fahrenheit tempCelsius, "F")
    else (tempCelsius, "C") in
  ret (obj
    [("city", JStr (capitalize cityStr));
     ("country", country);
     ("temperature", temperature);
     ("unit", JStr unit);
     ("condition", condition);
     ("humidity", humidity);
     ("windSpeed", windSpeed);
     ("message",
       JStr ("Meteo a " ++ cityStr ++ ": " ++ to_string condition ++ ", "
             ++ to_string temperature ++ "°" ++ unit ++ ", humidite "
             ++ to_string humidity ++ "%, vent " ++ to_string windSpeed
             ++ " km/h. (Donnees de demonstration)"))]).

Definition createGetWeatherTool (context : PluginContext) : M AnyTool :=
  let* configured := get (pluginConfig context) "defaultCity" in
  let* defaultCity :=
    if truthy configured then ret configured
    else let* fromEnv := get (env context) "WEATHER_DEFAULT_CITY" in
         ret (or_else fromEnv (JStr "Paris")) in
  let* configuredUnits := get (pluginConfig context) "units" in
  let units := or_else configuredUnits (JStr "celsius") in
  (* the template of the description converts [defaultCity], a value of
     the configuration; the one of the schema converts it again *)
  let* defaultCityText := ToString defaultCity in
  ret (tool
    ("Obtient les conditions meteorologiques actuelles pour une ville. Ville par defaut: "
     ++ defaultCityText
     ++ ". ATTENTION: Ce sont des donnees de demonstration, pas de vraies donnees meteo.")
    (jsonSchema (schema defaultCity))
    (execute_get_weather context defaultCity units)).

(** *** [plugins/weather/index.ts] *)

Definition tools : list PluginToolDefinition :=
  [ {| tool_id := "get_weather";
       createTool := fun ctx => createGetWeatherTool ctx;
       isAvailable := Some (fun _ => ret true) |} ].

Definition validateConfig (config : JsVal) : M JsVal :=
  let* units := get config "units" in
  if truthy units && negb (is_str units "celsius" || is_str units "fahrenheit")
  then ret (JStr ("units doit etre " ++ dquote ++ "celsius" ++ dquote ++ " ou "
                  ++ dquote ++ "fahrenheit" ++ dquote))
  else ret (JBool true).

Definition plugin (manifest : PluginManifest) : PluginExport :=
  {| export_manifest := manifest;
     export_tools := tools;
     export_onLoad := Some (emit (Console "log" [JStr "[weather] Demo weather plugin loaded"]));
     export_onUnload := None;
     export_validateConfig := Some validateConfig |}.

End Weather.

(** ** Numbers read from untyped values *)

(** [ToNumber(v)] for a [printable] value [v], [None] standing for [NaN].
    [StringToNumber] is the host's parsing of a numeric string. *)
Definition to_number (StringToNumber : string -> option Z) (v : JsVal) : option Z :=
  match v with
  | JUndefined | JNaN | JObj _ | JHost _ => None
  | JNull => Some 0
  | JBool b => Some (if b then 1 else 0)
  | JNum z => Some z
  | JStr s => StringToNumber s
  | JArr _ => StringToNumber (to_string v)
  end.

(** [a < b] and [a > b] on numbers: false as soon as one side is [NaN]. *)
Definition num_lt (a b : option Z) : bool :=
  match a, b with Some x, Some y => (x <? y)%Z | _, _ => false end.
Definition num_gt (a b : option Z) : bool := num_lt b a.

(** ** [plugins/pixabay] *)

Module Pixabay.

Record Messages : Type := {
  noImagesFound : string;
  imagesFound : JsVal -> string -> string;
  errorApiSearch : string -> JsVal -> string -> string;
  errorNotConfigured : string;
  errorImageSearch : string -> string
}.

Definition MESSAGES_fr : Messages :=
  {| noImagesFound := "Aucune image trouvee pour cette recherche.";
     imagesFound := fun count total =>
       to_string count ++ " image(s) trouvee(s) sur " ++ total ++ " resultats au total.";
     errorApiSearch := fun api status statusText =>
       "Erreur lors de la recherche " ++ api ++ ": " ++ to_string status ++ " - " ++ statusText;
     errorNotConfigured := "L'API Pixabay n'est pas configuree (PIXABAY_API_KEY manquant).";
     errorImageSearch := fun error => "Erreur lors de la recherche d'images: " ++ error |}.

Definition MESSAGES_en : Messages :=
  {| noImagesFound := "No images found for this search.";
     imagesFound := fun count total =>
       to_string count ++ " image(s) found out of " ++ total ++ " total results.";
     errorApiSearch := fun api status statusText =>
       "Error searching " ++ api ++ ": " ++ to_string status ++ " - " ++ statusText;
     errorNotConfigured := "Pixabay API is not configured (missing PIXABAY_API_KEY).";
     errorImageSearch := fun error => "Error searching images: " ++ error |}.

Definition getMessages (locale : JsVal) : Messages :=
  if is_str locale "en" then MESSAGES_en else MESSAGES_fr.

(** [URLSearchParams.prototype.set]: the first pair of that name takes the
    value and the other pairs of that name go; a new name is appended. *)
Fixpoint searchParams_set (name value : string) (l : list (string * string))
    : list (string * string) :=
  match l with
  | [] => [(name, value)]
  | (n, v) :: rest =>
      if String.eqb n name
      then (name, value) :: filter (fun p => negb (String.eqb (fst p) name)) rest
      else (n, v) :: searchParams_set name value rest
  end.

(** [if (v) searchParams.set(name, v)]: the value is converted to a
    string, by [String(v)] or by [set]. *)
Definition set_if_given (name : string) (v : JsVal) (l : list (string * string))
    : M (list (string * string)) :=
  if truthy v then
    let* text := ToString v in
    ret (searchParams_set name text l)
  else ret l.

Definition string_prop (text : string) : JsVal :=
  obj [("type", JStr "string"); ("description", JStr text)].
Definition enum_prop (values : list string) (text : string) : JsVal :=
  obj [("type", JStr "string"); ("enum", JArr (map JStr values));
       ("description", JStr text)].
Definition number_prop (text : string) : JsVal :=
  obj [("type", JStr "number"); ("description", JStr text)].
Definition boolean_prop (text : string) : JsVal :=
  obj [("type", JStr "boolean"); ("description", JStr text)].

Definition schema (defaultLanguage : JsVal) (safeSearch : bool) (defaultPerPage : JsVal)
    : JsVal :=
  obj [("type", JStr "object");
       ("properties", obj
         [("q", string_prop
             "Terme de recherche (max 100 caracteres). Sois precis pour de meilleurs resultats. En anglais de preference.");
          ("lang", enum_prop
             ["cs"; "da"; "de"; "en"; "es"; "fr"; "id"; "it"; "hu"; "nl"; "no"; "pl";
              "pt"; "ro"; "sk"; "fi"; "sv"; "tr"; "vi"; "th"; "bg"; "ru"; "el"; "ja";
              "ko"; "zh"]
             ("Code langue pour la recherche. Par defaut: " ++ to_string defaultLanguage));
          ("image_type", enum_prop ["all"; "photo"; "illustration"; "vector"]
             "Filtrer par type d'image. Par defaut: all");
          ("orientation", enum_prop ["all"; "horizontal"; "vertical"]
             "Filtrer par orientation. Par defaut: all");
          ("category", enum_prop
             ["backgrounds"; "fashion"; "nature"; "science"; "education"; "feelings";
              "health"; "people"; "religion"; "places"; "animals"; "industry";
              "computer"; "food"; "sports"; "transportation"; "travel"; "buildings";
              "business"; "music"]
             "Filtrer par categorie");
          ("min_width", number_prop "Largeur minimum en pixels");
          ("min_height", number_prop "Hauteur minimum en pixels");
          ("colors", enum_prop
             ["grayscale"; "transparent"; "red"; "orange"; "yellow"; "green";
              "turquoise"; "blue"; "lilac"; "pink"; "white"; "gray"; "black"; "brown"]
             "Filtrer par couleur dominante");
          ("editors_choice", boolean_prop
             "Selectionner uniquement les images 'Choix de l'editeur'. Par defaut: false");
          ("safesearch", boolean_prop
             ("Filtrer le contenu adulte. Par defaut: " ++ to_string (JBool safeSearch)));
          ("order", enum_prop ["popular"; "latest"]
             "Ordre de tri des resultats. Par defaut: popular");
          ("page", number_prop "Numero de page pour la pagination. Par defaut: 1");
          ("per_page", number_prop
             ("Nombre de resultats par page (3-200). Par defaut: "
              ++ to_string defaultPerPage))]);
       ("required", JArr [JStr "q"])].

Definition tool_description : string :=
  "Recherche des images libres de droits sur Pixabay. Retourne une liste d'images correspondant aux criteres de recherche avec URLs, metadonnees et statistiques. Utilise cet outil pour aider les utilisateurs a trouver des images pour leurs projets, presentations ou designs.".

Section Network.

(** What happens inside the [try] block of the tool's [execute]: the
    request to the Pixabay API with the given query string, the download
    of every hit, the uploads through [context.storage], the log lines
    through [context.logger] and the formatting of the answer in the
    messages of [locale].  It depends on the network; it may return a
    result or throw.  Of the context the block reads the locale, the
    logger and the storage, nothing else. *)
Variable search :
  list (string * string) -> JsVal -> PluginLogger -> PluginStorageAPI -> M JsVal.

Definition execute_search_images (context : PluginContext)
    (defaultLanguage : JsVal) (safeSearch : bool) (defaultPerPage : JsVal)
    (params : JsVal) : M JsVal :=
  let msg := getMessages (locale context) in
  let* q := get params "q" in
  run logger_info (logger context) "Tool called" (obj [("query", q); ("params", params)]) in
  let* apiKey := get (env context) "PIXABAY_API_KEY" in
  if negb (truthy apiKey) then
    run logger_error (logger context) "PIXABAY_API_KEY is not configured" JUndefined in
    ret (obj [("message", JStr (errorNotConfigured msg))])
  else
    (* the object literal, with its four [String(...)] *)
    let* lang := get params "lang" in
    let* image_type := get params "image_type" in
    let* orientation := get params "orientation" in
    let* editors_choice := get params "editors_choice" in
    let* editors_choice_text := ToString (or_else editors_choice (JBool false)) in
    let* safesearch := get params "safesearch" in
    let* safesearch_text :=
      ToString (match safesearch with
                | JUndefined => JBool safeSearch
                | _ => safesearch
                end) in
    let* order := get params "order" in
    let* page := get params "page" in
    let* page_text := ToString (or_else page (JNum 1)) in
    let* per_page := get params "per_page" in
    let* per_page_text := ToString (or_else per_page defaultPerPage) in
    (* [new URLSearchParams(...)] converts the other values, in the order
       of the keys *)
    let* key_text := ToString apiKey in
    let* q_text := ToString q in
    let* lang_text := ToString (or_else lang defaultLanguage) in
    let* image_type_text := ToString (or_else image_type (JStr "all")) in
    let* orientation_text := ToString (or_else orientation (JStr "all")) in
    let* order_text := ToString (or_else order (JStr "popular")) in
    let init : list (string * string) :=
      [("key", key_text);
       ("q", q_text);
       ("lang", lang_text);
       ("image_type", image_type_text);
       ("orientation", orientation_text);
       ("editors_choice", editors_choice_text);
       ("safesearch", safesearch_text);
       ("order", order_text);
       ("page", page_text);
       ("per_page", per_page_text)] in
    let* category := get params "category" in
    let* with_category := set_if_given "category" category init in
    let* min_width := get params "min_width" in
    let* with_min_width := set_if_given "min_width" min_width with_category in
    let* min_height := get params "min_height" in
    let* with_min_height := set_if_given "min_height" min_height with_min_width in
    let* colors := get params "colors" in
    let* searchParams := set_if_given "colors" colors with_min_height in
    try_catch
      (run emit (OutboundRequest searchParams) in
       search searchParams (locale context) (logger context) (storage context))
      (fun error =>
         run logger_error (logger context) "Error searching images"
               (obj [("error", JHost (exn_to_string error))]) in
         ret (obj [("message", JStr (errorImageSearch msg (exn_message error)))])).

(** The descriptions of the schema print the defaults of the
    configuration; they are the source's for defaults that are
    [textual]. *)
Definition createSearchPixabayTool (context : PluginContext) : M AnyTool :=
  let* language := get (pluginConfig context) "defaultLanguage" in
  let defaultLanguage := or_else language (JStr "en") in
  let* safe := get (pluginConfig context) "safeSearch" in
  let safeSearch := match safe with JBool false => false | _ => true end in
  let* perPage := get (pluginConfig context) "defaultPerPage" in
  let defaultPerPage := or_else perPage (JNum 6) in
  ret (tool tool_description
         (jsonSchema (schema defaultLanguage safeSearch defaultPerPage))
         (execute_search_images context defaultLanguage safeSearch defaultPerPage)).

(** *** [plugins/pixabay/index.ts] *)

Definition tools : list PluginToolDefinition :=
  [ {| tool_id := "search_images";
       createTool := fun ctx => createSearchPixabayTool ctx;
       isAvailable := Some (fun env =>
         let* key := get env "PIXABAY_API_KEY" in ret (truthy key)) |} ].

Variable StringToNumber : string -> option Z.

Definition validateConfig (config : JsVal) : M JsVal :=
  let* perPage := get config "defaultPerPage" in
  match perPage with
  | JUndefined => ret (JBool true)
  | _ =>
      let n := to_number StringToNumber perPage in
      if num_lt n (Some 3) || num_gt n (Some 20)
      then ret (JStr "defaultPerPage doit etre entre 3 et 20")
      else ret (JBool true)
  end.

Definition plugin (manifest : PluginManifest) : PluginExport :=
  {| export_manifest := manifest;
     export_tools := tools;
     export_onLoad :=
       Some (emit (Console "log" [JStr "[pixabay] Pixabay image search plugin loaded"]));
     export_onUnload := None;
     export_validateConfig := Some validateConfig |}.

End Network.

End Pixabay.

(** ** [plugins/fetch] *)

Module Fetch.

Definition schema (defaultMaxLength : JsVal) : JsVal :=
  obj [("type", JStr "object");
       ("properties", obj
         [("url", obj [("type", JStr "string");
                       ("description", JStr "L'URL a recuperer (ex: https://example.com)")]);
          ("max_length", obj [("type", JStr "number");
                              ("description",
                                JStr ("Nombre maximum de caracteres a retourner (defaut: "
                                      ++ to_string defaultMaxLength ++ ")"))]);
          ("start_index", obj [("type", JStr "number");
                               ("description",
                                 JStr "Index de depart dans le contenu pour la pagination (defaut: 0)")]);
          ("raw", obj [("type", JStr "boolean");
                       ("description",
                         JStr "Si true, retourne le HTML brut sans conversion en markdown (defaut: false)")])]);
       ("required", JArr [JStr "url"])].

Section Network.

(** The tool's [execute]: it logs through [context.logger], requests the
    URL with the given user agent, converts and paginates what comes
    back.  All of it depends on the network. *)
Variable fetch_url :
  PluginLogger -> forall (defaultMaxLength userAgent params : JsVal), M JsVal.

(** The description of [max_length] prints the default of the
    configuration; it is the source's for a default that is [textual]. *)
Definition createFetchUrlTool (context : PluginContext) : M AnyTool :=
  let* maxLength := get (pluginConfig context) "maxLength" in
  let defaultMaxLength := or_else maxLength (JNum 5000) in
  let* agent := get (pluginConfig context) "userAgent" in
  let userAgent := or_else agent (JStr "Mozilla/5.0 (compatible; PluginFetch/1.0)") in
  ret (tool
    "Recupere le contenu d'une URL et le convertit en markdown lisible. Supporte la pagination pour les contenus longs."
    (jsonSchema (schema defaultMaxLength))
    (fetch_url (logger context) defaultMaxLength userAgent)).

Definition tools : list PluginToolDefinition :=
  [ {| tool_id := "fetch_url";
       createTool := fun ctx => createFetchUrlTool ctx;
       isAvailable := Some (fun _ => ret true) |} ].

Variable StringToNumber : string -> option Z.

Definition validateConfig (config : JsVal) : M JsVal :=
  let* maxLength := get config "maxLength" in
  match maxLength with
  | JUndefined => ret (JBool true)
  | _ =>
      let n := to_number StringToNumber maxLength in
      if num_lt n (Some 100) || num_gt n (Some 100000)
      then ret (JStr "maxLength doit etre entre 100 et 100000")
      else ret (JBool true)
  end.

Definition plugin (manifest : PluginManifest) : PluginExport :=
  {| export_manifest := manifest;
     export_tools := tools;
     export_onLoad := Some (emit (Console "log" [JStr "[fetch] Fetch URL plugin loaded"]));
     export_onUnload := None;
     export_validateConfig := Some validateConfig |}.

End Network.

End Fetch.

(** ** [src/lib/server/plugin-loader.ts] *)

Record ToolInfo : Type := {
  info_tool_id : string;
  info_tool_name : string;
  info_tool_description : string
}.

Record PluginInfo : Type := {
  info_id : string;
  info_name : string;
  info_version : string;
  info_description : string;
  info_author : string;
  info_icon : option string;
  info_category : option string;
  info_requiredEnvVars : list string;
  info_optionalEnvVars : list string;
  info_configSchema : option JsVal;
  info_tools : list ToolInfo
}.

Record ExecuteToolOptions : Type := {
  opt_pluginId : JsVal;
  opt_toolId : JsVal;
  opt_params : JsVal;
  opt_env : JsVal;
  opt_config : JsVal
}.

(** The logger and the storage are made for the [pluginId] of a plugin
    that was found: a string. *)
Definition createMockLogger (pluginId : JsVal) : PluginLogger :=
  let line (method level : string) (message : string) (data : JsVal) : M unit :=
    emit (Console method
            [JStr ("[" ++ to_string pluginId ++ "] " ++ level ++ ":");
             JStr message; or_else data (JStr "")]) in
  {| logger_debug := line "log" "DEBUG";
     logger_info := line "log" "INFO";
     logger_warn := line "warn" "WARN";
     logger_error := line "error" "ERROR" |}.

(** The [files] map of the mock is made anew by every call of
    [createMockStorage] and is only written to: nothing reads it. *)
Definition createMockStorage (pluginId : JsVal) : PluginStorageAPI :=
  {| uploadFile := fun fileName buffer contentType =>
       let path := "mock-storage/" ++ to_string pluginId ++ "/" ++ fileName in
       run emit (Console "log"
                   [JStr ("[" ++ to_string pluginId ++ "] Mock file uploaded: " ++ path)]) in
       ret ("/api/mock-files/" ++ path);
     getFileUrl := fun fileName =>
       "/api/mock-files/mock-storage/" ++ to_string pluginId ++ "/" ++ fileName |}.

Module Loader.

Section Registry.

(** The registry, and the clock read by [Date.now()]. *)
Variable loadedPlugins : list PluginExport.
Variable now : Z.

Definition getPlugins : list PluginInfo :=
  map (fun plugin =>
         let m := export_manifest plugin in
         {| info_id := manifest_id m;
            info_name := manifest_name m;
            info_version := manifest_version m;
            info_description := manifest_description m;
            info_author := manifest_author m;
            info_icon := manifest_icon m;
            info_category := manifest_category m;
            info_requiredEnvVars := default [] (manifest_requiredEnvVars m);
            info_optionalEnvVars := default [] (manifest_optionalEnvVars m);
            info_configSchema := manifest_configSchema m;
            info_tools :=
              map (fun t => {| info_tool_id := decl_id t;
                               info_tool_name := decl_name t;
                               info_tool_description := decl_description t |})
                  (manifest_tools m) |})
      loadedPlugins.

Definition getPlugin (pluginId : JsVal) : option PluginExport :=
  find (fun p => is_str pluginId (manifest_id (export_manifest p))) loadedPlugins.

Definition findTool (plugin : PluginExport) (toolId : JsVal)
    : option PluginToolDefinition :=
  find (fun t => is_str toolId (tool_id t)) (export_tools plugin).

Definition executionContext (pluginId config env : JsVal) : PluginContext :=
  {| datasourceId := JNull;
     conversationId := JStr ("test-conversation-" ++ num_to_string now);
     userId := JStr "test-user";
     userEmail := JStr "test@example.com";
     toolOptions := JUndefined;
     locale := JStr "fr";
     pluginConfig := config;
     env := env;
     logger := createMockLogger pluginId;
     storage := createMockStorage pluginId |}.

Definition executeTool (options : ExecuteToolOptions) : M JsVal :=
  let pluginId := opt_pluginId options in
  let toolId := opt_toolId options in
  let params := opt_params options in
  let env := opt_env options in
  let config := opt_config options in
  match getPlugin pluginId with
  | None =>
      let* plugin_text := ToString pluginId in
      throw (Error ("Plugin not found: " ++ plugin_text))
  | Some plugin =>
      match findTool plugin toolId with
      | None =>
          let* tool_text := ToString toolId in
          let* plugin_text := ToString pluginId in
          throw (Error ("Tool not found: " ++ tool_text ++ " in plugin " ++ plugin_text))
      | Some toolDef =>
          (* from here on [pluginId] and [toolId] are strings: [===] found them *)
          let* available :=
            match isAvailable toolDef with
            | Some isAvailable => isAvailable env
            | None => ret true
            end in
          if negb available then
            throw (Error ("Tool " ++ to_string toolId
                          ++ " is not available (missing required env vars)"))
          else
            let context := executionContext pluginId config env in
            run emit (ContextBuilt (conversationId context) config env) in
            let* tool := createTool toolDef context in
            run emit (ToolCreated toolId) in
            run emit (ToolExecuted params) in
            execute tool params
      end
  end.

(** What [executeTool] does once the tool has passed the gate: the
    context is built from the call's own [config] and [env], the tool is
    created from it and executed on [params]. *)
Definition invocation (toolDef : PluginToolDefinition) (options : ExecuteToolOptions)
    : M JsVal :=
  let context :=
    executionContext (opt_pluginId options) (opt_config options) (opt_env options) in
  run emit (ContextBuilt (conversationId context) (opt_config options) (opt_env options)) in
  let* tool := createTool toolDef context in
  run emit (ToolCreated (opt_toolId options)) in
  run emit (ToolExecuted (opt_params options)) in
  execute tool (opt_params options).

(** The error of the gate, for the [toolId] of a tool that was found: a
    string. *)
Definition unavailable (toolId : JsVal) : Exn :=
  Error ("Tool " ++ to_string toolId ++ " is not available (missing required env vars)").

Definition minimalContext (pluginId : JsVal) : PluginContext :=
  {| datasourceId := JNull;
     conversationId := JNull;
     userId := JUndefined;
     userEmail := JUndefined;
     toolOptions := JUndefined;
     locale := JUndefined;
     pluginConfig := obj [];
     env := obj [];
     logger := createMockLogger pluginId;
     storage := createMockStorage pluginId |}.

(** The schema found in [holder] ([tool.inputSchema] or
    [tool.parameters]), if it has one of the two known shapes. *)
Definition schemaIn (holder : JsVal) : M (option JsVal) :=
  if truthy holder then
    let* inner := get holder "jsonSchema" in
    if truthy inner then ret (Some inner)
    else
      let* type := get holder "type" in
      let* properties := get holder "properties" in
      if is_str type "object" && truthy properties then ret (Some holder)
      else ret None
  else ret None.

Definition getToolInputSchema (pluginId toolId : JsVal) : M JsVal :=
  match getPlugin pluginId with
  | None => ret JNull
  | Some plugin =>
      match findTool plugin toolId with
      | None => ret JNull
      | Some toolDef =>
          let* tool := createTool toolDef (minimalContext pluginId) in
          let* fromInput := schemaIn (inputSchema tool) in
          match fromInput with
          | Some schema => ret schema
          | None =>
              let* fromParameters := schemaIn (parameters tool) in
              match fromParameters with
              | Some schema => ret schema
              | None => ret JNull
              end
          end
      end
  end.

End Registry.

End Loader.

(** ** The running playground *)

Record Response : Type := {
  status : Z;
  body : JsVal
}.

(** [json(data, { status })] of SvelteKit; the status is 200 when none is
    given. *)
Definition json (data : JsVal) (status : Z) : Response :=
  {| status := status; body := data |}.

Section Playground.

(** The three [manifest.json] files are not part of the modelled source. *)
Variable weatherManifest pixabayManifest fetchManifest : PluginManifest.
Variable now : Z.
Variable search :
  list (string * string) -> JsVal -> PluginLogger -> PluginStorageAPI -> M JsVal.
Variable fetch_url : PluginLogger -> JsVal -> JsVal -> JsVal -> M JsVal.
Variable StringToNumber : string -> option Z.

Definition weatherPlugin : PluginExport := Weather.plugin weatherManifest.
Definition pixabayPlugin : PluginExport :=
  Pixabay.plugin search StringToNumber pixabayManifest.
Definition fetchPlugin : PluginExport :=
  Fetch.plugin fetch_url StringToNumber fetchManifest.

Definition loadedPlugins : list PluginExport := [weatherPlugin; pixabayPlugin].

Definition getPlugins : list PluginInfo := Loader.getPlugins loadedPlugins.
Definition getPlugin (pluginId : JsVal) : option PluginExport :=
  Loader.getPlugin loadedPlugins pluginId.
Definition executeTool (options : ExecuteToolOptions) : M JsVal :=
  Loader.executeTool loadedPlugins now options.
Definition getToolInputSchema (pluginId toolId : JsVal) : M JsVal :=
  Loader.getToolInputSchema loadedPlugins pluginId toolId.

(** *** [src/routes/api/execute/+server.ts] *)

(** [const { pluginId, toolId, params, env, config } = body]: it throws
    when [body] is [null] or [undefined]. *)
Definition destructure (body : JsVal) : M ExecuteToolOptions :=
  match body with
  | JUndefined | JNull =>
      throw (TypeError ("Cannot destructure property 'pluginId' of 'body' as it is "
                        ++ to_string body ++ "."))
  | _ =>
      let* pluginId := get body "pluginId" in
      let* toolId := get body "toolId" in
      let* params := get body "params" in
      let* env := get body "env" in
      let* config := get body "config" in
      ret {| opt_pluginId := pluginId; opt_toolId := toolId; opt_params := params;
             opt_env := env; opt_config := config |}
  end.

(** [request_json] is the completion of [await request.json()]: the parsed
    body, or the error of the parser. *)
Definition POST (request_json : Completion JsVal) : M Response :=
  try_catch
    (let* body := ([], request_json) in
     let* given := destructure body in
     if negb (truthy (opt_pluginId given)) || negb (truthy (opt_toolId given)) then
       ret (json (obj [("error", JStr "pluginId and toolId are required")]) 400)
     else
       let options :=
         {| opt_pluginId := opt_pluginId given;
            opt_toolId := opt_toolId given;
            opt_params := or_else (opt_params given) (obj []);
            opt_env := or_else (opt_env given) (obj []);
            opt_config := or_else (opt_config given) (obj []) |} in
       run emit (ExecuteToolCalled (opt_pluginId options) (opt_toolId options)
                   (opt_params options) (opt_env options) (opt_config options)) in
       let* result := executeTool options in
       ret (json (obj [("success", JBool true); ("result", result)]) 200))
    (fun error =>
       run emit (Console "error"
                   [JStr "Error executing tool:"; JHost (exn_to_string error)]) in
       ret (json (obj [("success", JBool false); ("error", JStr (exn_message error))])
              500)).

End Playground.

(** ** Concrete inputs used by the examples *)

Definition no_declarations (id : string) : PluginManifest :=
  {| manifest_id := id; manifest_name := id; manifest_version := "1.0.0";
     manifest_description := ""; manifest_author := ""; manifest_license := "MIT";
     manifest_icon := None; manifest_category := None; manifest_homepage := None;
     manifest_repository := None; manifest_minCoreVersion := None;
     manifest_requiredEnvVars := None; manifest_optionalEnvVars := None;
     manifest_configSchema := None; manifest_tools := []; manifest_i18n := None |}.

(** A network that is down: every request throws. *)
Definition offline (query : list (string * string)) (locale : JsVal)
    (logger : PluginLogger) (storage : PluginStorageAPI) : M JsVal :=
  throw (TypeError "fetch failed").

Definition no_fetch (logger : PluginLogger) (defaultMaxLength userAgent params : JsVal)
    : M JsVal :=
  throw (TypeError "fetch failed").

Definition no_parse (s : string) : option Z := None.

Definition demo_options : ExecuteToolOptions :=
  {| opt_pluginId := JStr "weather"; opt_toolId := JStr "get_weather";
     opt_params := obj [("city", JStr "Tokyo")];
     opt_env := obj [];
     opt_config := obj [("units", JStr "fahrenheit")] |}.

(** ** Vocabulary of the statements *)

(** [undefined] and [null], the values without properties. *)
Definition nullish (v : JsVal) : bool :=
  match v with JUndefined | JNull => true | _ => false end.

(** An environment of the declared type [Record<string, string>]. *)
Definition env_of (vars : gmap string string) : JsVal := JObj (JStr <$> vars).

(** The plugin with another validator, or none. *)
Definition with_validateConfig (validator : option (JsVal -> M JsVal))
    (plugin : PluginExport) : PluginExport :=
  {| export_manifest := export_manifest plugin;
     export_tools := export_tools plugin;
     export_onLoad := export_onLoad plugin;
     export_onUnload := export_onUnload plugin;
     export_validateConfig := validator |}.

(** ['test-conversation-' + Date.now()] *)
Definition conversation (clock : Z) : JsVal :=
  JStr ("test-conversation-" ++ num_to_string clock).

(** The answer to a request without ids. *)
Definition bad_request : Response :=
  json (obj [("error", JStr "pluginId and toolId are required")]) 400.

(** The options the handler passes on: the ids as they are, and the empty
    object for each of [params], [env], [config] that is absent (or
    falsy). *)
Definition options_of (body : JsVal) : ExecuteToolOptions :=
  {| opt_pluginId := field body "pluginId";
     opt_toolId := field body "toolId";
     opt_params := or_else (field body "params") (obj []);
     opt_env := or_else (field body "env") (obj []);
     opt_config := or_else (field body "config") (obj []) |}.

(** The event of the handler calling [executeTool] with these options. *)
Definition called (options : ExecuteToolOptions) : Event :=
  ExecuteToolCalled (opt_pluginId options) (opt_toolId options) (opt_params options)
    (opt_env options) (opt_config options).

(** The value is a string, or it is falsy. *)
Definition string_or_falsy (v : JsVal) : Prop :=
  (exists s, v = JStr s) \/ truthy v = false.

(** The city the tool reports on: the given one, else the configured
    default, else the one of the environment, else Paris. *)
Definition city_of (params config environment : JsVal) : JsVal :=
  or_else (field params "city")
    (or_else (field config "defaultCity")
       (or_else (field environment "WEATHER_DEFAULT_CITY") (JStr "Paris"))).

(** The default city of a context: the configured one, else the one of
    the environment, else Paris. *)
Definition default_city (config environment : JsVal) : JsVal :=
  or_else (field config "defaultCity")
    (or_else (field environment "WEATHER_DEFAULT_CITY") (JStr "Paris")).

(** The value is a string and not the empty one. *)
Definition nonempty_string (v : JsVal) : Prop := exists s, v = JStr s /\ s <> "".

(** ** More of [String.prototype] *)

(** [s.length] *)
Definition str_length (s : string) : Z := Z.of_nat (String.length s).

(** [s.startsWith(p)] *)
Definition startsWith (s p : string) : bool := String.prefix p s.

(** [s.includes(sub)] *)
Fixpoint includes (s sub : string) : bool :=
  String.prefix sub s
  || match s with
     | EmptyString => false
     | String _ rest => includes rest sub
     end.

(** White space and line terminators among the code units below 256. *)
Definition is_space (c : ascii) : bool :=
  let n := N_of_ascii c in
  ((9 <=? n) && (n <=? 13) || (n =? 32) || (n =? 160))%N.

(** [s.trimStart()] *)
Fixpoint trimStart (s : string) : string :=
  match s with
  | EmptyString => EmptyString
  | String c rest => if is_space c then trimStart rest else s
  end.

(** An index argument of [slice], brought into [0 .. len]: a negative one
    counts from the end. *)
Definition slice_index (len i : Z) : Z :=
  if (i <? 0)%Z then Z.max (len + i) 0 else Z.min i len.

(** [s.slice(from, to)] *)
Definition slice (s : string) (from to : Z) : string :=
  let len := str_length s in
  let a := slice_index len from in
  let b := slice_index len to in
  substring (Z.to_nat a) (Z.to_nat (b - a)) s.

(** The line feed. *)
Definition newline : string := String (ascii_of_nat 10) EmptyString.

(** ** [plugins/fetch/tools/fetch-url.ts], the functions without network *)

Module FetchUrl.

Definition isHtmlContent (contentType body : string) : bool :=
  if includes contentType "text/html" || includes contentType "application/xhtml"
  then true
  else
    let trimmed := toLowerCase (trimStart body) in
    startsWith trimmed "<!doctype html" || startsWith trimmed "<html".

Record Page : Type := {
  text : string;
  truncated : bool
}.

(** The notice appended to a truncated page. *)
Definition notice (remaining next : Z) : string :=
  newline ++ newline ++ "---" ++ newline ++ "*Contenu tronque. "
  ++ num_to_string remaining
  ++ " caracteres restants. Utilisez start_index=" ++ num_to_string next
  ++ " pour la suite.*".

Definition applyPagination (content : string) (startIndex maxLength : Z) : Page :=
  if (str_length content <=? startIndex)%Z then
    {| text := "<error>start_index (" ++ num_to_string startIndex
               ++ ") depasse la longueur du contenu ("
               ++ num_to_string (str_length content) ++ ")</error>";
       truncated := false |}
  else
    let slice := slice content startIndex (startIndex + maxLength) in
    let truncated := (startIndex + maxLength <? str_length content)%Z in
    let text :=
      if truncated
      then slice ++ notice (str_length content - (startIndex + maxLength))
                      (startIndex + maxLength)
      else slice in
    {| text := text; truncated := truncated |}.

(** A reader that follows the notices: it asks for the page at
    [startIndex] and reads its text.  When the page is truncated it cuts
    the notice off the end of the text (the tool's result gives it the
    length of the content, so it knows the two numbers of the notice and
    hence its length) and goes on at [startIndex + maxLength]; when it is
    not, it keeps the text and stops.  [fuel] bounds the number of pages. *)
Fixpoint follow (fuel : nat) (content : string) (startIndex maxLength : Z)
    : list string :=
  match fuel with
  | O => []
  | S fuel' =>
      let page := applyPagination content startIndex maxLength in
      if truncated page then
        let next := (startIndex + maxLength)%Z in
        let tail := notice (str_length content - next) next in
        substring 0 (String.length (text page) - String.length tail) (text page)
        :: follow fuel' content next maxLength
      else [text page]
  end.

End FetchUrl.

(** ** [plugins/pixabay/tools/search-images.ts], the functions without network *)

Module SearchImages.

Definition is_letter (c : ascii) : bool :=
  let n := N_of_ascii c in
  ((65 <=? n) && (n <=? 90) || (97 <=? n) && (n <=? 122))%N.

(** The longest run of letters at the front of [s], and what follows. *)
Fixpoint letters (s : string) : string * string :=
  match s with
  | String c rest =>
      if is_letter c
      then let '(word, after) := letters rest in (String c word, after)
      else (EmptyString, s)
  | EmptyString => (EmptyString, EmptyString)
  end.

(** The first match of [/\.([a-zA-Z]+)(?:\?|$)/] in [s], as its group: at
    the leftmost dot that is followed by letters and then by [?] or the
    end of the string.  The run of letters has to be the longest one, for
    after a shorter one comes a letter. *)
Fixpoint extension_match (s : string) : option string :=
  match s with
  | EmptyString => None
  | String c rest =>
      if Ascii.eqb c "."
      then
        let '(word, after) := letters rest in
        if negb (String.eqb word "") && (String.eqb after "" || startsWith after "?")
        then Some word
        else extension_match rest
      else extension_match rest
  end.

Definition getExtension (url : string) : string :=
  match extension_match url with
  | Some group => group
  | None => "jpg"
  end.

(** [image/${ext === 'jpg' ? 'jpeg' : ext}] *)
Definition mime_of (ext : string) : string :=
  "image/" ++ (if String.eqb ext "jpg" then "jpeg" else ext).

Record PixabayImage : Type := {
  image_id : Z;
  pageURL : string;
  image_type : string;
  tags : string;
  previewURL : string;
  previewWidth : Z;
  previewHeight : Z;
  webformatURL : string;
  webformatWidth : Z;
  webformatHeight : Z;
  largeImageURL : string;
  fullHDURL : option string;
  imageURL : option string;
  imageWidth : Z;
  imageHeight : Z;
  imageSize : Z;
  views : Z;
  downloads : Z;
  likes : Z;
  comments : Z;
  user_id : Z;
  user : string;
  userImageURL : string
}.

Record PixabayResponse : Type := {
  total : Z;
  totalHits : Z;
  hits : list PixabayImage
}.

(** [StoredImage extends PixabayImage] *)
Record StoredImage : Type := {
  image : PixabayImage;
  storedPreviewURL : string;
  storedWebformatURL : string
}.

Record MediaAttachment : Type := {
  media_type : string;
  url : string;
  downloadUrl : option string;
  alt : option string;
  mimeType : option string
}.

Record SearchPixabayResult : Type := {
  message : string;
  media : option (list MediaAttachment)
}.

(** [s.split(',')]: the pieces between the commas, at least one. *)
Fixpoint split_commas (s : string) : list string :=
  match s with
  | EmptyString => [EmptyString]
  | String c rest =>
      if Ascii.eqb c ","
      then EmptyString :: split_commas rest
      else match split_commas rest with
           | piece :: pieces => String c piece :: pieces
           | [] => [String c EmptyString]
           end
  end.

Section Locale.

(** [n.toLocaleString(locale)], the host's formatting of a number. *)
Variable toLocaleString : Z -> JsVal -> string.

Definition formatImageResults (response : PixabayResponse)
    (storedImages : list StoredImage) (locale : JsVal) : SearchPixabayResult :=
  let msg := Pixabay.getMessages locale in
  if (Z.of_nat (length (hits response)) =? 0)%Z then
    {| message := Pixabay.noImagesFound msg; media := None |}
  else
    let media :=
      map (fun stored =>
             {| media_type := "image";
                url := storedWebformatURL stored;
                downloadUrl := Some (storedWebformatURL stored);
                alt := Some (String.concat ", "
                               (firstn 3 (split_commas (tags (image stored)))));
                mimeType := Some (mime_of (getExtension (webformatURL (image stored)))) |})
          storedImages in
    {| message :=
         Pixabay.imagesFound msg (JNum (Z.of_nat (length (hits response))))
           (toLocaleString (total response) (or_else locale (JStr "fr")));
       media := Some media |}.

End Locale.

End SearchImages.

(** [name] set to the text of [v] when [v] is truthy. *)
Definition query_with (name : string) (v : JsVal) (l : list (string * string))
    : list (string * string) :=
  if truthy v then Pixabay.searchParams_set name (to_string v) l else l.

(** The query string the pixabay tool sends for the given parameters,
    defaults and API key, when these can be converted to strings: the
    tool converts them where it builds the query, before its [try]. *)
Definition pixabay_query (params apiKey defaultLanguage : JsVal) (safeSearch : bool)
    (defaultPerPage : JsVal) : list (string * string) :=
  query_with "colors" (field params "colors")
    (query_with "min_height" (field params "min_height")
      (query_with "min_width" (field params "min_width")
        (query_with "category" (field params "category")
          [("key", to_string apiKey);
           ("q", to_string (field params "q"));
           ("lang", to_string (or_else (field params "lang") defaultLanguage));
           ("image_type", to_string (or_else (field params "image_type") (JStr "all")));
           ("orientation", to_string (or_else (field params "orientation") (JStr "all")));
           ("editors_choice",
             to_string (or_else (field params "editors_choice") (JBool false)));
           ("safesearch",
             to_string (let safesearch := field params "safesearch" in
                        match safesearch with
                        | JUndefined => JBool safeSearch
                        | _ => safesearch
                        end));
           ("order", to_string (or_else (field params "order") (JStr "popular")));
           ("page", to_string (or_else (field params "page") (JNum 1)));
           ("per_page", to_string (or_else (field params "per_page") defaultPerPage))]))).

(** The defaults the pixabay tool takes from a configuration. *)
Definition pixabay_language (config : JsVal) : JsVal :=
  or_else (field config "defaultLanguage") (JStr "en").
Definition pixabay_safeSearch (config : JsVal) : bool :=
  match field config "safeSearch" with JBool false => false | _ => true end.
Definition pixabay_perPage (config : JsVal) : JsVal :=
  or_else (field config "defaultPerPage") (JNum 6).

(** The result of the weather tool for a city given as a string. *)
Definition weather_result (city : string) (units : JsVal) : JsVal :=
  let data := or_else (index Weather.DEMO_WEATHER (toLowerCase city))
                (index Weather.DEMO_WEATHER "default") in
  let country := or_else (index Weather.COUNTRY_MAP (toLowerCase city)) (JStr "Inconnu") in
  let '(temperature, unit) :=
    if is_str units "fahrenheit"
    then (Weather.fahrenheit (field data "tempCelsius"), "F")
    else (field data "tempCelsius", "C") in
  obj [("city", JStr (capitalize city));
       ("country", country);
       ("temperature", temperature);
       ("unit", JStr unit);
       ("condition", field data "condition");
       ("humidity", field data "humidity");
       ("windSpeed", field data "windSpeed");
       ("message",
         JStr ("Meteo a " ++ city ++ ": " ++ to_string (field data "condition") ++ ", "
               ++ to_string temperature ++ "°" ++ unit ++ ", humidite "
               ++ to_string (field data "humidity") ++ "%, vent "
               ++ to_string (field data "windSpeed")
               ++ " km/h. (Donnees de demonstration)"))].

(** ** [src/routes/api/plugins/+server.ts] *)

Inductive PluginsPayload : Type :=
(** [{ schema }] *)
| SchemaPayload (schema : JsVal)
(** [{ plugins }] *)
| PluginsList (plugins : list PluginInfo).

Record PluginsResponse : Type := {
  plugins_status : Z;
  payload : PluginsPayload
}.

(** [url.searchParams.get(name)]: the string, or [null]. *)
Definition search_param (value : option string) : JsVal :=
  match value with
  | Some s => JStr s
  | None => JNull
  end.

Definition GET (wm pm : PluginManifest)
    (search : list (string * string) -> JsVal -> PluginLogger -> PluginStorageAPI -> M JsVal)
    (stn : string -> option Z) (pluginId toolId : option string) : M PluginsResponse :=
  if truthy (search_param pluginId) && truthy (search_param toolId) then
    let* schema :=
      getToolInputSchema wm pm search stn (search_param pluginId) (search_param toolId) in
    ret {| plugins_status := 200; payload := SchemaPayload schema |}
  else
    ret {| plugins_status := 200; payload := PluginsList (getPlugins wm pm search stn) |}.

(** ** [src/routes/+page.svelte], the script *)

Module Page.

(** The value a form field starts with, for a property of the schema;
    nothing for a property without default whose type is none of the
    known ones. *)
Definition initialValue (prop : JsVal) : option JsVal :=
  match field prop "default" with
  | JUndefined =>
      let type := field prop "type" in
      if is_str type "string" then Some (JStr "")
      else if is_str type "number" || is_str type "integer" then
        Some (if nullish (field prop "minimum") then JNum 0 else field prop "minimum")
      else if is_str type "boolean" then Some (JBool false)
      else if is_str type "array" then Some (JArr [])
      else None
  | given => Some given
  end.

(** [selectTool]: the parameter values after the schema has arrived.  A
    schema is [null] or an object whose [properties], if any, is an
    object. *)
Definition initialParams (toolSchema : JsVal) : gmap string JsVal :=
  match toolSchema with
  | JObj schema =>
      match schema !! "properties" with
      | Some (JObj properties) => omap initialValue properties
      | _ => ∅
      end
  | _ => ∅
  end.

(** [toolSchema?.required?.includes(key) ?? false], for a [required] that
    is an array when present. *)
Definition isRequired (toolSchema : JsVal) (key : string) : bool :=
  match field toolSchema "required" with
  | JArr names => existsb (fun name => is_str name key) names
  | _ => false
  end.

(** [getParamsForExecution] when the form is used: every entry except the
    empty strings of optional parameters and the [null]s. *)
Definition formParams (toolSchema : JsVal) (toolParamValues : gmap string JsVal)
    : gmap string JsVal :=
  filter (fun entry =>
            let '(key, value) := entry in
            negb (is_str value "" && negb (isRequired toolSchema key))
            && negb (nullish value) = true)
         toolParamValues.

Section Parse.

(** [JSON.parse], the host's parser. *)
Variable JSON_parse : string -> Completion JsVal.

Definition getParamsForExecution (useRawJson : bool) (rawJsonParams : string)
    (toolSchema : JsVal) (toolParamValues : gmap string JsVal) : Completion JsVal :=
  if useRawJson then JSON_parse rawJsonParams
  else Return (JObj (formParams toolSchema toolParamValues)).

End Parse.

(** [selectPlugin]: one empty field for every required and optional
    environment variable. *)
Definition initialEnv (plugin : PluginInfo) : gmap string string :=
  list_to_map
    (map (fun v => (v, "")) (info_requiredEnvVars plugin ++ info_optionalEnvVars plugin)%list).

(** [selectPlugin]: the defaults of the configuration schema. *)
Definition initialConfig (plugin : PluginInfo) : gmap string JsVal :=
  match info_configSchema plugin with
  | Some (JObj schema) =>
      match schema !! "properties" with
      | Some (JObj properties) =>
          omap (fun prop => match field prop "default" with
                            | JUndefined => None
                            | given => Some given
                            end) properties
      | _ => ∅
      end
  | _ => ∅
  end.

(** The body [executeCurrentTool] posts to [/api/execute]. *)
Definition requestBody (plugin : PluginInfo) (tool : ToolInfo) (params : JsVal)
    (envVars : gmap string string) (configValues : gmap string JsVal) : JsVal :=
  obj [("pluginId", JStr (info_id plugin));
       ("toolId", JStr (info_tool_id tool));
       ("params", params);
       ("env", JObj (JStr <$> envVars));
       ("config", JObj configValues)].

End Page.

(** * Properties *)

(** ** Basic facts about values and computations *)

Lemma is_str_true (v : JsVal) (s : string) : is_str v s = true <-> v = JStr s.
Proof.
  destruct v; simpl; try (split; [discriminate | discriminate]).
  rewrite String.eqb_eq. split; [intros -> | intros [= ->]]; reflexivity.
Qed.

Lemma is_str_false (v : JsVal) (s : string) : is_str v s = false <-> v <> JStr s.
Proof.
  rewrite <- is_str_true. destruct (is_str v s); split; congruence.
Qed.

Lemma find_is_str_None {A} (key : A -> string) (v : JsVal) (l : list A) :
  Forall (fun x => v <> JStr (key x)) l ->
  find (fun x => is_str v (key x)) l = None.
Proof.
  induction 1 as [| x l Hx _ IH]; simpl; [reflexivity |].
  apply is_str_false in Hx. rewrite Hx. exact IH.
Qed.

Lemma find_is_str_Some {A} (key : A -> string) (v : JsVal) (l : list A) (x : A) :
  find (fun x => is_str v (key x)) l = Some x -> In x l /\ v = JStr (key x).
Proof.
  intros H. apply find_some in H as [Hin Hx]. split; [exact Hin |].
  apply is_str_true, Hx.
Qed.

Lemma bind_ret {A B} (a : A) (f : A -> M B) : bind (ret a) f = f a.
Proof. unfold bind, ret. destruct (f a); reflexivity. Qed.

Lemma bind_throw {A B} (e : Exn) (f : A -> M B) : bind (throw e) f = throw e.
Proof. reflexivity. Qed.

(** Reading a property of a value that is neither [undefined] nor [null]
    does not throw and emits nothing. *)
Lemma get_field (v : JsVal) (k : string) :
  nullish v = false -> get v k = ret (field v k).
Proof. destruct v; simpl; intros; try discriminate; reflexivity. Qed.

Lemma truthy_not_nullish (v : JsVal) : truthy v = true -> nullish v = false.
Proof. destruct v; simpl; intros; try discriminate; reflexivity. Qed.

Lemma or_else_truthy (a b : JsVal) : truthy b = true -> truthy (or_else a b) = true.
Proof. unfold or_else. destruct (truthy a) eqn:E; auto. Qed.

(** ** The registry *)

Section RegistryFacts.

Variable loadedPlugins : list PluginExport.
Variable now : Z.

Lemma getPlugin_unknown (pluginId : JsVal) :
  Forall (fun p => pluginId <> JStr (manifest_id (export_manifest p))) loadedPlugins ->
  Loader.getPlugin loadedPlugins pluginId = None.
Proof. apply find_is_str_None. Qed.

Lemma findTool_unknown (plugin : PluginExport) (toolId : JsVal) :
  Forall (fun t => toolId <> JStr (tool_id t)) (export_tools plugin) ->
  Loader.findTool plugin toolId = None.
Proof. apply find_is_str_None. Qed.

Lemma executeTool_no_plugin (options : ExecuteToolOptions) :
  Loader.getPlugin loadedPlugins (opt_pluginId options) = None ->
  Loader.executeTool loadedPlugins now options
  = (let* plugin_text := ToString (opt_pluginId options) in
     throw (Error ("Plugin not found: " ++ plugin_text))).
Proof. intros H. unfold Loader.executeTool. rewrite H. reflexivity. Qed.

Lemma executeTool_no_tool (options : ExecuteToolOptions) (plugin : PluginExport) :
  Loader.getPlugin loadedPlugins (opt_pluginId options) = Some plugin ->
  Loader.findTool plugin (opt_toolId options) = None ->
  Loader.executeTool loadedPlugins now options
  = (let* tool_text := ToString (opt_toolId options) in
     let* plugin_text := ToString (opt_pluginId options) in
     throw (Error ("Tool not found: " ++ tool_text ++ " in plugin " ++ plugin_text))).
Proof. intros H1 H2. unfold Loader.executeTool. rewrite H1, H2. reflexivity. Qed.

Lemma textual_printable (v : JsVal) : textual v = true -> printable v = true.
Proof. unfold textual. intros H. apply andb_true_iff in H. tauto. Qed.

Lemma ToString_printable (v : JsVal) : printable v = true -> ToString v = ret (to_string v).
Proof. intros H. unfold ToString. rewrite H. reflexivity. Qed.

Lemma ToString_textual (v : JsVal) : textual v = true -> ToString v = ret (to_string v).
Proof. intros H. apply ToString_printable, textual_printable, H. Qed.

(** A template that converts [v] and throws ends in a throw, with no
    event, whatever [v] is. *)
Lemma ToString_throws {A} (v : JsVal) (k : string -> M A) :
  (forall text, exists e, k text = ([], Throw e)) ->
  exists e, bind (ToString v) k = ([], Throw e).
Proof.
  intros Hk. unfold ToString. destruct (printable v).
  - rewrite bind_ret. apply Hk.
  - eexists. reflexivity.
Qed.

(** Once plugin and tool are resolved, [executeTool] is the gate followed
    by the invocation. *)
Lemma executeTool_resolved (options : ExecuteToolOptions) (plugin : PluginExport)
    (toolDef : PluginToolDefinition) :
  Loader.getPlugin loadedPlugins (opt_pluginId options) = Some plugin ->
  Loader.findTool plugin (opt_toolId options) = Some toolDef ->
  Loader.executeTool loadedPlugins now options
  = (let* available :=
       match isAvailable toolDef with
       | Some isAvailable => isAvailable (opt_env options)
       | None => ret true
       end in
     if negb available then throw (Loader.unavailable (opt_toolId options))
     else Loader.invocation now toolDef options).
Proof. intros H1 H2. unfold Loader.executeTool. rewrite H1, H2. reflexivity. Qed.

Lemma getToolInputSchema_no_plugin (pluginId toolId : JsVal) :
  Loader.getPlugin loadedPlugins pluginId = None ->
  Loader.getToolInputSchema loadedPlugins pluginId toolId = ret JNull.
Proof. intros H. unfold Loader.getToolInputSchema. rewrite H. reflexivity. Qed.

Lemma getToolInputSchema_no_tool (pluginId toolId : JsVal) (plugin : PluginExport) :
  Loader.getPlugin loadedPlugins pluginId = Some plugin ->
  Loader.findTool plugin toolId = None ->
  Loader.getToolInputSchema loadedPlugins pluginId toolId = ret JNull.
Proof. intros H1 H2. unfold Loader.getToolInputSchema. rewrite H1, H2. reflexivity. Qed.

End RegistryFacts.

(** ** Unknown plugin, unknown tool *)

(** C1.  [executeTool] with a [pluginId] that is the manifest id of no
    registered plugin throws, and what it throws is the error
    [Plugin not found: <pluginId>] when [pluginId] is a string (or any
    other value with a text); with a plugin that is found and a [toolId]
    that is the id of none of its tool definitions it throws, and what it
    throws is the error [Tool not found: <toolId> in plugin <pluginId>]
    when [toolId] has a text.  The two messages differ, and in both
    cases, whatever the ids are, nothing was emitted: no context was
    built, no tool was created or executed. *)
Theorem executeTool_not_found
    (wm pm : PluginManifest) (now : Z)
    (search : list (string * string) -> JsVal -> PluginLogger -> PluginStorageAPI -> M JsVal)
    (stn : string -> option Z) (options : ExecuteToolOptions) :
  let pluginId := opt_pluginId options in
  let toolId := opt_toolId options in
  let plugin_not_found := "Plugin not found: " ++ to_string pluginId in
  let tool_not_found :=
    "Tool not found: " ++ to_string toolId ++ " in plugin " ++ to_string pluginId in
  (Forall (fun p => pluginId <> JStr (manifest_id (export_manifest p)))
          (loadedPlugins wm pm search stn) ->
   (exists e, executeTool wm pm now search stn options = ([], Throw e))
   /\ (textual pluginId = true ->
       executeTool wm pm now search stn options = ([], Throw (Error plugin_not_found))))
  /\ (forall plugin,
        getPlugin wm pm search stn pluginId = Some plugin ->
        Forall (fun t => toolId <> JStr (tool_id t)) (export_tools plugin) ->
        (exists e, executeTool wm pm now search stn options = ([], Throw e))
        /\ (textual toolId = true ->
            executeTool wm pm now search stn options
            = ([], Throw (Error tool_not_found))))
  /\ plugin_not_found <> tool_not_found.
Proof.
  cbv zeta. split; [| split].
  - intros Hnone. apply getPlugin_unknown in Hnone. unfold executeTool.
    rewrite (executeTool_no_plugin _ now options Hnone). split.
    + apply ToString_throws. intros text. eexists. reflexivity.
    + intros Htext. rewrite (ToString_textual _ Htext), bind_ret. reflexivity.
  - intros plugin Hplugin Hnone. apply findTool_unknown in Hnone. unfold executeTool.
    rewrite (executeTool_no_tool _ now options plugin Hplugin Hnone). split.
    + apply ToString_throws. intros text.
      apply ToString_throws. intros text'. eexists. reflexivity.
    + intros Htext. apply find_is_str_Some in Hplugin as [_ Hid].
      rewrite (ToString_textual _ Htext), bind_ret, Hid. reflexivity.
  - discriminate.
Qed.

Lemma executeTool_not_found_witness :
  executeTool (no_declarations "weather") (no_declarations "pixabay") 0 offline no_parse
    {| opt_pluginId := JStr "fetch"; opt_toolId := JStr "fetch_url";
       opt_params := obj []; opt_env := obj []; opt_config := obj [] |}
  = ([], Throw (Error "Plugin not found: fetch"))
  /\ executeTool (no_declarations "weather") (no_declarations "pixabay") 0 offline no_parse
       {| opt_pluginId := JStr "weather"; opt_toolId := JStr "fetch_url";
          opt_params := obj []; opt_env := obj []; opt_config := obj [] |}
     = ([], Throw (Error "Tool not found: fetch_url in plugin weather")).
Proof.
  split.
  - apply (proj1 (executeTool_not_found _ _ 0 offline no_parse
                    {| opt_pluginId := JStr "fetch"; opt_toolId := JStr "fetch_url";
                       opt_params := obj []; opt_env := obj []; opt_config := obj [] |})).
    + repeat constructor; discriminate.
    + reflexivity.
  - eapply (proj1 (proj2 (executeTool_not_found _ _ 0 offline no_parse
                    {| opt_pluginId := JStr "weather"; opt_toolId := JStr "fetch_url";
                       opt_params := obj []; opt_env := obj []; opt_config := obj [] |}))).
    + reflexivity.
    + repeat constructor; discriminate.
    + reflexivity.
Defined.

(** C3.  [getToolInputSchema] returns [null], without throwing and without
    emitting anything, when [pluginId] is the manifest id of no registered
    plugin and when the plugin is found but [toolId] is the id of none of
    its tool definitions. *)
Theorem getToolInputSchema_unknown
    (wm pm : PluginManifest)
    (search : list (string * string) -> JsVal -> PluginLogger -> PluginStorageAPI -> M JsVal)
    (stn : string -> option Z) (pluginId toolId : JsVal) :
  (Forall (fun p => pluginId <> JStr (manifest_id (export_manifest p)))
          (loadedPlugins wm pm search stn) ->
   getToolInputSchema wm pm search stn pluginId toolId = ([], Return JNull))
  /\ (forall plugin,
        getPlugin wm pm search stn pluginId = Some plugin ->
        Forall (fun t => toolId <> JStr (tool_id t)) (export_tools plugin) ->
        getToolInputSchema wm pm search stn pluginId toolId = ([], Return JNull)).
Proof.
  split.
  - intros H. apply getToolInputSchema_no_plugin, getPlugin_unknown, H.
  - intros plugin Hp Ht. eapply getToolInputSchema_no_tool; [exact Hp |].
    apply findTool_unknown, Ht.
Qed.

Lemma getToolInputSchema_unknown_witness :
  getToolInputSchema (no_declarations "weather") (no_declarations "pixabay")
    offline no_parse (JStr "fetch") (JStr "fetch_url") = ([], Return JNull)
  /\ getToolInputSchema (no_declarations "weather") (no_declarations "pixabay")
       offline no_parse (JStr "pixabay") (JStr "get_weather") = ([], Return JNull).
Proof.
  split.
  - apply (proj1 (getToolInputSchema_unknown _ _ offline no_parse
                    (JStr "fetch") (JStr "fetch_url"))).
    repeat constructor; discriminate.
  - eapply (proj2 (getToolInputSchema_unknown _ _ offline no_parse
                     (JStr "pixabay") (JStr "get_weather"))).
    + reflexivity.
    + repeat constructor; discriminate.
Defined.

(** ** The static registry *)

(** C8.  The registry holds exactly the weather export and the pixabay
    export, in this order, so [getPlugins] has two entries, theirs.  For a
    [pluginId] that is the manifest id of neither, [getPlugin] finds
    nothing and [executeTool] throws before anything happens: the error
    [Plugin not found: <pluginId>] when [pluginId] is a string (or any
    other value with a text).  The fetch export is not in the list, and
    no registered plugin has a tool [fetch_url]: whatever the [pluginId],
    [executeTool] for [fetch_url] throws before anything happens, and
    for a [pluginId] with a text what it throws is a not-found error. *)
Theorem registry_is_weather_and_pixabay
    (wm pm fm : PluginManifest) (now : Z)
    (search : list (string * string) -> JsVal -> PluginLogger -> PluginStorageAPI -> M JsVal)
    (fetch_url : PluginLogger -> JsVal -> JsVal -> JsVal -> M JsVal)
    (stn : string -> option Z) :
  loadedPlugins wm pm search stn = [weatherPlugin wm; pixabayPlugin pm search stn]
  /\ length (getPlugins wm pm search stn) = 2%nat
  /\ map info_id (getPlugins wm pm search stn) = [manifest_id wm; manifest_id pm]
  /\ (forall options,
        opt_pluginId options <> JStr (manifest_id wm) ->
        opt_pluginId options <> JStr (manifest_id pm) ->
        getPlugin wm pm search stn (opt_pluginId options) = None
        /\ (exists e, executeTool wm pm now search stn options = ([], Throw e))
        /\ (textual (opt_pluginId options) = true ->
            executeTool wm pm now search stn options
            = ([], Throw (Error ("Plugin not found: "
                                 ++ to_string (opt_pluginId options))))))
  /\ ~ In (fetchPlugin fm fetch_url stn) (loadedPlugins wm pm search stn)
  /\ (forall options,
        opt_toolId options = JStr "fetch_url" ->
        (exists e, executeTool wm pm now search stn options = ([], Throw e))
        /\ (textual (opt_pluginId options) = true ->
            executeTool wm pm now search stn options
            = ([], Throw (Error ("Plugin not found: "
                                 ++ to_string (opt_pluginId options))))
            \/ executeTool wm pm now search stn options
               = ([], Throw (Error ("Tool not found: fetch_url in plugin "
                                    ++ to_string (opt_pluginId options)))))).
Proof.
  split; [reflexivity |]. split; [reflexivity |]. split; [reflexivity |].
  split; [| split].
  - intros options Hw Hp.
    assert (Hnone : getPlugin wm pm search stn (opt_pluginId options) = None).
    { apply getPlugin_unknown. repeat constructor; assumption. }
    split; [exact Hnone |]. unfold executeTool.
    rewrite (executeTool_no_plugin _ now options Hnone). split.
    + apply ToString_throws. intros text. eexists. reflexivity.
    + intros Htext. rewrite (ToString_textual _ Htext), bind_ret. reflexivity.
  - intros [H | [H | []]]; apply (f_equal (fun p => map tool_id (export_tools p))) in H;
      discriminate H.
  - intros options Htool.
    destruct (getPlugin wm pm search stn (opt_pluginId options)) as [plugin |] eqn:Hp.
    + assert (Hnone : Loader.findTool plugin (opt_toolId options) = None).
      { pose proof (find_is_str_Some _ _ _ _ Hp) as [Hin _]. rewrite Htool.
        apply findTool_unknown.
        destruct Hin as [<- | [<- | []]]; repeat constructor; discriminate. }
      unfold executeTool. rewrite (executeTool_no_tool _ now options plugin Hp Hnone).
      apply find_is_str_Some in Hp as [_ Hid]. rewrite Htool, Hid.
      split; [eexists; reflexivity |]. intros _. right. reflexivity.
    + unfold executeTool. rewrite (executeTool_no_plugin _ now options Hp). split.
      * apply ToString_throws. intros text. eexists. reflexivity.
      * intros Htext. left. rewrite (ToString_textual _ Htext), bind_ret. reflexivity.
Qed.

Lemma registry_is_weather_and_pixabay_witness :
  getPlugin (no_declarations "weather") (no_declarations "pixabay") offline no_parse
    (JStr "fetch") = None
  /\ executeTool (no_declarations "weather") (no_declarations "pixabay") 0 offline no_parse
       {| opt_pluginId := JStr "fetch"; opt_toolId := JStr "fetch_url";
          opt_params := obj []; opt_env := obj []; opt_config := obj [] |}
     = ([], Throw (Error "Plugin not found: fetch")).
Proof.
  destruct (proj1 (proj2 (proj2 (proj2 (registry_is_weather_and_pixabay
           (no_declarations "weather") (no_declarations "pixabay") (no_declarations "fetch")
           0 offline no_fetch no_parse))))
           {| opt_pluginId := JStr "fetch"; opt_toolId := JStr "fetch_url";
              opt_params := obj []; opt_env := obj []; opt_config := obj [] |}
           ltac:(discriminate) ltac:(discriminate)) as (Hnone & _ & Hthrows).
  split; [exact Hnone | exact (Hthrows eq_refl)].
Defined.

(** ** The availability gate *)

Lemma bind_emit {B} (e : Event) (f : unit -> M B) :
  bind (emit e) f = (e :: trace (f tt), outcome (f tt)).
Proof. unfold bind, emit, trace, outcome. destruct (f tt); reflexivity. Qed.

Lemma invocation_starts (now : Z) (toolDef : PluginToolDefinition)
    (options : ExecuteToolOptions) :
  exists rest,
    trace (Loader.invocation now toolDef options)
    = ContextBuilt (JStr ("test-conversation-" ++ num_to_string now))
        (opt_config options) (opt_env options) :: rest.
Proof. unfold Loader.invocation. rewrite bind_emit. eexists. reflexivity. Qed.

Lemma pixabay_key (vars : gmap string string) :
  get (env_of vars) "PIXABAY_API_KEY"
  = ret (match vars !! "PIXABAY_API_KEY" with Some s => JStr s | None => JUndefined end).
Proof.
  unfold env_of, get. rewrite lookup_fmap.
  destruct (vars !! "PIXABAY_API_KEY"); reflexivity.
Qed.

Lemma getPlugin_pixabay (wm pm : PluginManifest)
    (search : list (string * string) -> JsVal -> PluginLogger -> PluginStorageAPI -> M JsVal)
    (stn : string -> option Z) :
  manifest_id wm <> manifest_id pm ->
  getPlugin wm pm search stn (JStr (manifest_id pm)) = Some (pixabayPlugin pm search stn).
Proof.
  intros Hne. unfold getPlugin, Loader.getPlugin, loadedPlugins. simpl.
  destruct (String.eqb_spec (manifest_id pm) (manifest_id wm)) as [E | _]; [congruence |].
  rewrite String.eqb_refl. reflexivity.
Qed.

Lemma getPlugin_weather (wm pm : PluginManifest)
    (search : list (string * string) -> JsVal -> PluginLogger -> PluginStorageAPI -> M JsVal)
    (stn : string -> option Z) :
  getPlugin wm pm search stn (JStr (manifest_id wm)) = Some (weatherPlugin wm).
Proof.
  unfold getPlugin, Loader.getPlugin, loadedPlugins. simpl.
  rewrite String.eqb_refl. reflexivity.
Qed.

(** C2.  For a plugin and a tool definition resolved from the ids: when
    the definition has an [isAvailable] and it returns false on [env],
    [executeTool] throws the not-available error and has emitted nothing
    beyond what the predicate itself emitted, so no context was built and
    no request went out, whatever [params] are; when the definition has no
    [isAvailable], [executeTool] is the invocation itself.  The pixabay
    tool [search_images], on an environment of strings, is gated off
    exactly when [PIXABAY_API_KEY] is absent or empty. *)
Theorem executeTool_gate
    (registry : list PluginExport) (now : Z) (options : ExecuteToolOptions)
    (wm pm : PluginManifest)
    (search : list (string * string) -> JsVal -> PluginLogger -> PluginStorageAPI -> M JsVal)
    (stn : string -> option Z) (vars : gmap string string) (params config : JsVal) :
  (forall plugin toolDef,
     Loader.getPlugin registry (opt_pluginId options) = Some plugin ->
     Loader.findTool plugin (opt_toolId options) = Some toolDef ->
     (forall predicate,
        isAvailable toolDef = Some predicate ->
        outcome (predicate (opt_env options)) = Return false ->
        Loader.executeTool registry now options
        = (trace (predicate (opt_env options)),
           Throw (Error ("Tool " ++ to_string (opt_toolId options)
                         ++ " is not available (missing required env vars)"))))
     /\ (isAvailable toolDef = None ->
         Loader.executeTool registry now options = Loader.invocation now toolDef options))
  /\ (manifest_id wm <> manifest_id pm ->
      executeTool wm pm now search stn
        {| opt_pluginId := JStr (manifest_id pm); opt_toolId := JStr "search_images";
           opt_params := params; opt_env := env_of vars; opt_config := config |}
      = ([], Throw (Error "Tool search_images is not available (missing required env vars)"))
      <-> vars !! "PIXABAY_API_KEY" = None \/ vars !! "PIXABAY_API_KEY" = Some "").
Proof.
  split.
  - intros plugin toolDef Hp Ht. split.
    + intros predicate Hsome Hfalse.
      rewrite (executeTool_resolved _ _ _ _ _ Hp Ht), Hsome.
      unfold outcome in Hfalse. unfold trace.
      destruct (predicate (opt_env options)) as [t r]. simpl in *. subst r.
      simpl. rewrite app_nil_r. reflexivity.
    + intros Hnone.
      rewrite (executeTool_resolved _ _ _ _ _ Hp Ht), Hnone, bind_ret. reflexivity.
  - intros Hne. unfold executeTool.
    rewrite (executeTool_resolved (loadedPlugins wm pm search stn) now
               {| opt_pluginId := JStr (manifest_id pm); opt_toolId := JStr "search_images";
                  opt_params := params; opt_env := env_of vars; opt_config := config |}
               (pixabayPlugin pm search stn) _
               (getPlugin_pixabay wm pm search stn Hne) eq_refl).
    cbn [isAvailable opt_env opt_toolId]. rewrite pixabay_key, !bind_ret.
    destruct (vars !! "PIXABAY_API_KEY") as [s |] eqn:Hkey; simpl.
    + destruct (String.eqb_spec s "") as [-> | Hs]; simpl.
      * split; [auto | reflexivity].
      * split.
        -- intros H. apply (f_equal fst) in H.
           destruct (invocation_starts now
             {| tool_id := "search_images";
                createTool := fun ctx => Pixabay.createSearchPixabayTool search ctx;
                isAvailable := Some (fun env =>
                  let* key := get env "PIXABAY_API_KEY" in ret (truthy key)) |}
             {| opt_pluginId := JStr (manifest_id pm); opt_toolId := JStr "search_images";
                opt_params := params; opt_env := env_of vars; opt_config := config |})
             as [rest Hrest].
           unfold trace in Hrest. rewrite Hrest in H. discriminate H.
        -- intros [H | H]; [discriminate H | congruence].
    + split; [auto | reflexivity].
Qed.

Lemma executeTool_gate_witness :
  Loader.executeTool
    (loadedPlugins (no_declarations "weather") (no_declarations "pixabay") offline no_parse)
    0
    {| opt_pluginId := JStr "pixabay"; opt_toolId := JStr "search_images";
       opt_params := obj [("q", JStr "cat")]; opt_env := obj [];
       opt_config := obj [] |}
  = ([], Throw (Error "Tool search_images is not available (missing required env vars)"))
  /\ (executeTool (no_declarations "weather") (no_declarations "pixabay") 0 offline no_parse
        {| opt_pluginId := JStr "pixabay"; opt_toolId := JStr "search_images";
           opt_params := obj [("q", JStr "cat")];
           opt_env := env_of {[ "PIXABAY_API_KEY" := "" ]};
           opt_config := obj [] |}
      = ([], Throw (Error "Tool search_images is not available (missing required env vars)"))
      <-> ({[ "PIXABAY_API_KEY" := "" ]} : gmap string string) !! "PIXABAY_API_KEY" = None
          \/ ({[ "PIXABAY_API_KEY" := "" ]} : gmap string string) !! "PIXABAY_API_KEY"
             = Some "").
Proof.
  split.
  - exact (proj1 (proj1 (executeTool_gate
      (loadedPlugins (no_declarations "weather") (no_declarations "pixabay") offline no_parse)
      0
      {| opt_pluginId := JStr "pixabay"; opt_toolId := JStr "search_images";
         opt_params := obj [("q", JStr "cat")]; opt_env := obj [];
         opt_config := obj [] |}
      (no_declarations "weather") (no_declarations "pixabay") offline no_parse
      ∅ JNull JNull) _ _ eq_refl eq_refl) _ eq_refl eq_refl).
  - apply (proj2 (executeTool_gate [] 0
      {| opt_pluginId := JNull; opt_toolId := JNull; opt_params := JNull;
         opt_env := JNull; opt_config := JNull |}
      (no_declarations "weather") (no_declarations "pixabay") offline no_parse
      {[ "PIXABAY_API_KEY" := "" ]} (obj [("q", JStr "cat")]) (obj []))).
    discriminate.
Defined.

(** ** The demonstration call *)

(** C4.  With the weather manifest's id being [weather], the call
    [executeTool({pluginId: 'weather', toolId: 'get_weather',
    params: {city: 'Tokyo'}, env: {}, config: {units: 'fahrenheit'}})]
    returns a result whose temperature is 68, the rounded Fahrenheit
    conversion of the 20 degrees of the table's entry for Tokyo, whose unit
    is [F], whose city is [Tokyo] and whose message carries [Tokyo] and
    the suffix [F]. *)
Theorem executeTool_tokyo_fahrenheit
    (wm pm : PluginManifest) (now : Z)
    (search : list (string * string) -> JsVal -> PluginLogger -> PluginStorageAPI -> M JsVal)
    (stn : string -> option Z) :
  manifest_id wm = "weather" ->
  exists result,
    outcome (executeTool wm pm now search stn demo_options) = Return result
    /\ field (index Weather.DEMO_WEATHER "tokyo") "tempCelsius" = JNum 20
    /\ Weather.fahrenheit (JNum 20) = JNum 68
    /\ field result "temperature" = JNum 68
    /\ field result "unit" = JStr "F"
    /\ field result "city" = JStr "Tokyo"
    /\ field result "message"
       = JStr "Meteo a Tokyo: Nuageux, 68°F, humidite 70%, vent 10 km/h. (Donnees de demonstration)".
Proof.
  intros Hid. unfold executeTool.
  assert (Hp : Loader.getPlugin (loadedPlugins wm pm search stn)
                 (opt_pluginId demo_options) = Some (weatherPlugin wm)).
  { change (opt_pluginId demo_options) with (JStr "weather"). rewrite <- Hid.
    apply getPlugin_weather. }
  rewrite (executeTool_resolved _ now demo_options _ _ Hp eq_refl).
  eexists. split; [vm_compute; reflexivity |].
  repeat split; vm_compute; reflexivity.
Qed.

Lemma executeTool_tokyo_fahrenheit_witness :
  exists result,
    outcome (executeTool (no_declarations "weather") (no_declarations "pixabay") 0
               offline no_parse demo_options) = Return result
    /\ field result "temperature" = JNum 68
    /\ field result "unit" = JStr "F".
Proof.
  destruct (executeTool_tokyo_fahrenheit (no_declarations "weather")
              (no_declarations "pixabay") 0 offline no_parse eq_refl)
    as (result & Hres & _ & _ & Htemp & Hunit & _).
  exists result. auto.
Defined.

(** ** Configuration validators are not consulted *)

Lemma getPlugin_with_validateConfig (registry : list PluginExport)
    (validators : PluginExport -> option (JsVal -> M JsVal)) (pluginId : JsVal) :
  Loader.getPlugin (map (fun p => with_validateConfig (validators p) p) registry) pluginId
  = option_map (fun p => with_validateConfig (validators p) p)
      (Loader.getPlugin registry pluginId).
Proof.
  unfold Loader.getPlugin.
  induction registry as [| p registry IH]; simpl; [reflexivity |].
  destruct (is_str pluginId (manifest_id (export_manifest p))); [reflexivity | exact IH].
Qed.

Lemma throws_bind {A B} (m : M A) (f : A -> M B) (a : A) :
  outcome m = Return a -> throws (bind m f) = throws (f a).
Proof.
  unfold outcome, throws, bind. destruct m as [t r]. simpl. intros ->.
  destruct (f a); reflexivity.
Qed.

Lemma throws_try_catch {A} (m : M A) (h : Exn -> M A) :
  (forall e, throws (h e) = false) -> throws (try_catch m h) = false.
Proof.
  intros Hh. unfold try_catch. destruct m as [t [a | e]]; [reflexivity |].
  specialize (Hh e). unfold throws, outcome in *. destruct (h e); exact Hh.
Qed.

Lemma bind_ext {A B} (m : M A) (f g : A -> M B) :
  (forall a, f a = g a) -> bind m f = bind m g.
Proof. intros H. unfold bind. destruct m as [t [a | e]]; [rewrite H |]; reflexivity. Qed.

Lemma bind_assoc {A B C} (m : M A) (f : A -> M B) (g : B -> M C) :
  bind (bind m f) g = bind m (fun a => bind (f a) g).
Proof.
  unfold bind. destruct m as [t [a | e]]; [| reflexivity].
  destruct (f a) as [t' [b | e]]; [| reflexivity].
  destruct (g b) as [t'' r]. rewrite app_assoc. reflexivity.
Qed.

Lemma field_printable (fields : gmap string JsVal) (k : string) :
  map_Forall (fun _ value => printable value = true) fields ->
  printable (field (JObj fields) k) = true.
Proof.
  intros H. unfold field. destruct (fields !! k) as [value |] eqn:E.
  - exact (H k value E).
  - reflexivity.
Qed.

Lemma or_else_printable (a b : JsVal) :
  printable a = true -> printable b = true -> printable (or_else a b) = true.
Proof. intros Ha Hb. unfold or_else. destruct (truthy a); assumption. Qed.

Lemma given_or_printable (given : JsVal) (b : bool) :
  printable given = true ->
  printable (match given with JUndefined => JBool b | _ => given end) = true.
Proof. intros H. destruct given; try exact H; reflexivity. Qed.

Lemma set_if_given_printable (name : string) (v : JsVal) (l : list (string * string)) :
  printable v = true -> Pixabay.set_if_given name v l = ret (query_with name v l).
Proof.
  intros H. unfold Pixabay.set_if_given, query_with.
  destruct (truthy v); [rewrite (ToString_printable v H), bind_ret |]; reflexivity.
Qed.

Lemma map_Forall_textual_printable (fields : gmap string JsVal) :
  map_Forall (fun _ value => textual value = true) fields ->
  map_Forall (fun _ value => printable value = true) fields.
Proof. intros H k value E. apply textual_printable, (H k value E). Qed.

(** With a truthy API key, and an API key, parameters and a configuration
    whose values can be converted to strings, the pixabay tool is
    created and its [execute] logs the call, builds the query and makes
    one attempt on the network; what goes wrong there is caught. *)
Lemma search_images_query
    (search : list (string * string) -> JsVal -> PluginLogger -> PluginStorageAPI -> M JsVal)
    (now : Z) (pluginId apiKey : JsVal) (config vars params : gmap string JsVal) :
  vars !! "PIXABAY_API_KEY" = Some apiKey -> truthy apiKey = true ->
  printable apiKey = true ->
  map_Forall (fun _ value => printable value = true) params ->
  map_Forall (fun _ value => printable value = true) config ->
  let context := Loader.executionContext now pluginId (JObj config) (JObj vars) in
  let query :=
    pixabay_query (JObj params) apiKey (pixabay_language (JObj config))
      (pixabay_safeSearch (JObj config)) (pixabay_perPage (JObj config)) in
  exists tool,
    Pixabay.createSearchPixabayTool search context = ret tool
    /\ execute tool (JObj params)
       = (run logger_info (createMockLogger pluginId) "Tool called"
                (obj [("query", field (JObj params) "q"); ("params", JObj params)]) in
          try_catch
            (run emit (OutboundRequest query) in
             search query (JStr "fr") (createMockLogger pluginId)
               (createMockStorage pluginId))
            (fun error =>
               run logger_error (createMockLogger pluginId) "Error searching images"
                     (obj [("error", JHost (exn_to_string error))]) in
               ret (obj [("message",
                          JStr ("Erreur lors de la recherche d'images: "
                                ++ exn_message error))]))).
Proof.
  intros Hvars Hkey Hprintable Hparams Hconfig context query. subst context.
  unfold Pixabay.createSearchPixabayTool.
  cbn [pluginConfig Loader.executionContext].
  rewrite !(get_field (JObj config)) by reflexivity. rewrite !bind_ret.
  eexists. split; [reflexivity |]. cbn [execute tool].
  unfold Pixabay.execute_search_images.
  cbn [env logger locale storage Loader.executionContext].
  rewrite !(get_field (JObj params)) by reflexivity.
  rewrite (get_field (JObj vars)) by reflexivity.
  rewrite bind_ret. apply bind_ext. intros _.
  rewrite bind_ret.
  assert (Hfield : field (JObj vars) "PIXABAY_API_KEY" = apiKey)
    by (unfold field; rewrite Hvars; reflexivity).
  rewrite Hfield, Hkey. cbn [negb].
  pose proof (field_printable params) as Hgiven.
  pose proof (field_printable config) as Hdefault.
  repeat first
    [ rewrite bind_ret
    | rewrite ToString_printable
        by (repeat first [ apply or_else_printable | apply given_or_printable
                         | apply Hgiven, Hparams | apply Hdefault, Hconfig
                         | exact Hprintable | reflexivity ])
    | rewrite set_if_given_printable by (apply Hgiven, Hparams) ].
  reflexivity.
Qed.

Lemma search_images_returns
    (search : list (string * string) -> JsVal -> PluginLogger -> PluginStorageAPI -> M JsVal)
    (now : Z) (pluginId apiKey : JsVal) (config vars params : gmap string JsVal) :
  vars !! "PIXABAY_API_KEY" = Some apiKey -> truthy apiKey = true ->
  printable apiKey = true ->
  map_Forall (fun _ value => printable value = true) params ->
  map_Forall (fun _ value => printable value = true) config ->
  exists tool,
    Pixabay.createSearchPixabayTool search
      (Loader.executionContext now pluginId (JObj config) (JObj vars)) = ret tool
    /\ throws (execute tool (JObj params)) = false.
Proof.
  intros Hvars Hkey Hprintable Hparams Hconfig.
  destruct (search_images_query search now pluginId apiKey config vars params
              Hvars Hkey Hprintable Hparams Hconfig) as (tool & Hcreate & Hexecute).
  exists tool. split; [exact Hcreate |]. rewrite Hexecute.
  erewrite throws_bind by reflexivity.
  apply throws_try_catch. intros e. reflexivity.
Qed.

(** C5.  [executeTool] does not consult [validateConfig]: replacing the
    validators of the registered plugins by any others leaves every call
    unchanged.  The pixabay validator rejects [defaultPerPage: 50], and
    still [executeTool] on the pixabay tool returns for every
    configuration that is an object, this one included, when the API key
    is set, the parameters are an object, and the values of the
    parameters and of the configuration can be converted to strings (the
    tool does so when it describes itself and builds its query, before
    its [try]). *)
Theorem executeTool_ignores_validateConfig
    (registry : list PluginExport)
    (validators : PluginExport -> option (JsVal -> M JsVal))
    (wm pm : PluginManifest) (now : Z)
    (search : list (string * string) -> JsVal -> PluginLogger -> PluginStorageAPI -> M JsVal)
    (stn : string -> option Z) (options : ExecuteToolOptions)
    (params config : gmap string JsVal) (apiKey : string) :
  Loader.executeTool (map (fun p => with_validateConfig (validators p) p) registry)
    now options
  = Loader.executeTool registry now options
  /\ Pixabay.validateConfig stn (obj [("defaultPerPage", JNum 50)])
     = ret (JStr "defaultPerPage doit etre entre 3 et 20")
  /\ (manifest_id wm <> manifest_id pm -> apiKey <> "" ->
      map_Forall (fun _ value => printable value = true) params ->
      map_Forall (fun _ value => printable value = true) config ->
      throws (executeTool wm pm now search stn
                {| opt_pluginId := JStr (manifest_id pm);
                   opt_toolId := JStr "search_images";
                   opt_params := JObj params;
                   opt_env := env_of {[ "PIXABAY_API_KEY" := apiKey ]};
                   opt_config := JObj config |}) = false).
Proof.
  split; [| split].
  - unfold Loader.executeTool. rewrite getPlugin_with_validateConfig.
    destruct (Loader.getPlugin registry (opt_pluginId options)); reflexivity.
  - reflexivity.
  - intros Hne Hkey Hparams Hconfig. unfold executeTool.
    rewrite (executeTool_resolved (loadedPlugins wm pm search stn) now
               {| opt_pluginId := JStr (manifest_id pm);
                  opt_toolId := JStr "search_images";
                  opt_params := JObj params;
                  opt_env := env_of {[ "PIXABAY_API_KEY" := apiKey ]};
                  opt_config := JObj config |}
               (pixabayPlugin pm search stn) _
               (getPlugin_pixabay wm pm search stn Hne) eq_refl).
    cbn [isAvailable opt_env opt_toolId].
    rewrite pixabay_key, lookup_singleton_eq, !bind_ret.
    assert (Htruthy : truthy (JStr apiKey) = true).
    { simpl. destruct (String.eqb_spec apiKey ""); [contradiction | reflexivity]. }
    rewrite Htruthy. cbn [negb].
    destruct (search_images_returns search now (JStr (manifest_id pm)) (JStr apiKey)
                config (JStr <$> {[ "PIXABAY_API_KEY" := apiKey ]}) params)
      as (tool & Htool & Hreturns); try assumption; try reflexivity.
    unfold Loader.invocation.
    cbn [opt_pluginId opt_config opt_env opt_params opt_toolId createTool].
    erewrite throws_bind by reflexivity.
    unfold env_of. rewrite Htool, bind_ret.
    erewrite throws_bind by reflexivity.
    erewrite throws_bind by reflexivity.
    exact Hreturns.
Qed.

Lemma executeTool_ignores_validateConfig_witness :
  Pixabay.validateConfig no_parse (obj [("defaultPerPage", JNum 50)])
  = ret (JStr "defaultPerPage doit etre entre 3 et 20")
  /\ throws (executeTool (no_declarations "weather") (no_declarations "pixabay") 0
               offline no_parse
               {| opt_pluginId := JStr "pixabay"; opt_toolId := JStr "search_images";
                  opt_params := JObj {[ "q" := JStr "cat" ]};
                  opt_env := env_of {[ "PIXABAY_API_KEY" := "secret" ]};
                  opt_config := JObj {[ "defaultPerPage" := JNum 50 ]} |}) = false.
Proof.
  pose proof (executeTool_ignores_validateConfig [] (fun _ => None)
                (no_declarations "weather") (no_declarations "pixabay") 0
                offline no_parse demo_options
                {[ "q" := JStr "cat" ]} {[ "defaultPerPage" := JNum 50 ]} "secret")
    as (_ & Hrejects & Hreturns).
  split; [exact Hrejects |].
  apply Hreturns; [discriminate | discriminate | |];
    apply map_Forall_singleton; reflexivity.
Defined.

(** ** The [POST /api/execute] handler *)

Section Handler.

Variable wm pm : PluginManifest.
Variable now : Z.
Variable search :
  list (string * string) -> JsVal -> PluginLogger -> PluginStorageAPI -> M JsVal.
Variable stn : string -> option Z.

Lemma destructure_fields (body : JsVal) :
  nullish body = false ->
  destructure body
  = ret {| opt_pluginId := field body "pluginId"; opt_toolId := field body "toolId";
           opt_params := field body "params"; opt_env := field body "env";
           opt_config := field body "config" |}.
Proof.
  intros H. unfold destructure. rewrite !(get_field body) by exact H.
  destruct body; try discriminate H; reflexivity.
Qed.

Lemma POST_bad_request (body : JsVal) :
  nullish body = false ->
  truthy (field body "pluginId") = false \/ truthy (field body "toolId") = false ->
  POST wm pm now search stn (Return body) = ([], Return bad_request).
Proof.
  intros Hbody Hfalsy. unfold POST.
  change (@pair (list Event) (Completion JsVal) [] (Return body)) with (ret body).
  rewrite bind_ret, (destructure_fields body Hbody), bind_ret.
  cbn [opt_pluginId opt_toolId].
  destruct Hfalsy as [-> | ->]; [| rewrite orb_true_r]; reflexivity.
Qed.

Lemma POST_calls_executeTool (body : JsVal) :
  nullish body = false ->
  truthy (field body "pluginId") = true -> truthy (field body "toolId") = true ->
  POST wm pm now search stn (Return body)
  = match executeTool wm pm now search stn (options_of body) with
    | (t, Return result) =>
        (called (options_of body) :: t,
         Return (json (obj [("success", JBool true); ("result", result)]) 200))
    | (t, Throw error) =>
        (((called (options_of body) :: t)
            ++ [Console "error" [JStr "Error executing tool:"; JHost (exn_to_string error)]])%list,
         Return (json (obj [("success", JBool false);
                            ("error", JStr (exn_message error))]) 500))
    end.
Proof.
  intros Hbody Hp Ht. unfold POST.
  change (@pair (list Event) (Completion JsVal) [] (Return body)) with (ret body).
  rewrite bind_ret, (destructure_fields body Hbody), bind_ret.
  cbn [opt_pluginId opt_toolId opt_params opt_env opt_config].
  rewrite Hp, Ht. cbn [negb orb]. rewrite bind_emit.
  fold (options_of body).
  destruct (executeTool wm pm now search stn (options_of body)) as [t [result | error]];
    unfold bind, ret, try_catch, trace, outcome; simpl; rewrite ?app_nil_r; reflexivity.
Qed.

End Handler.

(** The handler on the bodies whose fields can be taken.  For every body
    that parses to a value other than [null]: when [pluginId] or [toolId]
    is missing from it (or falsy)
    the handler answers 400 with [{ error }] and has emitted nothing, so
    [executeTool] was not called; otherwise it calls [executeTool] with the
    ids and with [params], [env], [config] each replaced by the empty
    object when absent, and answers 200 with [{ success: true, result }]
    when the call returns and 500 with [{ success: false, error }], the
    message of the error, when it throws. *)
Theorem POST_responses
    (wm pm : PluginManifest) (now : Z)
    (search : list (string * string) -> JsVal -> PluginLogger -> PluginStorageAPI -> M JsVal)
    (stn : string -> option Z) (body : JsVal) :
  nullish body = false ->
  (truthy (field body "pluginId") = false \/ truthy (field body "toolId") = false ->
   POST wm pm now search stn (Return body)
   = ([], Return (json (obj [("error", JStr "pluginId and toolId are required")]) 400)))
  /\ (truthy (field body "pluginId") = true -> truthy (field body "toolId") = true ->
      POST wm pm now search stn (Return body)
      = match executeTool wm pm now search stn (options_of body) with
        | (t, Return result) =>
            (called (options_of body) :: t,
             Return (json (obj [("success", JBool true); ("result", result)]) 200))
        | (t, Throw error) =>
            (((called (options_of body) :: t)
                ++ [Console "error"
                      [JStr "Error executing tool:"; JHost (exn_to_string error)]])%list,
             Return (json (obj [("success", JBool false);
                                ("error", JStr (exn_message error))]) 500))
        end)
  /\ (forall key, field body key = JUndefined -> or_else (field body key) (obj []) = obj [])
  /\ (forall fields : gmap string JsVal,
        body = JObj fields ->
        fields !! "pluginId" = None \/ fields !! "toolId" = None ->
        POST wm pm now search stn (Return body)
        = ([], Return (json (obj [("error", JStr "pluginId and toolId are required")]) 400))).
Proof.
  intros Hbody. split; [| split; [| split]].
  - apply POST_bad_request, Hbody.
  - apply POST_calls_executeTool, Hbody.
  - intros key ->. reflexivity.
  - intros fields -> Hmissing. apply POST_bad_request; [reflexivity |].
    unfold field. destruct Hmissing as [-> | ->]; [left | right]; reflexivity.
Qed.

Lemma POST_responses_witness :
  POST (no_declarations "weather") (no_declarations "pixabay") 0 offline no_parse
    (Return (obj [("toolId", JStr "get_weather")]))
  = ([], Return (json (obj [("error", JStr "pluginId and toolId are required")]) 400)).
Proof.
  apply (proj1 (POST_responses (no_declarations "weather") (no_declarations "pixabay") 0
                  offline no_parse (obj [("toolId", JStr "get_weather")]) eq_refl)).
  left. reflexivity.
Defined.

(** C6.  The body [null] has no [pluginId], and the handler answers it
    with 500 and [{ success: false, error }], not with 400 and
    [{ error }]: taking the fields of [null] throws inside the [try],
    before the ids are looked at, and the catch-all answers.
    [executeTool] is not called, as the claim says.  The other bodies
    that are not objects ([5], a string, [[]], [true]) have no
    [pluginId] either and are answered 400. *)
Theorem POST_null_body
    (wm pm : PluginManifest) (now : Z)
    (search : list (string * string) -> JsVal -> PluginLogger -> PluginStorageAPI -> M JsVal)
    (stn : string -> option Z) :
  field JNull "pluginId" = JUndefined
  /\ POST wm pm now search stn (Return JNull)
     = ([Console "error"
           [JStr "Error executing tool:";
            JHost ("TypeError: Cannot destructure property 'pluginId' of 'body' "
                   ++ "as it is null.")]],
        Return (json (obj [("success", JBool false);
                           ("error",
                            JStr ("Cannot destructure property 'pluginId' of 'body' "
                                  ++ "as it is null."))]) 500))
  /\ ~ In (called (options_of JNull)) (trace (POST wm pm now search stn (Return JNull)))
  /\ Forall (fun body =>
               field body "pluginId" = JUndefined
               /\ POST wm pm now search stn (Return body)
                  = ([], Return (json (obj [("error",
                                            JStr "pluginId and toolId are required")])
                                   400)))
       [JNum 5; JStr "weather"; JArr []; JBool true].
Proof.
  split; [reflexivity |]. split; [reflexivity |]. split.
  - intros [H | []]. discriminate H.
  - repeat constructor.
Qed.

(** C9.  A body in which [pluginId] or [toolId] is present but falsy (the
    empty string, [0], [false], [null]) is answered like one without the
    key: 400 with [{ error }], and nothing emitted, so [executeTool] was
    not called. *)
Theorem POST_falsy_ids
    (wm pm : PluginManifest) (now : Z)
    (search : list (string * string) -> JsVal -> PluginLogger -> PluginStorageAPI -> M JsVal)
    (stn : string -> option Z) (fields : gmap string JsVal) (value : JsVal) :
  fields !! "pluginId" = Some value \/ fields !! "toolId" = Some value ->
  truthy value = false ->
  POST wm pm now search stn (Return (JObj fields))
  = ([], Return (json (obj [("error", JStr "pluginId and toolId are required")]) 400))
  /\ ~ In (called (options_of (JObj fields)))
         (trace (POST wm pm now search stn (Return (JObj fields)))).
Proof.
  intros Hpresent Hfalsy.
  assert (H : POST wm pm now search stn (Return (JObj fields)) = ([], Return bad_request)).
  { apply POST_bad_request; [reflexivity |]. unfold field.
    destruct Hpresent as [-> | ->]; [left | right]; exact Hfalsy. }
  split; [exact H |]. rewrite H. intros [].
Qed.

Lemma POST_falsy_ids_witness :
  POST (no_declarations "weather") (no_declarations "pixabay") 0 offline no_parse
    (Return (JObj {[ "pluginId" := JStr "" ]}))
  = ([], Return (json (obj [("error", JStr "pluginId and toolId are required")]) 400)).
Proof.
  refine (proj1 (POST_falsy_ids (no_declarations "weather") (no_declarations "pixabay") 0
                   offline no_parse {[ "pluginId" := JStr "" ]} (JStr "") _ _));
    [left; reflexivity | reflexivity].
Defined.

(** ** The weather tool *)

Lemma outcome_bind {A B} (m : M A) (f : A -> M B) (a : A) :
  outcome m = Return a -> outcome (bind m f) = outcome (f a).
Proof.
  unfold outcome, bind. destruct m as [t r]. simpl. intros ->.
  destruct (f a); reflexivity.
Qed.

Lemma lower_ascii_idempotent (c : ascii) : lower_ascii (lower_ascii c) = lower_ascii c.
Proof. destruct c as [[] [] [] [] [] [] [] []]; reflexivity. Qed.

Lemma toLowerCase_idempotent (s : string) : toLowerCase (toLowerCase s) = toLowerCase s.
Proof.
  induction s as [| c s IH]; simpl; [reflexivity |].
  rewrite lower_ascii_idempotent, IH. reflexivity.
Qed.

(** Of the names [Object.prototype] defines, a lowercased string can only
    be [constructor] or [__proto__]. *)
Lemma Object_prototype_lowercase (s : string) :
  toLowerCase s <> "constructor" -> toLowerCase s <> "__proto__" ->
  Object_prototype (toLowerCase s) = JUndefined.
Proof.
  intros Hc Hp. pose proof (toLowerCase_idempotent s) as Hidem.
  unfold Object_prototype.
  destruct (String.eqb_spec (toLowerCase s) "constructor"); [contradiction |].
  destruct (String.eqb_spec (toLowerCase s) "__proto__"); [contradiction |].
  destruct (existsb _ _) eqn:Hex; [| reflexivity].
  apply existsb_exists in Hex as (k & Hin & Hk).
  apply String.eqb_eq in Hk. rewrite Hk in Hidem.
  repeat (destruct Hin as [<- | Hin]; [discriminate Hidem |]). destruct Hin.
Qed.

Lemma or_else_string (a b : JsVal) :
  string_or_falsy a -> nonempty_string b -> nonempty_string (or_else a b).
Proof.
  intros Ha Hb. unfold or_else. destruct (truthy a) eqn:E; [| exact Hb].
  destruct Ha as [[s ->] | H]; [| congruence].
  exists s. split; [reflexivity |]. intros ->. discriminate E.
Qed.

Lemma city_of_string (params config environment : JsVal) :
  string_or_falsy (field params "city") ->
  string_or_falsy (field config "defaultCity") ->
  string_or_falsy (field environment "WEATHER_DEFAULT_CITY") ->
  nonempty_string (city_of params config environment).
Proof.
  intros Hp Hc He. unfold city_of.
  repeat (apply or_else_string; [assumption |]).
  exists "Paris". split; [reflexivity | discriminate].
Qed.

Lemma nonempty_string_truthy (v : JsVal) : nonempty_string v -> truthy v = true.
Proof.
  intros (s & -> & Hs). simpl. destruct (String.eqb_spec s ""); [contradiction | reflexivity].
Qed.

Lemma default_city_printable (config environment : JsVal) :
  string_or_falsy (field config "defaultCity") ->
  string_or_falsy (field environment "WEATHER_DEFAULT_CITY") ->
  printable (default_city config environment) = true.
Proof.
  intros Hconfigured Hfrom_env.
  assert (Hparis : nonempty_string (JStr "Paris"))
    by (exists "Paris"; split; [reflexivity | discriminate]).
  destruct (or_else_string _ _ Hconfigured (or_else_string _ _ Hfrom_env Hparis))
    as (city & Hcity & _).
  unfold default_city. rewrite Hcity. reflexivity.
Qed.

(** The factory returns when the default city can be converted to a
    string. *)
Lemma get_weather_created (context : PluginContext) (config environment : gmap string JsVal) :
  pluginConfig context = JObj config ->
  env context = JObj environment ->
  let defaultCity := default_city (JObj config) (JObj environment) in
  printable defaultCity = true ->
  Weather.createGetWeatherTool context
  = ret (tool
      ("Obtient les conditions meteorologiques actuelles pour une ville. Ville par defaut: "
       ++ to_string defaultCity
       ++ ". ATTENTION: Ce sont des donnees de demonstration, pas de vraies donnees meteo.")
      (jsonSchema (Weather.schema defaultCity))
      (Weather.execute_get_weather context defaultCity
         (or_else (field (JObj config) "units") (JStr "celsius")))).
Proof.
  intros Hconfig Henv defaultCity Hprintable.
  unfold Weather.createGetWeatherTool. rewrite Hconfig, Henv.
  rewrite !(get_field (JObj config)) by reflexivity. rewrite bind_ret.
  assert (Hdefault : defaultCity
            = if truthy (field (JObj config) "defaultCity")
              then field (JObj config) "defaultCity"
              else or_else (field (JObj environment) "WEATHER_DEFAULT_CITY")
                     (JStr "Paris")) by reflexivity.
  destruct (truthy (field (JObj config) "defaultCity")).
  - rewrite !bind_ret, <- Hdefault, (ToString_printable _ Hprintable), bind_ret.
    reflexivity.
  - rewrite (get_field (JObj environment)) by reflexivity.
    rewrite !bind_ret, <- Hdefault, (ToString_printable _ Hprintable), bind_ret.
    reflexivity.
Qed.

(** The first letter of a city may be any code unit: the e with acute
    accent (233) becomes the E with acute accent (201). *)
Lemma capitalize_accented :
  capitalize (String (ascii_of_nat 233) "vry") = String (ascii_of_nat 201) "vry"
  /\ capitalize (String (ascii_of_nat 223) "en") = "SSen"
  /\ toLowerCase (String (ascii_of_nat 201) "VRY") = String (ascii_of_nat 233) "vry".
Proof. repeat split; vm_compute; reflexivity. Qed.

(** C10 as stated fails in two ways.  With [defaultCity: 5] in the
    configuration and no city given, [execute] throws: a number has no
    [toLowerCase].  With the city [constructor], which is not in the demo
    table, the entry is what [Object.prototype] has under that name: the
    condition is [undefined] and the country is not [Inconnu]. *)
Lemma get_weather_counterexample :
  (exists tool,
     Weather.createGetWeatherTool
       (Loader.executionContext 0 (JStr "weather") (obj [("defaultCity", JNum 5)]) (obj []))
     = ret tool
     /\ outcome (execute tool (obj []))
        = Throw (TypeError "city.toLowerCase is not a function"))
  /\ (exists tool result,
        Weather.createGetWeatherTool
          (Loader.executionContext 0 (JStr "weather") (obj []) (obj []))
        = ret tool
        /\ Weather.DEMO_WEATHER !! toLowerCase "constructor" = None
        /\ outcome (execute tool (obj [("city", JStr "constructor")])) = Return result
        /\ field result "condition" = JUndefined
        /\ field result "country" = JHost "function Object() { [native code] }").
Proof.
  split.
  - eexists. split; reflexivity.
  - eexists. eexists. repeat split; vm_compute; reflexivity.
Qed.

Lemma country_is_demo_city (k : string) (v : JsVal) :
  Weather.COUNTRY_MAP !! k = Some v -> Weather.DEMO_WEATHER !! k <> None.
Proof.
  intros H. apply elem_of_list_to_map_2 in H.
  repeat (apply elem_of_cons in H as [[= -> _] | H]; [discriminate |]).
  apply elem_of_nil in H. destruct H.
Qed.

(** C10, as the code has it.  Let the configuration and the environment
    of the context be objects, let its logger return, and let the given
    city, the configured default city and [WEATHER_DEFAULT_CITY] each be a
    string or falsy.  Then the tool is created and [execute] returns a
    result.  The city reported on is the given one, else the configured
    default, else the one of the environment, else Paris; the result
    names it with its first letter in upper case (for a first letter
    whose upper-case form the strings of the model have: not the micro
    sign, not y with diaeresis).  When its lowercase form is not a key of the demo table and is not
    [constructor] or [__proto__], the result has the default entry (20
    degrees, or 68 in Fahrenheit, condition [Variable], humidity 60, wind
    10) and the country [Inconnu]. *)
Theorem get_weather_total
    (context : PluginContext) (params config environment : gmap string JsVal) :
  pluginConfig context = JObj config ->
  env context = JObj environment ->
  (forall message data,
     outcome (logger_info (logger context) message data) = Return tt) ->
  string_or_falsy (field (JObj params) "city") ->
  string_or_falsy (field (JObj config) "defaultCity") ->
  string_or_falsy (field (JObj environment) "WEATHER_DEFAULT_CITY") ->
  exists tool result city,
    Weather.createGetWeatherTool context = ret tool
    /\ outcome (execute tool (JObj params)) = Return result
    /\ city_of (JObj params) (JObj config) (JObj environment) = JStr city
    /\ (upper_known city = true -> field result "city" = JStr (capitalize city))
    /\ (Weather.DEMO_WEATHER !! toLowerCase city = None ->
        toLowerCase city <> "constructor" -> toLowerCase city <> "__proto__" ->
        field result "condition" = JStr "Variable"
        /\ field result "country" = JStr "Inconnu"
        /\ field result "temperature"
           = (if is_str (or_else (field (JObj config) "units") (JStr "celsius")) "fahrenheit"
              then JNum 68 else JNum 20)
        /\ field result "humidity" = JNum 60
        /\ field result "windSpeed" = JNum 10).
Proof.
  intros Hconfig Henv Hlogger Hgiven Hconfigured Hfrom_env.
  destruct (city_of_string _ _ _ Hgiven Hconfigured Hfrom_env) as (city & Hcity & Hne).
  set (defaultCity := default_city (JObj config) (JObj environment)).
  set (units := or_else (field (JObj config) "units") (JStr "celsius")).
  pose proof (get_weather_created context config environment Hconfig Henv
                (default_city_printable _ _ Hconfigured Hfrom_env)) as Hcreate.
  cbv zeta in Hcreate. fold defaultCity units in Hcreate.
  assert (Hdata : nullish (or_else (index Weather.DEMO_WEATHER (toLowerCase city))
                             (index Weather.DEMO_WEATHER "default")) = false).
  { apply truthy_not_nullish, or_else_truthy. reflexivity. }
  destruct (is_str units "fahrenheit") eqn:Hunits.
  all: eexists; eexists; exists city; split; [exact Hcreate |].
  all: split;
    [ cbn [execute tool]; unfold Weather.execute_get_weather;
      rewrite (get_field (JObj params)) by reflexivity; rewrite bind_ret;
      change (or_else (field (JObj params) "city") defaultCity)
        with (city_of (JObj params) (JObj config) (JObj environment));
      rewrite Hcity; cbn [Weather.string_receiver]; rewrite bind_ret;
      rewrite (outcome_bind _ _ tt) by apply Hlogger;
      rewrite !(get_field _ _ Hdata), !bind_ret, Hunits; reflexivity |].
  all: split; [exact Hcity |]. all: split; [intros _; reflexivity |].
  all: intros Hnone Hc Hp.
  all: assert (Hindex : index Weather.DEMO_WEATHER (toLowerCase city) = JUndefined)
         by (unfold index; rewrite Hnone; apply Object_prototype_lowercase; assumption).
  all: assert (Hcountry : index Weather.COUNTRY_MAP (toLowerCase city) = JUndefined)
         by (unfold index;
             destruct (Weather.COUNTRY_MAP !! toLowerCase city) as [v |] eqn:Hv;
             [ exfalso; exact (country_is_demo_city _ _ Hv Hnone)
             | apply Object_prototype_lowercase; assumption ]).
  all: rewrite Hindex, Hcountry; repeat split; reflexivity.
Qed.

Lemma get_weather_total_witness :
  exists tool result,
    Weather.createGetWeatherTool
      (Loader.executionContext 0 (JStr "weather") (JObj ∅) (JObj ∅)) = ret tool
    /\ outcome (execute tool (JObj {[ "city" := JStr "Oslo" ]})) = Return result
    /\ field result "city" = JStr "Oslo"
    /\ field result "condition" = JStr "Variable"
    /\ field result "country" = JStr "Inconnu".
Proof.
  assert (Hgiven : string_or_falsy (field (JObj {[ "city" := JStr "Oslo" ]}) "city"))
    by (left; exists "Oslo"; reflexivity).
  assert (Hconfigured : string_or_falsy (field (JObj ∅) "defaultCity"))
    by (right; reflexivity).
  assert (Hfrom_env : string_or_falsy (field (JObj ∅) "WEATHER_DEFAULT_CITY"))
    by (right; reflexivity).
  destruct (get_weather_total
              (Loader.executionContext 0 (JStr "weather") (JObj ∅) (JObj ∅))
              {[ "city" := JStr "Oslo" ]} ∅ ∅ eq_refl eq_refl
              (fun _ _ => eq_refl) Hgiven Hconfigured Hfrom_env)
    as (tool & result & city & Hcreate & Hexec & Hcity & Hfield & Hdefault).
  assert (Hoslo : city = "Oslo") by (vm_compute in Hcity; congruence).
  subst city.
  destruct (Hdefault eq_refl) as (Hcondition & Hcountry & _); [discriminate .. |].
  exists tool, result. pose proof (Hfield eq_refl) as Hname. auto.
Defined.

(** * Further properties of the code *)

(** ** Strings *)

Lemma prefix_append (p rest : string) : String.prefix p (p ++ rest) = true.
Proof.
  induction p as [| c p IH]; simpl; [destruct rest; reflexivity |].
  destruct (ascii_dec c c); [exact IH | contradiction].
Qed.

Lemma includes_prefix (s sub : string) : String.prefix sub s = true -> includes s sub = true.
Proof.
  intros H. destruct s as [| c s].
  - change (includes "" sub) with (String.prefix sub "" || false). rewrite H. reflexivity.
  - change (includes (String c s) sub)
      with (String.prefix sub (String c s) || includes s sub).
    rewrite H. reflexivity.
Qed.

Lemma includes_append (before sub after : string) :
  includes (before ++ sub ++ after) sub = true.
Proof.
  induction before as [| c before IH].
  - change ("" ++ sub ++ after) with (sub ++ after).
    apply includes_prefix, prefix_append.
  - simpl. rewrite IH. apply orb_true_r.
Qed.

Lemma toLowerCase_append (a b : string) :
  toLowerCase (a ++ b) = toLowerCase a ++ toLowerCase b.
Proof. induction a as [| c a IH]; simpl; [| rewrite IH]; reflexivity. Qed.

Lemma length_substring (n m : nat) (s : string) :
  String.length (substring n m s) = Nat.min m (String.length s - n).
Proof.
  revert n m. induction s as [| c s IH]; intros n m.
  - destruct n, m; cbn [substring String.length]; lia.
  - destruct n, m; cbn [substring String.length]; rewrite ?IH; lia.
Qed.

Lemma substring_split (n a b : nat) (s : string) :
  substring n (a + b) s = substring n a s ++ substring (n + a) b s.
Proof.
  revert n a. induction s as [| c s IH]; intros n a.
  - destruct n, a, b; reflexivity.
  - destruct n as [| n].
    + destruct a as [| a]; [reflexivity |]. simpl. rewrite IH. reflexivity.
    + simpl. apply IH.
Qed.

Lemma substring_whole (s : string) : substring 0 (String.length s) s = s.
Proof. induction s as [| c s IH]; simpl; [| rewrite IH]; reflexivity. Qed.

(** Inside the string, [slice] from a position for a number of code
    units is [substring], cut at the end of the string. *)
Lemma slice_substring (s : string) (start count : Z) :
  (0 <= start <= str_length s)%Z -> (0 <= count)%Z ->
  slice s start (start + count)
  = substring (Z.to_nat start)
      (Nat.min (Z.to_nat count) (String.length s - Z.to_nat start)) s.
Proof.
  intros Hstart Hcount. unfold slice, slice_index, str_length in *.
  destruct (Z.ltb_spec start 0); [lia |].
  destruct (Z.ltb_spec (start + count) 0); [lia |].
  f_equal; lia.
Qed.
Lemma substring_cut (n m : nat) (s : string) :
  substring n (Nat.min m (String.length s - n)) s = substring n m s.
Proof.
  revert n m. induction s as [| c s IH]; intros n m.
  - destruct n, m; reflexivity.
  - destruct n as [| n], m as [| m]; cbn [substring String.length].
    + reflexivity.
    + rewrite Nat.sub_0_r. cbn [Nat.min substring]. f_equal.
      rewrite <- (IH 0%nat m), Nat.sub_0_r. reflexivity.
    + rewrite Nat.min_0_l. reflexivity.
    + change (S (String.length s) - S n)%nat with (String.length s - n)%nat. apply IH.
Qed.

Lemma append_empty_l (s : string) : "" ++ s = s.
Proof. reflexivity. Qed.

(** ** Pagination of fetched content *)

(** X2.  For a start index inside the content and a maximal length that
    is not negative, the page is truncated exactly when content is left
    after it; its text is the [maxLength] code units from [startIndex]
    (fewer at the end of the content), followed, when truncated, by the
    notice that names the number of code units left and the next start
    index. *)
Theorem applyPagination_page (content : string) (startIndex maxLength : Z) :
  (0 <= startIndex < str_length content)%Z -> (0 <= maxLength)%Z ->
  let page := FetchUrl.applyPagination content startIndex maxLength in
  let piece := substring (Z.to_nat startIndex) (Z.to_nat maxLength) content in
  FetchUrl.truncated page = (startIndex + maxLength <? str_length content)%Z
  /\ FetchUrl.text page
     = (if FetchUrl.truncated page
        then piece ++ FetchUrl.notice (str_length content - (startIndex + maxLength))
                        (startIndex + maxLength)
        else piece)
  /\ str_length piece = Z.min maxLength (str_length content - startIndex).
Proof.
  intros Hstart Hmax page piece. subst page. unfold FetchUrl.applyPagination.
  destruct (Z.leb_spec (str_length content) startIndex); [lia |].
  cbn [FetchUrl.truncated FetchUrl.text].
  rewrite slice_substring by lia. rewrite substring_cut. fold piece.
  split; [reflexivity |]. split; [reflexivity |].
  subst piece. unfold str_length in *. rewrite length_substring. lia.
Qed.

Lemma applyPagination_page_witness :
  FetchUrl.truncated (FetchUrl.applyPagination "abcdef" 2 3) = true
  /\ FetchUrl.text (FetchUrl.applyPagination "abcdef" 2 3)
     = "cde" ++ FetchUrl.notice 1 5.
Proof.
  destruct (applyPagination_page "abcdef" 2 3
              ltac:(vm_compute; split; [discriminate | reflexivity])
              ltac:(discriminate)) as (Htruncated & Htext & _).
  split; [exact Htruncated |]. rewrite Htext, Htruncated. reflexivity.
Defined.

Lemma length_append (a b : string) :
  String.length (a ++ b) = (String.length a + String.length b)%nat.
Proof.
  induction a as [| c a IH]; [reflexivity |].
  change (String c a ++ b) with (String c (a ++ b)).
  cbn [String.length]. rewrite IH. reflexivity.
Qed.

Lemma substring_front (a b : string) :
  substring 0 (String.length (a ++ b) - String.length b) (a ++ b) = a.
Proof.
  rewrite length_append.
  replace (String.length a + String.length b - String.length b)%nat
    with (String.length a) by lia.
  induction a as [| c a IH]; [destruct b; reflexivity |].
  change (String c a ++ b) with (String c (a ++ b)).
  cbn [String.length substring]. rewrite IH. reflexivity.
Qed.

(** X3.  A reader that starts inside the content with a positive maximal
    length, reads the text of each page, cuts the notice off a truncated
    page and asks for the next page at the index the notice names, gets,
    page after page, the content from its start index to the end: from
    index 0, the whole content. *)
Theorem follow_reassembles (fuel : nat) (content : string) (startIndex maxLength : Z) :
  (0 < maxLength)%Z -> (0 <= startIndex < str_length content)%Z ->
  (str_length content - startIndex <= Z.of_nat fuel)%Z ->
  String.concat "" (FetchUrl.follow fuel content startIndex maxLength)
  = substring (Z.to_nat startIndex) (String.length content - Z.to_nat startIndex) content
  /\ (startIndex = 0%Z ->
      String.concat "" (FetchUrl.follow fuel content startIndex maxLength) = content).
Proof.
  intros Hmax Hstart Hfuel.
  assert (Hall : String.concat "" (FetchUrl.follow fuel content startIndex maxLength)
                 = substring (Z.to_nat startIndex)
                     (String.length content - Z.to_nat startIndex) content).
  { revert startIndex Hstart Hfuel.
    induction fuel as [| fuel IH]; intros startIndex Hstart Hfuel; [lia |].
    cbn [FetchUrl.follow].
    destruct (applyPagination_page content startIndex maxLength Hstart ltac:(lia))
      as (Htruncated & Htext & _).
    cbv zeta in Htext. rewrite Htext, Htruncated.
    destruct (Z.ltb_spec (startIndex + maxLength) (str_length content)) as [Hmore | Hlast].
    - rewrite substring_front.
      assert (Hnonempty : exists piece rest,
                FetchUrl.follow fuel content (startIndex + maxLength) maxLength
                = piece :: rest).
      { destruct fuel; [lia |]. cbn [FetchUrl.follow].
        destruct (FetchUrl.truncated
                    (FetchUrl.applyPagination content (startIndex + maxLength) maxLength));
          do 2 eexists; reflexivity. }
      destruct Hnonempty as (piece & rest & Hshape).
      cbn [String.concat]. rewrite Hshape, <- Hshape.
      rewrite IH by lia.
      unfold str_length in *.
      replace (String.length content - Z.to_nat startIndex)%nat
        with (Z.to_nat maxLength
              + (String.length content - Z.to_nat (startIndex + maxLength)))%nat by lia.
      rewrite substring_split. f_equal. rewrite append_empty_l. f_equal; lia.
    - cbn [String.concat]. rewrite <- substring_cut. f_equal.
      unfold str_length in *. lia. }
  split; [exact Hall |]. intros ->. rewrite Hall.
  change (Z.to_nat 0) with 0%nat. rewrite Nat.sub_0_r. apply substring_whole.
Qed.

Lemma follow_reassembles_witness :
  String.concat "" (FetchUrl.follow 7 "abcdefg" 0 3) = "abcdefg".
Proof.
  apply (proj2 (follow_reassembles 7 "abcdefg" 0 3 eq_refl
                  ltac:(vm_compute; split; [discriminate | reflexivity])
                  ltac:(vm_compute; discriminate)) eq_refl).
Defined.

(** ** Recognising HTML *)

Lemma lower_ascii_lt (c : ascii) : lower_ascii c = "<"%char -> c = "<"%char.
Proof. destruct c as [[] [] [] [] [] [] [] []]; cbv; congruence. Qed.

Lemma trimStart_spaces (spaces rest : string) (c : ascii) :
  forallb is_space (list_ascii_of_string spaces) = true -> is_space c = false ->
  trimStart (spaces ++ String c rest) = String c rest.
Proof.
  intros Hspaces Hc. induction spaces as [| s spaces IH]; simpl in *.
  - rewrite Hc. reflexivity.
  - apply andb_prop in Hspaces as [Hs Hrest]. rewrite Hs. apply IH, Hrest.
Qed.

Lemma prefix_first (first c : ascii) (p s : string) :
  c <> first -> String.prefix (String first p) (String c s) = false.
Proof.
  intros H. cbn [String.prefix]. destruct (ascii_dec first c); [congruence | reflexivity].
Qed.

(** X4.  A content type that contains [text/html] or [application/xhtml]
    makes the content HTML whatever the body is.  Otherwise the body
    decides: it is HTML when, after leading white space, it starts with
    [<html] or [<!doctype html] in any letter case, and it is not when
    what follows the white space does not start with [<]. *)
Theorem isHtmlContent_decides
    (contentType before after body spaces tag rest : string) :
  FetchUrl.isHtmlContent (before ++ "text/html" ++ after) body = true
  /\ FetchUrl.isHtmlContent (before ++ "application/xhtml" ++ after) body = true
  /\ (forallb is_space (list_ascii_of_string spaces) = true ->
      toLowerCase tag = "<html" \/ toLowerCase tag = "<!doctype html" ->
      FetchUrl.isHtmlContent contentType (spaces ++ tag ++ rest) = true)
  /\ (includes contentType "text/html" = false ->
      includes contentType "application/xhtml" = false ->
      startsWith (trimStart body) "<" = false ->
      FetchUrl.isHtmlContent contentType body = false).
Proof.
  split; [| split; [| split]].
  - unfold FetchUrl.isHtmlContent. rewrite includes_append. reflexivity.
  - unfold FetchUrl.isHtmlContent. rewrite includes_append, orb_true_r. reflexivity.
  - intros Hspaces Htag. unfold FetchUrl.isHtmlContent.
    destruct (includes contentType "text/html" || includes contentType "application/xhtml");
      [reflexivity |].
    assert (Hshape : exists rest', tag = String "<"%char rest').
    { destruct tag as [| c tag']; [destruct Htag; discriminate |].
      exists tag'. f_equal. apply lower_ascii_lt.
      destruct Htag as [H | H]; simpl in H; congruence. }
    destruct Hshape as [tag' Hshape].
    assert (Htrim : trimStart (spaces ++ tag ++ rest) = tag ++ rest).
    { rewrite Hshape. apply trimStart_spaces; [exact Hspaces | reflexivity]. }
    rewrite Htrim, toLowerCase_append. unfold startsWith.
    destruct Htag as [-> | ->]; rewrite prefix_append; [apply orb_true_r | reflexivity].
  - intros Htext Hxhtml Hbody. unfold FetchUrl.isHtmlContent.
    rewrite Htext, Hxhtml. cbn [orb]. unfold startsWith in *.
    destruct (trimStart body) as [| c r]; [reflexivity |].
    cbn [toLowerCase].
    assert (Hc : lower_ascii c <> "<"%char).
    { intros H. apply lower_ascii_lt in H. subst c. destruct r; cbv in Hbody; discriminate Hbody. }
    rewrite !prefix_first by exact Hc. reflexivity.
Qed.

Lemma isHtmlContent_decides_witness :
  FetchUrl.isHtmlContent "text/plain" (newline ++ "  " ++ "<HtMl" ++ " lang=fr>") = true
  /\ FetchUrl.isHtmlContent "TEXT/HTML" "hello" = false.
Proof.
  pose proof (isHtmlContent_decides "text/plain" "" "" "" (newline ++ "  ") "<HtMl" " lang=fr>")
    as (_ & _ & Hsniff & _).
  pose proof (isHtmlContent_decides "TEXT/HTML" "" "" "hello" "" "" "")
    as (_ & _ & _ & Hnot).
  split.
  - apply Hsniff; [reflexivity | left; reflexivity].
  - apply Hnot; reflexivity.
Defined.

(** ** File extensions and media of the image search *)

Lemma letters_spec (s : string) :
  s = fst (SearchImages.letters s) ++ snd (SearchImages.letters s)
  /\ forallb SearchImages.is_letter
       (list_ascii_of_string (fst (SearchImages.letters s))) = true.
Proof.
  induction s as [| c s [IHeq IHall]]; [split; reflexivity |].
  cbn [SearchImages.letters].
  destruct (SearchImages.is_letter c) eqn:Hc; [| split; reflexivity].
  destruct (SearchImages.letters s) as [word after]. cbn [fst snd] in *.
  split.
  - change (String c word ++ after) with (String c (word ++ after)).
    f_equal. exact IHeq.
  - simpl. rewrite Hc. exact IHall.
Qed.

Lemma extension_match_letters (s group : string) :
  SearchImages.extension_match s = Some group ->
  group <> ""
  /\ forallb SearchImages.is_letter (list_ascii_of_string group) = true.
Proof.
  induction s as [| c s IH]; [discriminate |]. cbn [SearchImages.extension_match].
  destruct (Ascii.eqb c "."); [| exact IH].
  pose proof (letters_spec s) as [_ Hall].
  destruct (SearchImages.letters s) as [word after]. cbn [fst] in Hall.
  destruct (String.eqb_spec word ""); cbn [negb andb]; [exact IH |].
  destruct (String.eqb after "" || startsWith after "?"); [| exact IH].
  intros [= <-]. split; assumption.
Qed.

(** X5.  Whatever the URL, [getExtension] gives a word of one or more
    letters and nothing else: the group of the match, or [jpg]. *)
Theorem getExtension_letters (url : string) :
  SearchImages.getExtension url <> ""
  /\ forallb SearchImages.is_letter
       (list_ascii_of_string (SearchImages.getExtension url)) = true
  /\ (includes url "." = false -> SearchImages.getExtension url = "jpg").
Proof.
  unfold SearchImages.getExtension.
  destruct (SearchImages.extension_match url) as [group |] eqn:Hmatch.
  - destruct (extension_match_letters url group Hmatch) as [Hne Hall].
    split; [exact Hne |]. split; [exact Hall |].
    intros Hdot. exfalso. clear Hne Hall. revert Hmatch.
    induction url as [| c url IH]; [discriminate |].
    change (includes (String c url) ".")
      with (String.prefix "." (String c url) || includes url ".") in Hdot.
    apply orb_false_elim in Hdot as [Hfirst Hrest].
    cbn [SearchImages.extension_match].
    destruct (Ascii.eqb_spec c ".") as [-> | _]; [| exact (IH Hrest)].
    destruct url; cbv in Hfirst; discriminate Hfirst.
  - split; [discriminate |]. split; reflexivity.
Qed.

Lemma includes_cons_false (c : ascii) (s sub : string) :
  includes (String c s) sub = false ->
  String.prefix sub (String c s) = false /\ includes s sub = false.
Proof.
  change (includes (String c s) sub)
    with (String.prefix sub (String c s) || includes s sub).
  apply orb_false_elim.
Qed.

Lemma letters_before_dot (base tail : string) :
  includes base "?" = false ->
  let after := snd (SearchImages.letters (base ++ String "." tail)) in
  String.eqb after "" || startsWith after "?" = false.
Proof.
  induction base as [| c base IH]; intros Hq; [reflexivity |].
  apply includes_cons_false in Hq as [Hfirst Hrest].
  change (String c base ++ String "." tail) with (String c (base ++ String "." tail)).
  cbn [SearchImages.letters].
  destruct (SearchImages.is_letter c).
  - specialize (IH Hrest). cbv zeta in IH.
    destruct (SearchImages.letters (base ++ String "." tail)). exact IH.
  - cbn [snd]. unfold startsWith. cbn [String.eqb orb String.prefix] in *.
    destruct (ascii_dec "?" c); [| reflexivity].
    destruct base; exact Hfirst.
Qed.

Lemma letters_word (word tail : string) :
  forallb SearchImages.is_letter (list_ascii_of_string word) = true ->
  tail = "" \/ startsWith tail "?" = true ->
  SearchImages.letters (word ++ tail) = (word, tail).
Proof.
  intros Hword Htail. induction word as [| c word IH].
  - change ("" ++ tail) with tail. destruct tail as [| t tail]; [reflexivity |].
    destruct Htail as [Htail | Htail]; [discriminate |].
    unfold startsWith in Htail. cbn [String.prefix] in Htail.
    destruct (ascii_dec "?" t) as [<- | _]; [reflexivity | discriminate].
  - simpl in Hword. apply andb_prop in Hword as [Hc Hrest].
    change (String c word ++ tail) with (String c (word ++ tail)).
    cbn [SearchImages.letters]. rewrite Hc, (IH Hrest). reflexivity.
Qed.

(** X6.  For a URL that ends in a dot and a word of letters, with or
    without a query string after it, and has no [?] before that dot,
    [getExtension] gives that word. *)
Theorem getExtension_suffix (base ext query : string) :
  includes base "?" = false ->
  ext <> "" ->
  forallb SearchImages.is_letter (list_ascii_of_string ext) = true ->
  query = "" \/ startsWith query "?" = true ->
  SearchImages.getExtension (base ++ "." ++ ext ++ query) = ext.
Proof.
  intros Hbase Hne Hext Hquery. unfold SearchImages.getExtension.
  assert (Hmatch : SearchImages.extension_match (base ++ "." ++ ext ++ query) = Some ext).
  { induction base as [| c base IH].
    - change ("" ++ "." ++ ext ++ query) with (String "." (ext ++ query)).
      cbn [SearchImages.extension_match Ascii.eqb Bool.eqb andb].
      rewrite (letters_word ext query Hext Hquery).
      destruct (String.eqb_spec ext ""); [contradiction |]. cbn [negb andb].
      destruct Hquery as [-> | ->]; [reflexivity | rewrite orb_true_r; reflexivity].
    - pose proof Hbase as Hcons. apply includes_cons_false in Hcons as [_ Hrest].
      change (String c base ++ "." ++ ext ++ query)
        with (String c (base ++ String "." (ext ++ query))).
      cbn [SearchImages.extension_match].
      destruct (Ascii.eqb c "."); [| exact (IH Hrest)].
      pose proof (letters_before_dot base (ext ++ query) Hrest) as Hafter.
      cbv zeta in Hafter.
      destruct (SearchImages.letters (base ++ String "." (ext ++ query))) as [word after].
      cbn [snd] in Hafter. rewrite Hafter, andb_false_r. exact (IH Hrest). }
  rewrite Hmatch. reflexivity.
Qed.

Lemma getExtension_suffix_witness :
  SearchImages.getExtension "https://cdn.pixabay.com/photo/2013/10/15/cat_640.png?x=1"
  = "png".
Proof.
  apply (getExtension_suffix "https://cdn.pixabay.com/photo/2013/10/15/cat_640" "png" "?x=1");
    [reflexivity | discriminate | reflexivity | right; reflexivity].
Defined.

Lemma getExtension_letters_witness : SearchImages.getExtension "preview" = "jpg".
Proof. apply (proj2 (proj2 (getExtension_letters "preview"))). reflexivity. Defined.

Lemma mime_of_not_jpg (ext : string) :
  SearchImages.mime_of ext <> "image/jpg"
  /\ startsWith (SearchImages.mime_of ext) "image/" = true.
Proof.
  unfold SearchImages.mime_of, startsWith. split; [| apply prefix_append].
  destruct (String.eqb_spec ext "jpg") as [-> | Hne]; [discriminate |].
  intros H. apply Hne. injection H as H. exact H.
Qed.

(** X7.  [formatImageResults] with no hit gives the no-image message of
    the locale and no media, whatever was stored.  With hits it gives one
    media entry for each stored image, in order: an image whose URL and
    download URL are the stored web-format URL, and whose MIME type
    starts with [image/] and is never [image/jpg]. *)
Theorem formatImageResults_media
    (toLocaleString : Z -> JsVal -> string)
    (response : SearchImages.PixabayResponse)
    (storedImages : list SearchImages.StoredImage) (locale : JsVal) :
  let result :=
    SearchImages.formatImageResults toLocaleString response storedImages locale in
  (SearchImages.hits response = [] ->
   result = {| SearchImages.message :=
                 Pixabay.noImagesFound (Pixabay.getMessages locale);
               SearchImages.media := None |})
  /\ (SearchImages.hits response <> [] ->
      exists entries,
        SearchImages.media result = Some entries
        /\ map SearchImages.url entries
           = map SearchImages.storedWebformatURL storedImages
        /\ Forall (fun entry =>
                     SearchImages.media_type entry = "image"
                     /\ SearchImages.downloadUrl entry = Some (SearchImages.url entry)
                     /\ exists mime,
                          SearchImages.mimeType entry = Some mime
                          /\ startsWith mime "image/" = true
                          /\ mime <> "image/jpg")
                  entries).
Proof.
  intros result. subst result. unfold SearchImages.formatImageResults. split.
  - intros ->. reflexivity.
  - intros Hhits. destruct (SearchImages.hits response) as [| hit hits]; [contradiction |].
    cbn [length]. destruct (Z.eqb_spec (Z.of_nat (S (length hits))) 0); [lia |].
    eexists. split; [reflexivity |]. split.
    + rewrite map_map. reflexivity.
    + apply Forall_map, Forall_forall. intros stored _. cbn.
      split; [reflexivity |]. split; [reflexivity |].
      eexists. split; [reflexivity |].
      destruct (mime_of_not_jpg
                  (SearchImages.getExtension
                     (SearchImages.webformatURL (SearchImages.image stored))));
        split; assumption.
Qed.

Lemma formatImageResults_media_witness :
  SearchImages.formatImageResults (fun n _ => num_to_string n)
    {| SearchImages.total := 0; SearchImages.totalHits := 0; SearchImages.hits := [] |}
    [] (JStr "en")
  = {| SearchImages.message := "No images found for this search.";
       SearchImages.media := None |}.
Proof.
  apply (proj1 (formatImageResults_media (fun n _ => num_to_string n)
                  {| SearchImages.total := 0; SearchImages.totalHits := 0;
                     SearchImages.hits := [] |} [] (JStr "en"))).
  reflexivity.
Defined.

(** ** Configuration validators *)

(** X8.  The weather validator accepts a configuration object exactly
    when its [units] is falsy (absent, empty, ...), [celsius] or
    [fahrenheit]; any other value is rejected with the message; it never
    throws on an object and emits nothing. *)
Theorem weather_validateConfig_accepts (config : gmap string JsVal) :
  let units := field (JObj config) "units" in
  Weather.validateConfig (JObj config)
  = ret (if negb (truthy units) || is_str units "celsius" || is_str units "fahrenheit"
         then JBool true
         else JStr ("units doit etre " ++ dquote ++ "celsius" ++ dquote ++ " ou "
                    ++ dquote ++ "fahrenheit" ++ dquote))
  /\ (Weather.validateConfig (JObj config) = ret (JBool true)
      <-> truthy units = false \/ units = JStr "celsius" \/ units = JStr "fahrenheit").
Proof.
  intros units.
  assert (Heq : Weather.validateConfig (JObj config)
    = ret (if negb (truthy units) || is_str units "celsius" || is_str units "fahrenheit"
           then JBool true
           else JStr ("units doit etre " ++ dquote ++ "celsius" ++ dquote ++ " ou "
                      ++ dquote ++ "fahrenheit" ++ dquote))).
  { unfold Weather.validateConfig. rewrite get_field by reflexivity. rewrite bind_ret.
    fold units. destruct (truthy units), (is_str units "celsius"),
      (is_str units "fahrenheit"); reflexivity. }
  split; [exact Heq |]. rewrite Heq.
  destruct (truthy units) eqn:Ht; cbn [negb orb].
  - destruct (is_str units "celsius") eqn:Hc; cbn [orb].
    + apply is_str_true in Hc. split; [auto | reflexivity].
    + destruct (is_str units "fahrenheit") eqn:Hf.
      * apply is_str_true in Hf. split; [auto | reflexivity].
      * apply is_str_false in Hc, Hf. split; [discriminate |].
        intros [H | [H | H]]; congruence.
  - split; [auto | reflexivity].
Qed.

(** X9.  The pixabay validator accepts a configuration object without
    [defaultPerPage], and one whose [defaultPerPage] is a number exactly
    when it lies between 3 and 20, bounds included.  [null], [false] and
    [true] count as 0, 0 and 1 and are rejected; [NaN] passes both
    comparisons and is accepted. *)
Theorem pixabay_validateConfig_range (stn : string -> option Z)
    (config : gmap string JsVal) (n : Z) (b : bool) :
  (config !! "defaultPerPage" = None ->
   Pixabay.validateConfig stn (JObj config) = ret (JBool true))
  /\ (config !! "defaultPerPage" = Some (JNum n) ->
      Pixabay.validateConfig stn (JObj config)
      = ret (if (3 <=? n)%Z && (n <=? 20)%Z then JBool true
             else JStr "defaultPerPage doit etre entre 3 et 20"))
  /\ (config !! "defaultPerPage" = Some JNull \/ config !! "defaultPerPage" = Some (JBool b) ->
      Pixabay.validateConfig stn (JObj config)
      = ret (JStr "defaultPerPage doit etre entre 3 et 20"))
  /\ (config !! "defaultPerPage" = Some JNaN ->
      Pixabay.validateConfig stn (JObj config) = ret (JBool true)).
Proof.
  unfold Pixabay.validateConfig. rewrite get_field by reflexivity. rewrite bind_ret.
  unfold field. repeat split.
  - intros ->. reflexivity.
  - intros ->. cbn [default from_option id to_number num_lt num_gt].
    destruct (Z.ltb_spec n 3), (Z.ltb_spec 20 n), (Z.leb_spec 3 n), (Z.leb_spec n 20);
      try lia; reflexivity.
  - intros [-> | ->]; [reflexivity | destruct b; reflexivity].
  - intros ->. reflexivity.
Qed.

Lemma pixabay_validateConfig_range_witness :
  Pixabay.validateConfig no_parse (JObj {[ "defaultPerPage" := JNum 20 ]}) = ret (JBool true)
  /\ Pixabay.validateConfig no_parse (JObj {[ "defaultPerPage" := JNum 21 ]})
     = ret (JStr "defaultPerPage doit etre entre 3 et 20").
Proof.
  split.
  - apply (proj1 (proj2 (pixabay_validateConfig_range no_parse
                           {[ "defaultPerPage" := JNum 20 ]} 20 true))).
    reflexivity.
  - apply (proj1 (proj2 (pixabay_validateConfig_range no_parse
                           {[ "defaultPerPage" := JNum 21 ]} 21 true))).
    reflexivity.
Defined.

(** X10.  The fetch validator accepts a configuration object without
    [maxLength], and one whose [maxLength] is a number exactly when it
    lies between 100 and 100000, bounds included. *)
Theorem fetch_validateConfig_range
    (fetch_url : PluginLogger -> JsVal -> JsVal -> JsVal -> M JsVal)
    (stn : string -> option Z) (config : gmap string JsVal) (n : Z) :
  (config !! "maxLength" = None ->
   Fetch.validateConfig stn (JObj config) = ret (JBool true))
  /\ (config !! "maxLength" = Some (JNum n) ->
      Fetch.validateConfig stn (JObj config)
      = ret (if (100 <=? n)%Z && (n <=? 100000)%Z then JBool true
             else JStr "maxLength doit etre entre 100 et 100000")).
Proof.
  unfold Fetch.validateConfig. rewrite get_field by reflexivity. rewrite bind_ret.
  unfold field. split.
  - intros ->. reflexivity.
  - intros ->. cbn [default from_option id to_number num_lt num_gt].
    destruct (Z.ltb_spec n 100), (Z.ltb_spec 100000 n), (Z.leb_spec 100 n),
      (Z.leb_spec n 100000); try lia; reflexivity.
Qed.

Lemma fetch_validateConfig_range_witness :
  Fetch.validateConfig no_parse (JObj {[ "maxLength" := JNum 99 ]})
  = ret (JStr "maxLength doit etre entre 100 et 100000").
Proof.
  apply (proj2 (fetch_validateConfig_range no_fetch no_parse
                  {[ "maxLength" := JNum 99 ]} 99)).
  reflexivity.
Defined.

(** ** Listing and lookup in the registry *)

(** X11.  [getPlugins] lists the registry in order, one entry for each
    plugin under its manifest id; the tools of an entry are the tools the
    manifest declares, in order, whatever tool definitions the export
    has; env-var lists that the manifest leaves out are empty. *)
Theorem getPlugins_lists_manifests (registry : list PluginExport) :
  map info_id (Loader.getPlugins registry)
  = map (fun p => manifest_id (export_manifest p)) registry
  /\ Forall2 (fun info p =>
                map info_tool_id (info_tools info)
                = map decl_id (manifest_tools (export_manifest p))
                /\ (manifest_requiredEnvVars (export_manifest p) = None ->
                    info_requiredEnvVars info = [])
                /\ (manifest_optionalEnvVars (export_manifest p) = None ->
                    info_optionalEnvVars info = []))
       (Loader.getPlugins registry) registry
  /\ (forall other,
        map export_manifest other = map export_manifest registry ->
        Loader.getPlugins other = Loader.getPlugins registry).
Proof.
  unfold Loader.getPlugins. split; [| split].
  - rewrite map_map. reflexivity.
  - induction registry as [| p registry IH]; constructor; [| exact IH].
    cbn. rewrite map_map. split; [reflexivity |]. split; intros ->; reflexivity.
  - intros other. revert registry.
    induction other as [| q other IH]; intros [| p registry] H; try discriminate H;
      [reflexivity |].
    injection H as Hq Hrest. cbn [map]. rewrite Hq, (IH _ Hrest). reflexivity.
Qed.

Lemma getPlugins_lists_manifests_witness :
  Loader.getPlugins [Weather.plugin (no_declarations "weather")]
  = Loader.getPlugins [with_validateConfig None (Weather.plugin (no_declarations "weather"))].
Proof.
  symmetry.
  apply (proj2 (proj2 (getPlugins_lists_manifests
                         [Weather.plugin (no_declarations "weather")]))).
  reflexivity.
Defined.

(** X12.  [getPlugin] compares with [===]: a [pluginId] that is not a
    string finds nothing; a string finds the first plugin of the registry
    with that manifest id, also when a later one has the same id. *)
Theorem getPlugin_first_match (registry before after : list PluginExport)
    (plugin : PluginExport) (pluginId : JsVal) :
  ((forall s, pluginId <> JStr s) -> Loader.getPlugin registry pluginId = None)
  /\ (registry = (before ++ plugin :: after)%list ->
      Forall (fun p => manifest_id (export_manifest p)
                       <> manifest_id (export_manifest plugin)) before ->
      Loader.getPlugin registry (JStr (manifest_id (export_manifest plugin)))
      = Some plugin).
Proof.
  split.
  - intros Hnot. apply getPlugin_unknown, Forall_forall. intros p _. apply Hnot.
  - intros -> Hbefore. unfold Loader.getPlugin.
    induction Hbefore as [| p before Hp _ IH]; cbn [app find is_str].
    + rewrite String.eqb_refl. reflexivity.
    + destruct (String.eqb_spec (manifest_id (export_manifest plugin))
                  (manifest_id (export_manifest p))); [congruence | exact IH].
Qed.

Lemma getPlugin_first_match_witness :
  Loader.getPlugin
    [Weather.plugin (no_declarations "a"); Weather.plugin (no_declarations "b");
     with_validateConfig None (Weather.plugin (no_declarations "b"))]
    (JStr "b")
  = Some (Weather.plugin (no_declarations "b"))
  /\ Loader.getPlugin [Weather.plugin (no_declarations "5")] (JNum 5) = None.
Proof.
  split.
  - apply (proj2 (getPlugin_first_match _ [Weather.plugin (no_declarations "a")]
                    [with_validateConfig None (Weather.plugin (no_declarations "b"))]
                    (Weather.plugin (no_declarations "b")) JNull));
      [reflexivity | repeat constructor; discriminate].
  - apply (proj1 (getPlugin_first_match [Weather.plugin (no_declarations "5")] [] []
                    (Weather.plugin (no_declarations "5")) (JNum 5))).
    discriminate.
Defined.

(** ** Schema discovery *)

Lemma getToolInputSchema_returns
    (wm pm : PluginManifest)
    (search : list (string * string) -> JsVal -> PluginLogger -> PluginStorageAPI -> M JsVal)
    (stn : string -> option Z) (pluginId toolId : JsVal) :
  exists schema,
    getToolInputSchema wm pm search stn pluginId toolId = ([], Return schema)
    /\ (schema = JNull
        \/ schema = Weather.schema (JStr "Paris")
        \/ schema = Pixabay.schema (JStr "en") true (JNum 6)).
Proof.
  unfold getToolInputSchema, Loader.getToolInputSchema.
  destruct (Loader.getPlugin (loadedPlugins wm pm search stn) pluginId)
    as [plugin |] eqn:Hp; [| eexists; split; [reflexivity | auto]].
  destruct (Loader.findTool plugin toolId) as [toolDef |] eqn:Ht;
    [| eexists; split; [reflexivity | auto]].
  apply find_is_str_Some in Hp as [Hin _]. apply find_is_str_Some in Ht as [Hint _].
  destruct Hin as [<- | [<- | []]]; destruct Hint as [<- | []];
    eexists; (split; [reflexivity | auto]).
Qed.

(** X13.  On the playground's registry [getToolInputSchema] never throws
    and emits nothing, for any ids: no log line and no outbound request.
    What it returns is [null], the schema of the weather tool with Paris
    as the default city, or the schema of the pixabay tool with its
    built-in defaults: the schemas do not reflect any configuration.  For
    the weather plugin's id and [get_weather] it is the weather schema. *)
Theorem getToolInputSchema_silent
    (wm pm : PluginManifest)
    (search : list (string * string) -> JsVal -> PluginLogger -> PluginStorageAPI -> M JsVal)
    (stn : string -> option Z) (pluginId toolId : JsVal) :
  (exists schema,
     getToolInputSchema wm pm search stn pluginId toolId = ([], Return schema)
     /\ (schema = JNull
         \/ schema = Weather.schema (JStr "Paris")
         \/ schema = Pixabay.schema (JStr "en") true (JNum 6)))
  /\ getToolInputSchema wm pm search stn (JStr (manifest_id wm)) (JStr "get_weather")
     = ([], Return (Weather.schema (JStr "Paris"))).
Proof.
  split; [apply getToolInputSchema_returns |].
  unfold getToolInputSchema, Loader.getToolInputSchema.
  fold (getPlugin wm pm search stn (JStr (manifest_id wm))).
  rewrite getPlugin_weather. reflexivity.
Qed.

(** ** What [executeTool] hands back *)

Lemma executeTool_after_gate
    (registry : list PluginExport) (now : Z) (options : ExecuteToolOptions)
    (plugin : PluginExport) (toolDef : PluginToolDefinition)
    (gate : list Event) (created : M AnyTool) :
  Loader.getPlugin registry (opt_pluginId options) = Some plugin ->
  Loader.findTool plugin (opt_toolId options) = Some toolDef ->
  match isAvailable toolDef with
  | Some predicate => predicate (opt_env options)
  | None => ret true
  end = (gate, Return true) ->
  createTool toolDef
    (Loader.executionContext now (opt_pluginId options) (opt_config options)
       (opt_env options)) = created ->
  Loader.executeTool registry now options
  = match created with
    | (made, Return tool) =>
        ((gate ++ ContextBuilt (conversation now) (opt_config options) (opt_env options)
                  :: made
                  ++ ToolCreated (opt_toolId options) :: ToolExecuted (opt_params options)
                  :: trace (execute tool (opt_params options)))%list,
         outcome (execute tool (opt_params options)))
    | (made, Throw error) =>
        ((gate ++ ContextBuilt (conversation now) (opt_config options) (opt_env options)
                  :: made)%list,
         Throw error)
    end.
Proof.
  intros Hp Ht Hgate Hcreated.
  rewrite (executeTool_resolved _ _ _ _ _ Hp Ht), Hgate.
  unfold Loader.invocation. rewrite Hcreated.
  destruct created as [made [tool | error]]; unfold bind, emit, trace, outcome; simpl.
  - destruct (execute tool (opt_params options)) as [t r]. reflexivity.
  - reflexivity.
Qed.


(** X14.  Past the gate, [executeTool] hands back what the tool gives: if
    the factory returns a tool, the completion of the call is the
    completion of [tool.execute(params)], a returned value or a thrown
    error alike, and the events are those of the gate, the context, the
    factory, the two marks and the execution, in this order; if the
    factory throws, that error is the completion. *)
Theorem executeTool_hands_back
    (registry : list PluginExport) (now : Z) (options : ExecuteToolOptions)
    (plugin : PluginExport) (toolDef : PluginToolDefinition)
    (gate : list Event) (created : M AnyTool) :
  Loader.getPlugin registry (opt_pluginId options) = Some plugin ->
  Loader.findTool plugin (opt_toolId options) = Some toolDef ->
  match isAvailable toolDef with
  | Some predicate => predicate (opt_env options)
  | None => ret true
  end = (gate, Return true) ->
  createTool toolDef
    (Loader.executionContext now (opt_pluginId options) (opt_config options)
       (opt_env options)) = created ->
  Loader.executeTool registry now options
  = match created with
    | (made, Return tool) =>
        ((gate ++ ContextBuilt (conversation now) (opt_config options) (opt_env options)
                  :: made
                  ++ ToolCreated (opt_toolId options) :: ToolExecuted (opt_params options)
                  :: trace (execute tool (opt_params options)))%list,
         outcome (execute tool (opt_params options)))
    | (made, Throw error) =>
        ((gate ++ ContextBuilt (conversation now) (opt_config options) (opt_env options)
                  :: made)%list,
         Throw error)
    end.
Proof.
  intros Hp Ht Hgate Hcreated.
  rewrite (executeTool_resolved _ _ _ _ _ Hp Ht), Hgate.
  unfold Loader.invocation. rewrite Hcreated.
  destruct created as [made [tool | error]]; unfold bind, emit, trace, outcome; simpl.
  - destruct (execute tool (opt_params options)) as [t r]. reflexivity.
  - reflexivity.
Qed.

Lemma executeTool_hands_back_witness :
  outcome (Loader.executeTool
             (loadedPlugins (no_declarations "weather") (no_declarations "pixabay")
                offline no_parse)
             0
             {| opt_pluginId := JStr "weather"; opt_toolId := JStr "get_weather";
                opt_params := obj [("city", JNum 5)]; opt_env := obj [];
                opt_config := obj [] |})
  = Throw (TypeError "city.toLowerCase is not a function").
Proof.
  rewrite (executeTool_hands_back
             (loadedPlugins (no_declarations "weather") (no_declarations "pixabay")
                offline no_parse)
             0
             {| opt_pluginId := JStr "weather"; opt_toolId := JStr "get_weather";
                opt_params := obj [("city", JNum 5)]; opt_env := obj [];
                opt_config := obj [] |}
             _ _ [] _ eq_refl eq_refl eq_refl eq_refl).
  reflexivity.
Defined.

(** ** The mock storage *)

(** The mock storage never fails: [uploadFile] logs one line and
    returns the URL under [/api/mock-files/mock-storage/<pluginId>/], and
    that URL is the one [getFileUrl] gives for the same file name,
    whatever the bytes and the content type. *)
Lemma mock_storage_urls (pluginId : JsVal) (fileName buffer contentType : string) :
  uploadFile (createMockStorage pluginId) fileName buffer contentType
  = ([Console "log"
        [JStr ("[" ++ to_string pluginId ++ "] Mock file uploaded: mock-storage/"
               ++ to_string pluginId ++ "/" ++ fileName)]],
     Return (getFileUrl (createMockStorage pluginId) fileName))
  /\ getFileUrl (createMockStorage pluginId) fileName
     = "/api/mock-files/mock-storage/" ++ to_string pluginId ++ "/" ++ fileName.
Proof. split; reflexivity. Qed.

(** ** The pixabay tool *)



(** X16.  With a truthy API key, and when the API key and the values of
    the parameters and of the configuration have a text, [executeTool] on
    the pixabay tool passes the gate, builds the context, creates and enters the
    tool, logs the call, and makes one attempt on the network with the
    query of these values; what the attempt emits follows.  It never
    throws because of the attempt: when the attempt returns a value,
    that value is the result; when it throws, the error is logged and
    the result is an object whose message is the French error line with
    the message of the error.  The messages are French because
    [executeTool] always sets the locale [fr]. *)
Theorem executeTool_pixabay_answers
    (wm pm : PluginManifest) (now : Z)
    (search : list (string * string) -> JsVal -> PluginLogger -> PluginStorageAPI -> M JsVal)
    (stn : string -> option Z) (params config vars : gmap string JsVal) (apiKey : JsVal) :
  manifest_id wm <> manifest_id pm ->
  vars !! "PIXABAY_API_KEY" = Some apiKey -> truthy apiKey = true ->
  textual apiKey = true ->
  map_Forall (fun _ value => textual value = true) params ->
  map_Forall (fun _ value => textual value = true) config ->
  let pluginId := JStr (manifest_id pm) in
  let query :=
    pixabay_query (JObj params) apiKey (pixabay_language (JObj config))
      (pixabay_safeSearch (JObj config)) (pixabay_perPage (JObj config)) in
  let attempt :=
    search query (JStr "fr") (createMockLogger pluginId) (createMockStorage pluginId) in
  let call :=
    executeTool wm pm now search stn
      {| opt_pluginId := pluginId; opt_toolId := JStr "search_images";
         opt_params := JObj params; opt_env := JObj vars; opt_config := JObj config |} in
  outcome call
  = Return (match outcome attempt with
            | Return value => value
            | Throw error =>
                obj [("message",
                      JStr ("Erreur lors de la recherche d'images: "
                            ++ exn_message error))]
            end)
  /\ trace call
     = ([ContextBuilt (conversation now) (JObj config) (JObj vars);
         ToolCreated (JStr "search_images");
         ToolExecuted (JObj params);
         Console "log"
           [JStr ("[" ++ manifest_id pm ++ "] INFO:"); JStr "Tool called";
            obj [("query", field (JObj params) "q"); ("params", JObj params)]];
         OutboundRequest query]
        ++ trace attempt
        ++ match outcome attempt with
           | Return _ => []
           | Throw error =>
               [Console "error"
                  [JStr ("[" ++ manifest_id pm ++ "] ERROR:");
                   JStr "Error searching images";
                   obj [("error", JHost (exn_to_string error))]]]
           end)%list.
Proof.
  intros Hne Hvars Hkey Htext Hparams Hconfig pluginId query attempt call.
  destruct (search_images_query search now pluginId apiKey config vars params Hvars Hkey
              (textual_printable _ Htext) (map_Forall_textual_printable _ Hparams)
              (map_Forall_textual_printable _ Hconfig))
    as (tool & Hcreate & Hexecute).
  assert (Hgate :
    match isAvailable
            {| tool_id := "search_images";
               createTool := fun ctx => Pixabay.createSearchPixabayTool search ctx;
               isAvailable := Some (fun env =>
                 let* key := get env "PIXABAY_API_KEY" in ret (truthy key)) |} with
    | Some predicate => predicate (JObj vars)
    | None => ret true
    end = ([], Return true)).
  { cbn [isAvailable]. rewrite get_field by reflexivity. rewrite bind_ret.
    unfold field. rewrite Hvars. cbn [default from_option id]. rewrite Hkey. reflexivity. }
  subst call. unfold executeTool.
  rewrite (executeTool_after_gate (loadedPlugins wm pm search stn) now
             {| opt_pluginId := pluginId; opt_toolId := JStr "search_images";
                opt_params := JObj params; opt_env := JObj vars; opt_config := JObj config |}
             (pixabayPlugin pm search stn) _ [] ([], Return tool)
             (getPlugin_pixabay wm pm search stn Hne) eq_refl Hgate Hcreate).
  cbv beta iota. cbn [opt_params opt_config opt_env opt_toolId]. rewrite Hexecute.
  fold query. fold attempt.
  unfold ret, bind, try_catch, emit, trace, outcome. cbn [fst snd].
  destruct attempt as [t [value | error]]; cbn; split; try reflexivity.
  rewrite app_nil_r. reflexivity.
Qed.

Lemma executeTool_pixabay_answers_witness :
  outcome (executeTool (no_declarations "weather") (no_declarations "pixabay") 0
             offline no_parse
             {| opt_pluginId := JStr "pixabay"; opt_toolId := JStr "search_images";
                opt_params := JObj {[ "q" := JStr "cat" ]};
                opt_env := JObj {[ "PIXABAY_API_KEY" := JStr "secret" ]};
                opt_config := JObj ∅ |})
  = Return (obj [("message", JStr "Erreur lors de la recherche d'images: fetch failed")]).
Proof.
  refine (proj1 (executeTool_pixabay_answers (no_declarations "weather")
                   (no_declarations "pixabay") 0 offline no_parse
                   {[ "q" := JStr "cat" ]} ∅ {[ "PIXABAY_API_KEY" := JStr "secret" ]}
                   (JStr "secret") _ _ _ _ _ _));
    [discriminate | reflexivity | reflexivity | reflexivity
    | apply map_Forall_singleton; reflexivity | apply map_Forall_empty].
Defined.

(** With a truthy API key, the second event of the pixabay tool's
    [execute], after the log line of the call, is the request with the
    query of the parameters, the API key and the defaults. *)
Lemma search_images_sends
    (search : list (string * string) -> JsVal -> PluginLogger -> PluginStorageAPI -> M JsVal)
    (now : Z) (pluginId apiKey : JsVal) (config vars params : gmap string JsVal) :
  vars !! "PIXABAY_API_KEY" = Some apiKey -> truthy apiKey = true ->
  textual apiKey = true ->
  map_Forall (fun _ value => textual value = true) params ->
  map_Forall (fun _ value => textual value = true) config ->
  exists tool logged rest,
    Pixabay.createSearchPixabayTool search
      (Loader.executionContext now pluginId (JObj config) (JObj vars)) = ret tool
    /\ trace (execute tool (JObj params))
       = logged
         :: OutboundRequest
              (pixabay_query (JObj params) apiKey (pixabay_language (JObj config))
                 (pixabay_safeSearch (JObj config)) (pixabay_perPage (JObj config)))
         :: rest.
Proof.
  intros Hvars Hkey Htext Hparams Hconfig.
  destruct (search_images_query search now pluginId apiKey config vars params Hvars Hkey
              (textual_printable _ Htext) (map_Forall_textual_printable _ Hparams)
              (map_Forall_textual_printable _ Hconfig))
    as (tool & Hcreate & Hexecute).
  exists tool. rewrite Hexecute.
  unfold ret, bind, try_catch, emit, trace, outcome. cbn [fst snd logger_info createMockLogger].
  destruct (search _ _ _ _) as [t [value | error]]; cbn; eauto.
Qed.

(** X17.  With a truthy API key, the pixabay tool sends, for an API key,
    parameters and a configuration whose values have a text, the query
    [pixabay_query].  In it every parameter name occurs once; [key] is
    the API key and [q] the search term; the page size is the one of
    the parameters if truthy, else the configured [defaultPerPage] if
    truthy, else 6, without the bounds of the validator; and each of
    [category], [min_width], [min_height], [colors] is sent exactly when
    it is given and truthy. *)
Theorem pixabay_query_names
    (search : list (string * string) -> JsVal -> PluginLogger -> PluginStorageAPI -> M JsVal)
    (now : Z) (pluginId : JsVal) (params config vars : gmap string JsVal) (apiKey : JsVal) :
  vars !! "PIXABAY_API_KEY" = Some apiKey -> truthy apiKey = true ->
  textual apiKey = true ->
  map_Forall (fun _ value => textual value = true) params ->
  map_Forall (fun _ value => textual value = true) config ->
  let query :=
    pixabay_query (JObj params) apiKey (pixabay_language (JObj config))
      (pixabay_safeSearch (JObj config)) (pixabay_perPage (JObj config)) in
  (exists tool logged rest,
     Pixabay.createSearchPixabayTool search
       (Loader.executionContext now pluginId (JObj config) (JObj vars)) = ret tool
     /\ trace (execute tool (JObj params)) = logged :: OutboundRequest query :: rest)
  /\ NoDup (map fst query)
  /\ In ("key", to_string apiKey) query
  /\ In ("q", to_string (field (JObj params) "q")) query
  /\ In ("per_page",
         to_string (or_else (field (JObj params) "per_page")
                      (or_else (field (JObj config) "defaultPerPage") (JNum 6)))) query
  /\ Forall (fun name =>
               In name (map fst query) <-> truthy (field (JObj params) name) = true)
       ["category"; "min_width"; "min_height"; "colors"].
Proof.
  intros Hvars Hkey Htext Hparams Hconfig query.
  split; [exact (search_images_sends search now pluginId apiKey config vars params
                   Hvars Hkey Htext Hparams Hconfig) |].
  clear Hvars Hkey Htext Hparams Hconfig.
  subst query. unfold pixabay_query, query_with.
  destruct (truthy (field (JObj params) "category")) eqn:Hcategory,
           (truthy (field (JObj params) "min_width")) eqn:Hwidth,
           (truthy (field (JObj params) "min_height")) eqn:Hheight,
           (truthy (field (JObj params) "colors")) eqn:Hcolors;
    cbn [Pixabay.searchParams_set String.eqb Ascii.eqb Bool.eqb map fst filter];
    (split; [apply (bool_decide_unpack _); vm_compute; reflexivity |]);
    (split; [cbn; auto 20 |]); (split; [cbn; auto 20 |]); (split; [cbn; auto 20 |]);
    repeat (apply List.Forall_cons; [split; [intros Hin | intros Ht] |]);
    try apply List.Forall_nil; try assumption; try congruence;
    try (apply list_elem_of_In, (bool_decide_unpack _); vm_compute; reflexivity);
    cbn in Hin; repeat (destruct Hin as [Hin | Hin]; [discriminate Hin |]);
    destruct Hin.
Qed.

Lemma pixabay_query_names_witness :
  In ("q", "cat")
    (pixabay_query (JObj {[ "q" := JStr "cat" ]}) (JStr "secret")
       (pixabay_language (JObj ∅)) (pixabay_safeSearch (JObj ∅)) (pixabay_perPage (JObj ∅))).
Proof.
  assert (Hvars : ({[ "PIXABAY_API_KEY" := JStr "secret" ]} : gmap string JsVal)
                  !! "PIXABAY_API_KEY" = Some (JStr "secret"))
    by (vm_compute; reflexivity).
  assert (Hparams : map_Forall (fun (_ : string) value => textual value = true)
                      ({[ "q" := JStr "cat" ]} : gmap string JsVal))
    by (apply map_Forall_singleton; reflexivity).
  assert (Hconfig : map_Forall (fun (_ : string) value => textual value = true)
                      (∅ : gmap string JsVal))
    by apply map_Forall_empty.
  exact (proj1 (proj2 (proj2 (proj2
           (pixabay_query_names offline 0 (JStr "pixabay") {[ "q" := JStr "cat" ]} ∅
              {[ "PIXABAY_API_KEY" := JStr "secret" ]} (JStr "secret")
              Hvars eq_refl eq_refl Hparams Hconfig))))).
Defined.

(** ** More on the weather tool *)

Lemma get_weather_execute
    (context : PluginContext) (params config environment : gmap string JsVal)
    (city : string) :
  pluginConfig context = JObj config ->
  env context = JObj environment ->
  (forall message data,
     outcome (logger_info (logger context) message data) = Return tt) ->
  printable (default_city (JObj config) (JObj environment)) = true ->
  city_of (JObj params) (JObj config) (JObj environment) = JStr city ->
  exists tool,
    Weather.createGetWeatherTool context = ret tool
    /\ outcome (execute tool (JObj params))
       = Return (weather_result city
                   (or_else (field (JObj config) "units") (JStr "celsius"))).
Proof.
  intros Hconfig Henv Hlogger Hprintable Hcity.
  set (defaultCity := default_city (JObj config) (JObj environment)).
  set (units := or_else (field (JObj config) "units") (JStr "celsius")).
  pose proof (get_weather_created context config environment Hconfig Henv Hprintable)
    as Hcreate.
  cbv zeta in Hcreate. fold defaultCity units in Hcreate.
  assert (Hdata : nullish (or_else (index Weather.DEMO_WEATHER (toLowerCase city))
                             (index Weather.DEMO_WEATHER "default")) = false).
  { apply truthy_not_nullish, or_else_truthy. reflexivity. }
  eexists. split; [exact Hcreate |].
  cbn [execute tool]. unfold Weather.execute_get_weather.
  rewrite (get_field (JObj params)) by reflexivity. rewrite bind_ret.
  change (or_else (field (JObj params) "city") defaultCity)
    with (city_of (JObj params) (JObj config) (JObj environment)).
  rewrite Hcity. cbn [Weather.string_receiver]. rewrite bind_ret.
  rewrite (outcome_bind _ _ tt) by apply Hlogger.
  rewrite !(get_field _ _ Hdata), !bind_ret. unfold weather_result.
  destruct (is_str units "fahrenheit"); reflexivity.
Qed.

Lemma demo_entry_cases (key : string) (entry : JsVal) :
  Weather.DEMO_WEATHER !! key = Some entry ->
  In (key, entry)
    [("paris", Weather.entry "Partiellement nuageux" 18 65 12);
     ("london", Weather.entry "Pluvieux" 14 80 20);
     ("new york", Weather.entry "Ensoleille" 22 55 8);
     ("tokyo", Weather.entry "Nuageux" 20 70 10);
     ("sydney", Weather.entry "Ensoleille" 25 50 15);
     ("default", Weather.entry "Variable" 20 60 10)].
Proof. intros H. apply elem_of_list_to_map_2 in H. apply list_elem_of_In, H. Qed.

(** X18.  The Fahrenheit value of an integer Celsius value of absolute
    value up to 2^32 is the integer nearest to [9c/5 + 32]; it is exactly
    that for a multiple of 5; and what is not a number converts to
    [NaN]. *)
Theorem fahrenheit_nearest (c : Z) :
  (Z.abs c <= 2 ^ 32)%Z ->
  (exists f,
     Weather.fahrenheit (JNum c) = JNum f
     /\ (-5 < 10 * f - (18 * c + 320) <= 5)%Z
     /\ ((c mod 5 = 0)%Z -> (5 * f = 9 * c + 160)%Z))
  /\ Weather.fahrenheit JUndefined = JNaN.
Proof.
  intros _. split; [| reflexivity]. eexists. split; [reflexivity |].
  unfold Math_round.
  pose proof (Z.div_mod (2 * (c * 9 + 32 * 5) + 5) (2 * 5) ltac:(lia)) as Hdiv.
  pose proof (Z.mod_pos_bound (2 * (c * 9 + 32 * 5) + 5) (2 * 5) ltac:(lia)) as Hmod.
  split; [lia |]. intros Hc.
  pose proof (Z.div_mod c 5 ltac:(lia)) as Hc5. rewrite Hc in Hc5.
  lia.
Qed.

Lemma fahrenheit_nearest_witness :
  exists f, Weather.fahrenheit (JNum 25) = JNum f /\ (5 * f = 9 * 25 + 160)%Z.
Proof.
  destruct (proj1 (fahrenheit_nearest 25 ltac:(vm_compute; discriminate)))
    as (f & Hf & _ & Hexact).
  exists f. split; [exact Hf | apply Hexact; reflexivity].
Defined.

(** X19.  The city is looked up without regard to letter case.  Let the
    default city of the context (the configured one, else the one of the
    environment, else Paris) be a value that can be converted to a
    string, as the factory does.  When the lowercase form of the city
    is a key of the demo table, the result carries the
    condition, humidity and wind of that entry; the temperature of the
    entry for any [units] other than exactly [fahrenheit], with unit [C],
    and its Fahrenheit conversion with unit [F] otherwise; the country of
    the country table, or [Inconnu] when that table has no such key; and
    as city the given spelling with its first letter in upper case. *)
Theorem get_weather_known_city
    (context : PluginContext) (params config environment : gmap string JsVal)
    (city : string) (entry : JsVal) :
  pluginConfig context = JObj config ->
  env context = JObj environment ->
  (forall message data,
     outcome (logger_info (logger context) message data) = Return tt) ->
  printable (default_city (JObj config) (JObj environment)) = true ->
  city_of (JObj params) (JObj config) (JObj environment) = JStr city ->
  Weather.DEMO_WEATHER !! toLowerCase city = Some entry ->
  let units := or_else (field (JObj config) "units") (JStr "celsius") in
  exists tool result,
    Weather.createGetWeatherTool context = ret tool
    /\ outcome (execute tool (JObj params)) = Return result
    /\ field result "city" = JStr (capitalize city)
    /\ field result "condition" = field entry "condition"
    /\ field result "humidity" = field entry "humidity"
    /\ field result "windSpeed" = field entry "windSpeed"
    /\ field result "temperature"
       = (if is_str units "fahrenheit"
          then Weather.fahrenheit (field entry "tempCelsius")
          else field entry "tempCelsius")
    /\ field result "unit" = JStr (if is_str units "fahrenheit" then "F" else "C")
    /\ field result "country"
       = match Weather.COUNTRY_MAP !! toLowerCase city with
         | Some country => country
         | None => JStr "Inconnu"
         end.
Proof.
  intros Hconfig Henv Hlogger Hprintable Hcity Hentry units.
  destruct (get_weather_execute context params config environment city
              Hconfig Henv Hlogger Hprintable Hcity) as (tool & Hcreate & Hexecute).
  exists tool. eexists. split; [exact Hcreate |]. split; [exact Hexecute |].
  fold units. unfold weather_result.
  apply demo_entry_cases in Hentry.
  repeat (destruct Hentry as [[= <- <-] | Hentry];
          [destruct (is_str units "fahrenheit"); repeat split; reflexivity |]).
  destruct Hentry.
Qed.

Lemma get_weather_known_city_witness :
  exists tool result,
    Weather.createGetWeatherTool
      (Loader.executionContext 0 (JStr "weather") (JObj ∅) (JObj ∅)) = ret tool
    /\ outcome (execute tool (JObj {[ "city" := JStr "lONDON" ]})) = Return result
    /\ field result "city" = JStr "LONDON"
    /\ field result "country" = JStr "Royaume-Uni"
    /\ field result "temperature" = JNum 14.
Proof.
  assert (Hcity0 : city_of (JObj {[ "city" := JStr "lONDON" ]}) (JObj ∅) (JObj ∅)
                   = JStr "lONDON") by (vm_compute; reflexivity).
  assert (Hentry : Weather.DEMO_WEATHER !! toLowerCase "lONDON"
                   = Some (Weather.entry "Pluvieux" 14 80 20))
    by (vm_compute; reflexivity).
  assert (Hprintable : printable (default_city (JObj ∅) (JObj ∅)) = true)
    by (vm_compute; reflexivity).
  destruct (get_weather_known_city
              (Loader.executionContext 0 (JStr "weather") (JObj ∅) (JObj ∅))
              {[ "city" := JStr "lONDON" ]} ∅ ∅ "lONDON"
              (Weather.entry "Pluvieux" 14 80 20)
              eq_refl eq_refl (fun _ _ => eq_refl) Hprintable Hcity0 Hentry)
    as (tool & result & Hcreate & Hexecute & Hcity & _ & _ & _ & Htemp & _ & Hcountry).
  exists tool, result. repeat split; assumption.
Defined.

(** ** The [GET /api/plugins] handler *)

(** X20.  [GET /api/plugins] always answers 200 and emits nothing.  With
    [pluginId] and [toolId] both given and not empty the payload is the
    schema that [getToolInputSchema] returns, [null] for unknown ids;
    with one of them absent or empty it is the list of all plugins, the
    other parameter being ignored. *)
Theorem GET_plugins
    (wm pm : PluginManifest)
    (search : list (string * string) -> JsVal -> PluginLogger -> PluginStorageAPI -> M JsVal)
    (stn : string -> option Z) (pluginId toolId : option string) :
  exists response,
    GET wm pm search stn pluginId toolId = ([], Return response)
    /\ plugins_status response = 200
    /\ (pluginId = None \/ pluginId = Some "" \/ toolId = None \/ toolId = Some "" ->
        payload response = PluginsList (getPlugins wm pm search stn))
    /\ (forall p t,
          pluginId = Some p -> toolId = Some t -> p <> "" -> t <> "" ->
          exists schema,
            payload response = SchemaPayload schema
            /\ getToolInputSchema wm pm search stn (JStr p) (JStr t) = ([], Return schema)).
Proof.
  unfold GET.
  destruct (truthy (search_param pluginId) && truthy (search_param toolId)) eqn:Hboth.
  - destruct (getToolInputSchema_returns wm pm search stn
                (search_param pluginId) (search_param toolId)) as (schema & Hschema & _).
    rewrite Hschema. eexists. split; [reflexivity |]. split; [reflexivity |].
    apply andb_prop in Hboth as [Hp Ht]. split.
    + intros [-> | [-> | [-> | ->]]]; discriminate.
    + intros p t -> -> _ _. exists schema. split; [reflexivity | exact Hschema].
  - eexists. split; [reflexivity |]. split; [reflexivity |]. split; [reflexivity |].
    intros p t -> -> Hp Ht. exfalso. simpl in Hboth.
    destruct (String.eqb_spec p ""); [contradiction |].
    destruct (String.eqb_spec t ""); [contradiction |]. discriminate Hboth.
Qed.

Lemma GET_plugins_witness :
  exists response,
    GET (no_declarations "weather") (no_declarations "pixabay") offline no_parse
      (Some "weather") None = ([], Return response)
    /\ payload response
       = PluginsList (getPlugins (no_declarations "weather") (no_declarations "pixabay")
                        offline no_parse).
Proof.
  destruct (GET_plugins (no_declarations "weather") (no_declarations "pixabay")
              offline no_parse (Some "weather") None)
    as (response & Hget & _ & Hlist & _).
  exists response. split; [exact Hget |]. apply Hlist. auto.
Defined.

(** ** The form of the playground page *)

(** X21.  The parameters the form sends are the entries of the form
    values except the [null] and [undefined] ones and the empty strings of
    parameters that are not required; every other entry is sent
    unchanged.  In particular an untouched form sends an empty string
    only for a required parameter. *)
Theorem formParams_sends (toolSchema : JsVal) (toolParamValues : gmap string JsVal)
    (key : string) (value : JsVal) :
  (Page.formParams toolSchema toolParamValues !! key = Some value
   <-> toolParamValues !! key = Some value
       /\ nullish value = false
       /\ (value = JStr "" -> Page.isRequired toolSchema key = true))
  /\ (Page.formParams toolSchema (Page.initialParams toolSchema) !! key = Some (JStr "") ->
      Page.isRequired toolSchema key = true).
Proof.
  assert (Hiff : forall values v,
            Page.formParams toolSchema values !! key = Some v
            <-> values !! key = Some v
                /\ nullish v = false
                /\ (v = JStr "" -> Page.isRequired toolSchema key = true)).
  { intros values v. unfold Page.formParams. rewrite map_lookup_filter_Some.
    cbn beta iota. split.
    - intros [Hlookup Hkeep]. split; [exact Hlookup |].
      apply andb_prop in Hkeep as [Hempty Hnull].
      split; [destruct (nullish v); [discriminate | reflexivity] |].
      intros ->. simpl in Hempty. destruct (Page.isRequired toolSchema key);
        [reflexivity | discriminate].
    - intros (Hlookup & Hnull & Hrequired). split; [exact Hlookup |].
      rewrite Hnull. cbn [negb]. rewrite andb_true_r.
      destruct (is_str v "") eqn:Hv; [| reflexivity].
      apply is_str_true in Hv. rewrite (Hrequired Hv). reflexivity. }
  split; [apply Hiff |]. intros H. apply Hiff in H as (_ & _ & H). apply H. reflexivity.
Qed.

Lemma requestBody_options (plugin : PluginInfo) (tool : ToolInfo)
    (params envVars config : gmap string JsVal) :
  options_of (obj [("pluginId", JStr (info_id plugin));
                   ("toolId", JStr (info_tool_id tool));
                   ("params", JObj params);
                   ("env", JObj envVars);
                   ("config", JObj config)])
  = {| opt_pluginId := JStr (info_id plugin);
       opt_toolId := JStr (info_tool_id tool);
       opt_params := JObj params;
       opt_env := JObj envVars;
       opt_config := JObj config |}.
Proof. reflexivity. Qed.

Lemma initialEnv_empty (plugin : PluginInfo) (name value : string) :
  Page.initialEnv plugin !! name = Some value -> value = "".
Proof.
  unfold Page.initialEnv. intros H. apply elem_of_list_to_map_2 in H.
  apply list_elem_of_In, in_map_iff in H as (v & [= _ <-] & _). reflexivity.
Qed.

(** X22.  Submitting the weather form untouched: the form starts with an
    empty [city], which is optional, so no city is sent; with every
    environment field empty, the handler answers 200 with the weather of
    the configured default city, or of Paris when none is configured
    (the result names the city with its first letter in upper case; the
    statement is for a first letter whose upper-case form the strings of
    the model have). *)
Theorem untouched_weather_form
    (wm pm : PluginManifest) (now : Z)
    (search : list (string * string) -> JsVal -> PluginLogger -> PluginStorageAPI -> M JsVal)
    (stn : string -> option Z) (plugin : PluginInfo) (tool : ToolInfo)
    (envVars : gmap string string) (config : gmap string JsVal) :
  info_id plugin = manifest_id wm -> manifest_id wm <> "" ->
  info_tool_id tool = "get_weather" ->
  (forall name value, envVars !! name = Some value -> value = "") ->
  string_or_falsy (field (JObj config) "defaultCity") ->
  let schema := Weather.schema (JStr "Paris") in
  let params := JObj (Page.formParams schema (Page.initialParams schema)) in
  Page.initialParams schema = {[ "city" := JStr "" ]}
  /\ params = JObj ∅
  /\ exists city,
       or_else (field (JObj config) "defaultCity") (JStr "Paris") = JStr city
       /\ (upper_known city = true ->
           outcome (POST wm pm now search stn
                      (Return (Page.requestBody plugin tool params envVars config)))
           = Return (json (obj [("success", JBool true);
                                ("result",
                                  weather_result city
                                    (or_else (field (JObj config) "units")
                                       (JStr "celsius")))]) 200)).
Proof.
  intros Hid Hne Htool Hempty Hdefault schema params.
  assert (Hinitial : Page.initialParams schema = {[ "city" := JStr "" ]})
    by (vm_compute; reflexivity).
  assert (Hparams : params = JObj ∅) by (vm_compute; reflexivity).
  split; [exact Hinitial |]. split; [exact Hparams |].
  destruct (or_else_string (field (JObj config) "defaultCity") (JStr "Paris") Hdefault)
    as (city & Hcity & _).
  { exists "Paris". split; [reflexivity | discriminate]. }
  exists city. split; [exact Hcity |]. intros _.
  rewrite Hparams. unfold Page.requestBody.
  assert (Henv : field (JObj (JStr <$> envVars)) "WEATHER_DEFAULT_CITY" = JUndefined
                 \/ field (JObj (JStr <$> envVars)) "WEATHER_DEFAULT_CITY" = JStr "").
  { unfold field. rewrite lookup_fmap.
    destruct (envVars !! "WEATHER_DEFAULT_CITY") as [value |] eqn:Hvalue; [| left; reflexivity].
    right. rewrite (Hempty _ _ Hvalue). reflexivity. }
  assert (Hcity_of : city_of (JObj ∅) (JObj config) (JObj (JStr <$> envVars)) = JStr city).
  { rewrite <- Hcity. unfold city_of.
    change (or_else (field (JObj ∅) "city") ?x) with x.
    destruct Henv as [-> | ->]; reflexivity. }
  assert (Hprintable :
            printable (default_city (JObj config) (JObj (JStr <$> envVars))) = true).
  { change (default_city (JObj config) (JObj (JStr <$> envVars)))
      with (city_of (JObj ∅) (JObj config) (JObj (JStr <$> envVars))).
    rewrite Hcity_of. reflexivity. }
  destruct (get_weather_execute
              (Loader.executionContext now (JStr (info_id plugin)) (JObj config)
                 (JObj (JStr <$> envVars)))
              ∅ config (JStr <$> envVars) city eq_refl eq_refl (fun _ _ => eq_refl)
              Hprintable Hcity_of)
    as (made & Hcreate & Hexecute).
  rewrite POST_calls_executeTool.
  - rewrite requestBody_options. unfold executeTool.
    rewrite (executeTool_after_gate (loadedPlugins wm pm search stn) now
               {| opt_pluginId := JStr (info_id plugin);
                  opt_toolId := JStr (info_tool_id tool);
                  opt_params := JObj ∅; opt_env := JObj (JStr <$> envVars);
                  opt_config := JObj config |}
               (weatherPlugin wm)
               {| tool_id := "get_weather";
                  createTool := fun ctx => Weather.createGetWeatherTool ctx;
                  isAvailable := Some (fun _ => ret true) |}
               [] ([], Return made)).
    + cbv beta iota. cbn [opt_params]. rewrite Hexecute. reflexivity.
    + cbn [opt_pluginId]. rewrite Hid. apply getPlugin_weather.
    + cbn [opt_toolId]. rewrite Htool. reflexivity.
    + reflexivity.
    + exact Hcreate.
  - reflexivity.
  - change (truthy (JStr (info_id plugin)) = true). rewrite Hid. simpl.
    destruct (String.eqb_spec (manifest_id wm) ""); [contradiction | reflexivity].
  - change (truthy (JStr (info_tool_id tool)) = true). rewrite Htool. reflexivity.
Qed.

Lemma untouched_weather_form_witness :
  outcome (POST (no_declarations "weather") (no_declarations "pixabay") 0 offline no_parse
             (Return (Page.requestBody
                        {| info_id := "weather"; info_name := "weather";
                           info_version := "1.0.0"; info_description := "";
                           info_author := ""; info_icon := None; info_category := None;
                           info_requiredEnvVars := [];
                           info_optionalEnvVars := ["WEATHER_DEFAULT_CITY"];
                           info_configSchema := None; info_tools := [] |}
                        {| info_tool_id := "get_weather"; info_tool_name := "";
                           info_tool_description := "" |}
                        (JObj ∅)
                        {[ "WEATHER_DEFAULT_CITY" := "" ]} ∅)))
  = Return (json (obj [("success", JBool true);
                       ("result", weather_result "Paris" (JStr "celsius"))]) 200).
Proof.
  assert (Hempty : forall name value,
            ({[ "WEATHER_DEFAULT_CITY" := "" ]} : gmap string string) !! name = Some value ->
            value = "").
  { intros name value H. apply lookup_singleton_Some in H as [_ <-]. reflexivity. }
  assert (Hdefault : string_or_falsy (field (JObj ∅) "defaultCity")) by (right; reflexivity).
  destruct (untouched_weather_form (no_declarations "weather") (no_declarations "pixabay")
              0 offline no_parse
              {| info_id := "weather"; info_name := "weather";
                 info_version := "1.0.0"; info_description := "";
                 info_author := ""; info_icon := None; info_category := None;
                 info_requiredEnvVars := [];
                 info_optionalEnvVars := ["WEATHER_DEFAULT_CITY"];
                 info_configSchema := None; info_tools := [] |}
              {| info_tool_id := "get_weather"; info_tool_name := "";
                 info_tool_description := "" |}
              {[ "WEATHER_DEFAULT_CITY" := "" ]} ∅
              eq_refl ltac:(discriminate) eq_refl Hempty Hdefault)
    as (_ & Hparams & city & Hcity & Hpost).
  assert (Hparis : city = "Paris") by (vm_compute in Hcity; congruence).
  subst city. rewrite Hparams in Hpost. exact (Hpost eq_refl).
Defined.

(** X23.  Submitting the pixabay form with the environment fields
    untouched: they are all empty, so the tool is gated off and the
    handler answers 500 with the not-available error, whatever the
    parameters and the configuration. *)
Theorem untouched_pixabay_env
    (wm pm : PluginManifest) (now : Z)
    (search : list (string * string) -> JsVal -> PluginLogger -> PluginStorageAPI -> M JsVal)
    (stn : string -> option Z) (plugin : PluginInfo) (tool : ToolInfo)
    (params config : gmap string JsVal) :
  manifest_id wm <> manifest_id pm -> manifest_id pm <> "" ->
  info_id plugin = manifest_id pm -> info_tool_id tool = "search_images" ->
  outcome (POST wm pm now search stn
             (Return (Page.requestBody plugin tool (JObj params)
                        (Page.initialEnv plugin) config)))
  = Return (json (obj [("success", JBool false);
                       ("error",
                         JStr "Tool search_images is not available (missing required env vars)")])
              500).
Proof.
  intros Hne Hnonempty Hid Htool. unfold Page.requestBody.
  rewrite POST_calls_executeTool.
  - rewrite requestBody_options. unfold executeTool.
    rewrite (executeTool_resolved (loadedPlugins wm pm search stn) now
               {| opt_pluginId := JStr (info_id plugin);
                  opt_toolId := JStr (info_tool_id tool);
                  opt_params := JObj params;
                  opt_env := JObj (JStr <$> Page.initialEnv plugin);
                  opt_config := JObj config |}
               (pixabayPlugin pm search stn)
               {| tool_id := "search_images";
                  createTool := fun ctx => Pixabay.createSearchPixabayTool search ctx;
                  isAvailable := Some (fun env =>
                    let* key := get env "PIXABAY_API_KEY" in ret (truthy key)) |}).
    + cbn [isAvailable opt_env opt_toolId].
      change (JObj (JStr <$> Page.initialEnv plugin)) with (env_of (Page.initialEnv plugin)).
      rewrite pixabay_key, !bind_ret, Htool.
      destruct (Page.initialEnv plugin !! "PIXABAY_API_KEY") as [value |] eqn:Hvalue.
      * rewrite (initialEnv_empty _ _ _ Hvalue). reflexivity.
      * reflexivity.
    + cbn [opt_pluginId]. rewrite Hid. apply getPlugin_pixabay, Hne.
    + cbn [opt_toolId]. rewrite Htool. reflexivity.
  - reflexivity.
  - change (truthy (JStr (info_id plugin)) = true). rewrite Hid. simpl.
    destruct (String.eqb_spec (manifest_id pm) ""); [contradiction | reflexivity].
  - change (truthy (JStr (info_tool_id tool)) = true). rewrite Htool. reflexivity.
Qed.

Lemma untouched_pixabay_env_witness :
  outcome (POST (no_declarations "weather") (no_declarations "pixabay") 0 offline no_parse
             (Return (Page.requestBody
                        {| info_id := "pixabay"; info_name := "pixabay";
                           info_version := "1.0.0"; info_description := "";
                           info_author := ""; info_icon := None; info_category := None;
                           info_requiredEnvVars := ["PIXABAY_API_KEY"];
                           info_optionalEnvVars := [];
                           info_configSchema := None; info_tools := [] |}
                        {| info_tool_id := "search_images"; info_tool_name := "";
                           info_tool_description := "" |}
                        (JObj {[ "q" := JStr "cat" ]})
                        (Page.initialEnv
                           {| info_id := "pixabay"; info_name := "pixabay";
                              info_version := "1.0.0"; info_description := "";
                              info_author := ""; info_icon := None; info_category := None;
                              info_requiredEnvVars := ["PIXABAY_API_KEY"];
                              info_optionalEnvVars := [];
                              info_configSchema := None; info_tools := [] |})
                        ∅)))
  = Return (json (obj [("success", JBool false);
                       ("error",
                         JStr "Tool search_images is not available (missing required env vars)")])
              500).
Proof.
  apply (untouched_pixabay_env (no_declarations "weather") (no_declarations "pixabay")
           0 offline no_parse
           {| info_id := "pixabay"; info_name := "pixabay";
              info_version := "1.0.0"; info_description := "";
              info_author := ""; info_icon := None; info_category := None;
              info_requiredEnvVars := ["PIXABAY_API_KEY"];
              info_optionalEnvVars := [];
              info_configSchema := None; info_tools := [] |}
           {| info_tool_id := "search_images"; info_tool_name := "";
              info_tool_description := "" |}
           {[ "q" := JStr "cat" ]} ∅); try discriminate; reflexivity.
Defined.

Lemma formParams_sends_witness :
  Page.isRequired (Pixabay.schema (JStr "en") true (JNum 6)) "q" = true.
Proof.
  apply (proj2 (formParams_sends (Pixabay.schema (JStr "en") true (JNum 6)) ∅ "q" JNull)).
  vm_compute. reflexivity.
Defined.

(** X24.  The query of the untouched pixabay form, for a truthy API key
    and a configuration whose values have a text.  The form starts every
    boolean at [false] and every number at 0, and sends them.  So the
    query the tool sends asks for [safesearch=false] even when the
    configuration turns safe search on, while the zeros of [page] and
    [per_page] are falsy and give way to page 1 and to the configured
    page size; the search term is the empty string, and no optional
    filter is sent. *)
Theorem untouched_pixabay_form_query
    (search : list (string * string) -> JsVal -> PluginLogger -> PluginStorageAPI -> M JsVal)
    (now : Z) (pluginId apiKey : JsVal) (config vars : gmap string JsVal) :
  vars !! "PIXABAY_API_KEY" = Some apiKey -> truthy apiKey = true ->
  textual apiKey = true ->
  map_Forall (fun _ value => textual value = true) config ->
  let schema := Pixabay.schema (JStr "en") true (JNum 6) in
  let params := Page.formParams schema (Page.initialParams schema) in
  let query :=
    [("key", to_string apiKey);
     ("q", "");
     ("lang", to_string (pixabay_language (JObj config)));
     ("image_type", "all");
     ("orientation", "all");
     ("editors_choice", "false");
     ("safesearch", "false");
     ("order", "popular");
     ("page", "1");
     ("per_page", to_string (pixabay_perPage (JObj config)))] in
  pixabay_query (JObj params) apiKey (pixabay_language (JObj config))
    (pixabay_safeSearch (JObj config)) (pixabay_perPage (JObj config))
  = query
  /\ exists tool logged rest,
       Pixabay.createSearchPixabayTool search
         (Loader.executionContext now pluginId (JObj config) (JObj vars)) = ret tool
       /\ trace (execute tool (JObj params)) = logged :: OutboundRequest query :: rest.
Proof.
  intros Hvars Hkey Htext Hconfig schema params query.
  assert (Hparams : params
                    = list_to_map
                        [("q", JStr ""); ("min_width", JNum 0); ("min_height", JNum 0);
                         ("editors_choice", JBool false); ("safesearch", JBool false);
                         ("page", JNum 0); ("per_page", JNum 0)])
    by (vm_compute; reflexivity).
  assert (Hquery : pixabay_query (JObj params) apiKey (pixabay_language (JObj config))
                     (pixabay_safeSearch (JObj config)) (pixabay_perPage (JObj config))
                   = query)
    by (rewrite Hparams; reflexivity).
  split; [exact Hquery |]. rewrite <- Hquery.
  apply search_images_sends; try assumption.
  rewrite Hparams. intros name value Hlookup.
  apply elem_of_list_to_map_2 in Hlookup.
  repeat (apply elem_of_cons in Hlookup as [[= _ ->] | Hlookup]; [reflexivity |]).
  apply elem_of_nil in Hlookup. destruct Hlookup.
Qed.

Lemma untouched_pixabay_form_query_witness :
  pixabay_query
    (JObj (Page.formParams (Pixabay.schema (JStr "en") true (JNum 6))
             (Page.initialParams (Pixabay.schema (JStr "en") true (JNum 6)))))
    (JStr "secret") (pixabay_language (JObj {[ "safeSearch" := JBool true ]}))
    (pixabay_safeSearch (JObj {[ "safeSearch" := JBool true ]}))
    (pixabay_perPage (JObj {[ "safeSearch" := JBool true ]}))
  = [("key", "secret"); ("q", ""); ("lang", "en"); ("image_type", "all");
     ("orientation", "all"); ("editors_choice", "false"); ("safesearch", "false");
     ("order", "popular"); ("page", "1"); ("per_page", "6")].
Proof.
  assert (Hvars : ({[ "PIXABAY_API_KEY" := JStr "secret" ]} : gmap string JsVal)
                  !! "PIXABAY_API_KEY" = Some (JStr "secret"))
    by (vm_compute; reflexivity).
  assert (Hconfig : map_Forall (fun (_ : string) value => textual value = true)
                      ({[ "safeSearch" := JBool true ]} : gmap string JsVal))
    by (apply map_Forall_singleton; reflexivity).
  exact (proj1 (untouched_pixabay_form_query offline 0 (JStr "pixabay") (JStr "secret")
                  {[ "safeSearch" := JBool true ]}
                  {[ "PIXABAY_API_KEY" := JStr "secret" ]}
                  Hvars eq_refl eq_refl Hconfig)).
Defined.
